(** * Guarded step execution: the executor and the completion router

    A shallow embedding of [app/agent/executor.py], [app/llm/router.py],
    [app/llm/json_parse.py], [app/llm/prompts.py] and
    [app/tools/registry.py] with the signatures of the two registered
    tools; then of the tools themselves, [app/tools/doc_writer.py] and
    [app/tools/metrics.py], of the memory service of
    [app/agent/memory.py] over the memory table of [app/db/repo.py], and
    of the planner of [app/agent/planner.py] with the plan schema of
    [app/llm/schemas.py].

    Modelling choices.
    - Text is [string]: the bytes of the UTF-8 encoding of the [str].  The
      [str] methods (case folding, whitespace, line breaks, lengths and
      slices) and the character class [[a-z0-9]] are those of Python on
      ASCII text: a byte above 127 is carried unchanged by them and belongs
      to none of their classes.  The placeholder patterns, which test word
      boundaries, read the characters of the text: there [\w], [\s],
      [str.lower] and [re.IGNORECASE] are those of Unicode 14.0, the
      version of CPython 3.11.
    - A Python value is a [value]: the JSON values, plus [VOpaque] for any
      other object, which is true and which the code observes through [str]
      only.  A float is observed through its truth value and its [str]
      only, and is carried as that pair.  A dictionary keeps its insertion
      order and has string keys.
    - The [json] module, the HTTP endpoint, the process settings and the
      bodies of the registered tools are collaborators: they are the fields
      of a [world].  The trace sink stores what it is given.  Log lines are
      dropped, but what they format is evaluated.  The statements about a
      step with the registered tools behind it take a world whose tool
      bodies are the embedded ones.
    - Suspension points ([await]) are sequential calls.  A raised exception
      is the [Raise] result of a computation in the monad [M];
      [try_catch] is [try ... except Exception].  Time spent in
      [asyncio.sleep] is recorded in milliseconds.
    - The memory table is the list of its rows in insertion order, the
      order in which a [select] without [ORDER BY] reads them from SQLite;
      the column [created_at] is not read by the code and is left out.  The
      digits [uuid4] draws for a new id are an argument.
    - Validation of a plan follows the field types of the schema; the
      message of a rejection is not modelled, only its class.  The message
      of a [TypeError] raised by binding keyword arguments is the one of
      CPython. *)

From Stdlib Require Import String Ascii List Bool Arith ZArith Lia.
From Stdlib Require Import Decimal DecimalString Permutation.
Import ListNotations.
Local Open Scope list_scope.
Local Open Scope string_scope.
Set Warnings "-register-all".

(** ** Text: the [str] methods the code uses, on ASCII text *)

Module Text.

Definition nl : string := String "010"%char "".
Definition cr : string := String "013"%char "".
Definition dq : string := String "034"%char "".
Definition bslash : string := String "092"%char "".

Definition in_range (lo hi : nat) (c : ascii) : bool :=
  let n := nat_of_ascii c in ((lo <=? n)%nat && (n <=? hi)%nat)%bool.

(** [str.isspace] on ASCII: TAB, LF, VT, FF, CR, FS, GS, RS, US, space. *)
Definition is_space (c : ascii) : bool := in_range 9 13 c || in_range 28 32 c.

Definition is_upper (c : ascii) : bool := in_range 65 90 c.
Definition is_lower (c : ascii) : bool := in_range 97 122 c.
Definition is_digit (c : ascii) : bool := in_range 48 57 c.

(** [[a-z0-9]] *)
Definition is_lower_alnum (c : ascii) : bool := is_lower c || is_digit c.

(** [\w] on ASCII *)
Definition is_word (c : ascii) : bool :=
  is_lower c || is_upper c || is_digit c || Ascii.eqb c "_"%char.

Definition lower_char (c : ascii) : ascii :=
  if is_upper c then ascii_of_nat (nat_of_ascii c + 32) else c.

Fixpoint lower (s : string) : string :=
  match s with
  | EmptyString => EmptyString
  | String c r => String (lower_char c) (lower r)
  end.

Definition is_empty (s : string) : bool :=
  match s with EmptyString => true | String _ _ => false end.

Fixpoint lstrip (s : string) : string :=
  match s with
  | EmptyString => EmptyString
  | String c r => if is_space c then lstrip r else s
  end.

Fixpoint rstrip (s : string) : string :=
  match s with
  | EmptyString => EmptyString
  | String c r =>
      match rstrip r with
      | EmptyString => if is_space c then EmptyString else String c EmptyString
      | r' => String c r'
      end
  end.

(** [s.strip()] *)
Definition strip (s : string) : string := rstrip (lstrip s).

(** [s.startswith(p)] *)
Definition startswith (p s : string) : bool := prefix p s.

(** [sub in s] *)
Fixpoint contains (sub s : string) : bool :=
  prefix sub s ||
  match s with
  | EmptyString => false
  | String _ r => contains sub r
  end.

(** [c in s] for a one-character [c] *)
Fixpoint has_char (c : ascii) (s : string) : bool :=
  match s with
  | EmptyString => false
  | String x r => Ascii.eqb x c || has_char c r
  end.

(** [s.split(c)[0]] *)
Fixpoint before (c : ascii) (s : string) : string :=
  match s with
  | EmptyString => EmptyString
  | String x r => if Ascii.eqb x c then EmptyString else String x (before c r)
  end.

(** [s[:n]] *)
Fixpoint take (n : nat) (s : string) : string :=
  match n, s with
  | S k, String c r => String c (take k r)
  | _, _ => EmptyString
  end.

(** [s.replace(c, by)] for a one-character [c] *)
Fixpoint replace_char (c : ascii) (by_ : string) (s : string) : string :=
  match s with
  | EmptyString => EmptyString
  | String x r =>
      (if Ascii.eqb x c then by_ else String x EmptyString) ++ replace_char c by_ r
  end.

(** Line boundaries of [str.splitlines] on ASCII: LF, VT, FF, CR, FS, GS, RS. *)
Definition is_linebreak (c : ascii) : bool := in_range 10 13 c || in_range 28 30 c.

Fixpoint splitlines_from (cur : string) (after_cr : bool) (s : string) : list string :=
  match s with
  | EmptyString => if is_empty cur then [] else [cur]
  | String c r =>
      if Ascii.eqb c "010"%char && after_cr then splitlines_from EmptyString false r
      else if is_linebreak c then cur :: splitlines_from EmptyString (Ascii.eqb c "013"%char) r
      else splitlines_from (cur ++ String c EmptyString) false r
  end.

(** [s.splitlines()]; CR LF is one boundary. *)
Definition splitlines (s : string) : list string := splitlines_from EmptyString false s.

Fixpoint runs_from (p : ascii -> bool) (cur : string) (s : string) : list string :=
  match s with
  | EmptyString => if is_empty cur then [] else [cur]
  | String c r =>
      if p c then runs_from p (cur ++ String c EmptyString) r
      else if is_empty cur then runs_from p EmptyString r
      else cur :: runs_from p EmptyString r
  end.

(** [re.findall(r"[a-z0-9]+", s)]: the maximal runs, left to right. *)
Definition findall_lower_alnum (s : string) : list string :=
  runs_from is_lower_alnum EmptyString s.

End Text.

(** ** Unicode: the characters of a text, and the [re] patterns over them *)

Module Unicode.
Import Text.

Definition in_span (lo hi c : N) : bool := ((lo <=? c) && (c <=? hi))%N.

Definition in_ranges (ranges : list (N * N)) (c : N) : bool :=
  existsb (fun r => in_span (fst r) (snd r) c) ranges.

(** The characters above 127 that [\s] matches. *)
Definition space_ranges : list (N * N) :=
  [(0x85, 0x85); (0xA0, 0xA0); (0x1680, 0x1680); (0x2000, 0x200A); (0x2028, 0x2029);
   (0x202F, 0x202F); (0x205F, 0x205F); (0x3000, 0x3000)]%N.

(** The characters above 127 that [\w] matches, as ranges: the letters and
    the digits and numbers of Unicode 14.0, the version of CPython 3.11. *)
Definition word_ranges : list (N * N) :=
  [(0xAA, 0xAA); (0xB2, 0xB3); (0xB5, 0xB5); (0xB9, 0xBA); (0xBC, 0xBE); (0xC0, 0xD6);
   (0xD8, 0xF6); (0xF8, 0x2C1); (0x2C6, 0x2D1); (0x2E0, 0x2E4); (0x2EC, 0x2EC);
   (0x2EE, 0x2EE); (0x370, 0x374); (0x376, 0x377); (0x37A, 0x37D); (0x37F, 0x37F);
   (0x386, 0x386); (0x388, 0x38A); (0x38C, 0x38C); (0x38E, 0x3A1); (0x3A3, 0x3F5);
   (0x3F7, 0x481); (0x48A, 0x52F); (0x531, 0x556); (0x559, 0x559); (0x560, 0x588);
   (0x5D0, 0x5EA); (0x5EF, 0x5F2); (0x620, 0x64A); (0x660, 0x669); (0x66E, 0x66F);
   (0x671, 0x6D3); (0x6D5, 0x6D5); (0x6E5, 0x6E6); (0x6EE, 0x6FC); (0x6FF, 0x6FF);
   (0x710, 0x710); (0x712, 0x72F); (0x74D, 0x7A5); (0x7B1, 0x7B1); (0x7C0, 0x7EA);
   (0x7F4, 0x7F5); (0x7FA, 0x7FA); (0x800, 0x815); (0x81A, 0x81A); (0x824, 0x824);
   (0x828, 0x828); (0x840, 0x858); (0x860, 0x86A); (0x870, 0x887); (0x889, 0x88E);
   (0x8A0, 0x8C9); (0x904, 0x939); (0x93D, 0x93D); (0x950, 0x950); (0x958, 0x961);
   (0x966, 0x96F); (0x971, 0x980); (0x985, 0x98C); (0x98F, 0x990); (0x993, 0x9A8);
   (0x9AA, 0x9B0); (0x9B2, 0x9B2); (0x9B6, 0x9B9); (0x9BD, 0x9BD); (0x9CE, 0x9CE);
   (0x9DC, 0x9DD); (0x9DF, 0x9E1); (0x9E6, 0x9F1); (0x9F4, 0x9F9); (0x9FC, 0x9FC);
   (0xA05, 0xA0A); (0xA0F, 0xA10); (0xA13, 0xA28); (0xA2A, 0xA30); (0xA32, 0xA33);
   (0xA35, 0xA36); (0xA38, 0xA39); (0xA59, 0xA5C); (0xA5E, 0xA5E); (0xA66, 0xA6F);
   (0xA72, 0xA74); (0xA85, 0xA8D); (0xA8F, 0xA91); (0xA93, 0xAA8); (0xAAA, 0xAB0);
   (0xAB2, 0xAB3); (0xAB5, 0xAB9); (0xABD, 0xABD); (0xAD0, 0xAD0); (0xAE0, 0xAE1);
   (0xAE6, 0xAEF); (0xAF9, 0xAF9); (0xB05, 0xB0C); (0xB0F, 0xB10); (0xB13, 0xB28);
   (0xB2A, 0xB30); (0xB32, 0xB33); (0xB35, 0xB39); (0xB3D, 0xB3D); (0xB5C, 0xB5D);
   (0xB5F, 0xB61); (0xB66, 0xB6F); (0xB71, 0xB77); (0xB83, 0xB83); (0xB85, 0xB8A);
   (0xB8E, 0xB90); (0xB92, 0xB95); (0xB99, 0xB9A); (0xB9C, 0xB9C); (0xB9E, 0xB9F);
   (0xBA3, 0xBA4); (0xBA8, 0xBAA); (0xBAE, 0xBB9); (0xBD0, 0xBD0); (0xBE6, 0xBF2);
   (0xC05, 0xC0C); (0xC0E, 0xC10); (0xC12, 0xC28); (0xC2A, 0xC39); (0xC3D, 0xC3D);
   (0xC58, 0xC5A); (0xC5D, 0xC5D); (0xC60, 0xC61); (0xC66, 0xC6F); (0xC78, 0xC7E);
   (0xC80, 0xC80); (0xC85, 0xC8C); (0xC8E, 0xC90); (0xC92, 0xCA8); (0xCAA, 0xCB3);
   (0xCB5, 0xCB9); (0xCBD, 0xCBD); (0xCDD, 0xCDE); (0xCE0, 0xCE1); (0xCE6, 0xCEF);
   (0xCF1, 0xCF2); (0xD04, 0xD0C); (0xD0E, 0xD10); (0xD12, 0xD3A); (0xD3D, 0xD3D);
   (0xD4E, 0xD4E); (0xD54, 0xD56); (0xD58, 0xD61); (0xD66, 0xD78); (0xD7A, 0xD7F);
   (0xD85, 0xD96); (0xD9A, 0xDB1); (0xDB3, 0xDBB); (0xDBD, 0xDBD); (0xDC0, 0xDC6);
   (0xDE6, 0xDEF); (0xE01, 0xE30); (0xE32, 0xE33); (0xE40, 0xE46); (0xE50, 0xE59);
   (0xE81, 0xE82); (0xE84, 0xE84); (0xE86, 0xE8A); (0xE8C, 0xEA3); (0xEA5, 0xEA5);
   (0xEA7, 0xEB0); (0xEB2, 0xEB3); (0xEBD, 0xEBD); (0xEC0, 0xEC4); (0xEC6, 0xEC6);
   (0xED0, 0xED9); (0xEDC, 0xEDF); (0xF00, 0xF00); (0xF20, 0xF33); (0xF40, 0xF47);
   (0xF49, 0xF6C); (0xF88, 0xF8C); (0x1000, 0x102A); (0x103F, 0x1049); (0x1050, 0x1055);
   (0x105A, 0x105D); (0x1061, 0x1061); (0x1065, 0x1066); (0x106E, 0x1070);
   (0x1075, 0x1081); (0x108E, 0x108E); (0x1090, 0x1099); (0x10A0, 0x10C5);
   (0x10C7, 0x10C7); (0x10CD, 0x10CD); (0x10D0, 0x10FA); (0x10FC, 0x1248);
   (0x124A, 0x124D); (0x1250, 0x1256); (0x1258, 0x1258); (0x125A, 0x125D);
   (0x1260, 0x1288); (0x128A, 0x128D); (0x1290, 0x12B0); (0x12B2, 0x12B5);
   (0x12B8, 0x12BE); (0x12C0, 0x12C0); (0x12C2, 0x12C5); (0x12C8, 0x12D6);
   (0x12D8, 0x1310); (0x1312, 0x1315); (0x1318, 0x135A); (0x1369, 0x137C);
   (0x1380, 0x138F); (0x13A0, 0x13F5); (0x13F8, 0x13FD); (0x1401, 0x166C);
   (0x166F, 0x167F); (0x1681, 0x169A); (0x16A0, 0x16EA); (0x16EE, 0x16F8);
   (0x1700, 0x1711); (0x171F, 0x1731); (0x1740, 0x1751); (0x1760, 0x176C);
   (0x176E, 0x1770); (0x1780, 0x17B3); (0x17D7, 0x17D7); (0x17DC, 0x17DC);
   (0x17E0, 0x17E9); (0x17F0, 0x17F9); (0x1810, 0x1819); (0x1820, 0x1878);
   (0x1880, 0x1884); (0x1887, 0x18A8); (0x18AA, 0x18AA); (0x18B0, 0x18F5);
   (0x1900, 0x191E); (0x1946, 0x196D); (0x1970, 0x1974); (0x1980, 0x19AB);
   (0x19B0, 0x19C9); (0x19D0, 0x19DA); (0x1A00, 0x1A16); (0x1A20, 0x1A54);
   (0x1A80, 0x1A89); (0x1A90, 0x1A99); (0x1AA7, 0x1AA7); (0x1B05, 0x1B33);
   (0x1B45, 0x1B4C); (0x1B50, 0x1B59); (0x1B83, 0x1BA0); (0x1BAE, 0x1BE5);
   (0x1C00, 0x1C23); (0x1C40, 0x1C49); (0x1C4D, 0x1C7D); (0x1C80, 0x1C88);
   (0x1C90, 0x1CBA); (0x1CBD, 0x1CBF); (0x1CE9, 0x1CEC); (0x1CEE, 0x1CF3);
   (0x1CF5, 0x1CF6); (0x1CFA, 0x1CFA); (0x1D00, 0x1DBF); (0x1E00, 0x1F15);
   (0x1F18, 0x1F1D); (0x1F20, 0x1F45); (0x1F48, 0x1F4D); (0x1F50, 0x1F57);
   (0x1F59, 0x1F59); (0x1F5B, 0x1F5B); (0x1F5D, 0x1F5D); (0x1F5F, 0x1F7D);
   (0x1F80, 0x1FB4); (0x1FB6, 0x1FBC); (0x1FBE, 0x1FBE); (0x1FC2, 0x1FC4);
   (0x1FC6, 0x1FCC); (0x1FD0, 0x1FD3); (0x1FD6, 0x1FDB); (0x1FE0, 0x1FEC);
   (0x1FF2, 0x1FF4); (0x1FF6, 0x1FFC); (0x2070, 0x2071); (0x2074, 0x2079);
   (0x207F, 0x2089); (0x2090, 0x209C); (0x2102, 0x2102); (0x2107, 0x2107);
   (0x210A, 0x2113); (0x2115, 0x2115); (0x2119, 0x211D); (0x2124, 0x2124);
   (0x2126, 0x2126); (0x2128, 0x2128); (0x212A, 0x212D); (0x212F, 0x2139);
   (0x213C, 0x213F); (0x2145, 0x2149); (0x214E, 0x214E); (0x2150, 0x2189);
   (0x2460, 0x249B); (0x24EA, 0x24FF); (0x2776, 0x2793); (0x2C00, 0x2CE4);
   (0x2CEB, 0x2CEE); (0x2CF2, 0x2CF3); (0x2CFD, 0x2CFD); (0x2D00, 0x2D25);
   (0x2D27, 0x2D27); (0x2D2D, 0x2D2D); (0x2D30, 0x2D67); (0x2D6F, 0x2D6F);
   (0x2D80, 0x2D96); (0x2DA0, 0x2DA6); (0x2DA8, 0x2DAE); (0x2DB0, 0x2DB6);
   (0x2DB8, 0x2DBE); (0x2DC0, 0x2DC6); (0x2DC8, 0x2DCE); (0x2DD0, 0x2DD6);
   (0x2DD8, 0x2DDE); (0x2E2F, 0x2E2F); (0x3005, 0x3007); (0x3021, 0x3029);
   (0x3031, 0x3035); (0x3038, 0x303C); (0x3041, 0x3096); (0x309D, 0x309F);
   (0x30A1, 0x30FA); (0x30FC, 0x30FF); (0x3105, 0x312F); (0x3131, 0x318E);
   (0x3192, 0x3195); (0x31A0, 0x31BF); (0x31F0, 0x31FF); (0x3220, 0x3229);
   (0x3248, 0x324F); (0x3251, 0x325F); (0x3280, 0x3289); (0x32B1, 0x32BF);
   (0x3400, 0x4DBF); (0x4E00, 0xA48C); (0xA4D0, 0xA4FD); (0xA500, 0xA60C);
   (0xA610, 0xA62B); (0xA640, 0xA66E); (0xA67F, 0xA69D); (0xA6A0, 0xA6EF);
   (0xA717, 0xA71F); (0xA722, 0xA788); (0xA78B, 0xA7CA); (0xA7D0, 0xA7D1);
   (0xA7D3, 0xA7D3); (0xA7D5, 0xA7D9); (0xA7F2, 0xA801); (0xA803, 0xA805);
   (0xA807, 0xA80A); (0xA80C, 0xA822); (0xA830, 0xA835); (0xA840, 0xA873);
   (0xA882, 0xA8B3); (0xA8D0, 0xA8D9); (0xA8F2, 0xA8F7); (0xA8FB, 0xA8FB);
   (0xA8FD, 0xA8FE); (0xA900, 0xA925); (0xA930, 0xA946); (0xA960, 0xA97C);
   (0xA984, 0xA9B2); (0xA9CF, 0xA9D9); (0xA9E0, 0xA9E4); (0xA9E6, 0xA9FE);
   (0xAA00, 0xAA28); (0xAA40, 0xAA42); (0xAA44, 0xAA4B); (0xAA50, 0xAA59);
   (0xAA60, 0xAA76); (0xAA7A, 0xAA7A); (0xAA7E, 0xAAAF); (0xAAB1, 0xAAB1);
   (0xAAB5, 0xAAB6); (0xAAB9, 0xAABD); (0xAAC0, 0xAAC0); (0xAAC2, 0xAAC2);
   (0xAADB, 0xAADD); (0xAAE0, 0xAAEA); (0xAAF2, 0xAAF4); (0xAB01, 0xAB06);
   (0xAB09, 0xAB0E); (0xAB11, 0xAB16); (0xAB20, 0xAB26); (0xAB28, 0xAB2E);
   (0xAB30, 0xAB5A); (0xAB5C, 0xAB69); (0xAB70, 0xABE2); (0xABF0, 0xABF9);
   (0xAC00, 0xD7A3); (0xD7B0, 0xD7C6); (0xD7CB, 0xD7FB); (0xF900, 0xFA6D);
   (0xFA70, 0xFAD9); (0xFB00, 0xFB06); (0xFB13, 0xFB17); (0xFB1D, 0xFB1D);
   (0xFB1F, 0xFB28); (0xFB2A, 0xFB36); (0xFB38, 0xFB3C); (0xFB3E, 0xFB3E);
   (0xFB40, 0xFB41); (0xFB43, 0xFB44); (0xFB46, 0xFBB1); (0xFBD3, 0xFD3D);
   (0xFD50, 0xFD8F); (0xFD92, 0xFDC7); (0xFDF0, 0xFDFB); (0xFE70, 0xFE74);
   (0xFE76, 0xFEFC); (0xFF10, 0xFF19); (0xFF21, 0xFF3A); (0xFF41, 0xFF5A);
   (0xFF66, 0xFFBE); (0xFFC2, 0xFFC7); (0xFFCA, 0xFFCF); (0xFFD2, 0xFFD7);
   (0xFFDA, 0xFFDC); (0x10000, 0x1000B); (0x1000D, 0x10026); (0x10028, 0x1003A);
   (0x1003C, 0x1003D); (0x1003F, 0x1004D); (0x10050, 0x1005D); (0x10080, 0x100FA);
   (0x10107, 0x10133); (0x10140, 0x10178); (0x1018A, 0x1018B); (0x10280, 0x1029C);
   (0x102A0, 0x102D0); (0x102E1, 0x102FB); (0x10300, 0x10323); (0x1032D, 0x1034A);
   (0x10350, 0x10375); (0x10380, 0x1039D); (0x103A0, 0x103C3); (0x103C8, 0x103CF);
   (0x103D1, 0x103D5); (0x10400, 0x1049D); (0x104A0, 0x104A9); (0x104B0, 0x104D3);
   (0x104D8, 0x104FB); (0x10500, 0x10527); (0x10530, 0x10563); (0x10570, 0x1057A);
   (0x1057C, 0x1058A); (0x1058C, 0x10592); (0x10594, 0x10595); (0x10597, 0x105A1);
   (0x105A3, 0x105B1); (0x105B3, 0x105B9); (0x105BB, 0x105BC); (0x10600, 0x10736);
   (0x10740, 0x10755); (0x10760, 0x10767); (0x10780, 0x10785); (0x10787, 0x107B0);
   (0x107B2, 0x107BA); (0x10800, 0x10805); (0x10808, 0x10808); (0x1080A, 0x10835);
   (0x10837, 0x10838); (0x1083C, 0x1083C); (0x1083F, 0x10855); (0x10858, 0x10876);
   (0x10879, 0x1089E); (0x108A7, 0x108AF); (0x108E0, 0x108F2); (0x108F4, 0x108F5);
   (0x108FB, 0x1091B); (0x10920, 0x10939); (0x10980, 0x109B7); (0x109BC, 0x109CF);
   (0x109D2, 0x10A00); (0x10A10, 0x10A13); (0x10A15, 0x10A17); (0x10A19, 0x10A35);
   (0x10A40, 0x10A48); (0x10A60, 0x10A7E); (0x10A80, 0x10A9F); (0x10AC0, 0x10AC7);
   (0x10AC9, 0x10AE4); (0x10AEB, 0x10AEF); (0x10B00, 0x10B35); (0x10B40, 0x10B55);
   (0x10B58, 0x10B72); (0x10B78, 0x10B91); (0x10BA9, 0x10BAF); (0x10C00, 0x10C48);
   (0x10C80, 0x10CB2); (0x10CC0, 0x10CF2); (0x10CFA, 0x10D23); (0x10D30, 0x10D39);
   (0x10E60, 0x10E7E); (0x10E80, 0x10EA9); (0x10EB0, 0x10EB1); (0x10F00, 0x10F27);
   (0x10F30, 0x10F45); (0x10F51, 0x10F54); (0x10F70, 0x10F81); (0x10FB0, 0x10FCB);
   (0x10FE0, 0x10FF6); (0x11003, 0x11037); (0x11052, 0x1106F); (0x11071, 0x11072);
   (0x11075, 0x11075); (0x11083, 0x110AF); (0x110D0, 0x110E8); (0x110F0, 0x110F9);
   (0x11103, 0x11126); (0x11136, 0x1113F); (0x11144, 0x11144); (0x11147, 0x11147);
   (0x11150, 0x11172); (0x11176, 0x11176); (0x11183, 0x111B2); (0x111C1, 0x111C4);
   (0x111D0, 0x111DA); (0x111DC, 0x111DC); (0x111E1, 0x111F4); (0x11200, 0x11211);
   (0x11213, 0x1122B); (0x11280, 0x11286); (0x11288, 0x11288); (0x1128A, 0x1128D);
   (0x1128F, 0x1129D); (0x1129F, 0x112A8); (0x112B0, 0x112DE); (0x112F0, 0x112F9);
   (0x11305, 0x1130C); (0x1130F, 0x11310); (0x11313, 0x11328); (0x1132A, 0x11330);
   (0x11332, 0x11333); (0x11335, 0x11339); (0x1133D, 0x1133D); (0x11350, 0x11350);
   (0x1135D, 0x11361); (0x11400, 0x11434); (0x11447, 0x1144A); (0x11450, 0x11459);
   (0x1145F, 0x11461); (0x11480, 0x114AF); (0x114C4, 0x114C5); (0x114C7, 0x114C7);
   (0x114D0, 0x114D9); (0x11580, 0x115AE); (0x115D8, 0x115DB); (0x11600, 0x1162F);
   (0x11644, 0x11644); (0x11650, 0x11659); (0x11680, 0x116AA); (0x116B8, 0x116B8);
   (0x116C0, 0x116C9); (0x11700, 0x1171A); (0x11730, 0x1173B); (0x11740, 0x11746);
   (0x11800, 0x1182B); (0x118A0, 0x118F2); (0x118FF, 0x11906); (0x11909, 0x11909);
   (0x1190C, 0x11913); (0x11915, 0x11916); (0x11918, 0x1192F); (0x1193F, 0x1193F);
   (0x11941, 0x11941); (0x11950, 0x11959); (0x119A0, 0x119A7); (0x119AA, 0x119D0);
   (0x119E1, 0x119E1); (0x119E3, 0x119E3); (0x11A00, 0x11A00); (0x11A0B, 0x11A32);
   (0x11A3A, 0x11A3A); (0x11A50, 0x11A50); (0x11A5C, 0x11A89); (0x11A9D, 0x11A9D);
   (0x11AB0, 0x11AF8); (0x11C00, 0x11C08); (0x11C0A, 0x11C2E); (0x11C40, 0x11C40);
   (0x11C50, 0x11C6C); (0x11C72, 0x11C8F); (0x11D00, 0x11D06); (0x11D08, 0x11D09);
   (0x11D0B, 0x11D30); (0x11D46, 0x11D46); (0x11D50, 0x11D59); (0x11D60, 0x11D65);
   (0x11D67, 0x11D68); (0x11D6A, 0x11D89); (0x11D98, 0x11D98); (0x11DA0, 0x11DA9);
   (0x11EE0, 0x11EF2); (0x11FB0, 0x11FB0); (0x11FC0, 0x11FD4); (0x12000, 0x12399);
   (0x12400, 0x1246E); (0x12480, 0x12543); (0x12F90, 0x12FF0); (0x13000, 0x1342E);
   (0x14400, 0x14646); (0x16800, 0x16A38); (0x16A40, 0x16A5E); (0x16A60, 0x16A69);
   (0x16A70, 0x16ABE); (0x16AC0, 0x16AC9); (0x16AD0, 0x16AED); (0x16B00, 0x16B2F);
   (0x16B40, 0x16B43); (0x16B50, 0x16B59); (0x16B5B, 0x16B61); (0x16B63, 0x16B77);
   (0x16B7D, 0x16B8F); (0x16E40, 0x16E96); (0x16F00, 0x16F4A); (0x16F50, 0x16F50);
   (0x16F93, 0x16F9F); (0x16FE0, 0x16FE1); (0x16FE3, 0x16FE3); (0x17000, 0x187F7);
   (0x18800, 0x18CD5); (0x18D00, 0x18D08); (0x1AFF0, 0x1AFF3); (0x1AFF5, 0x1AFFB);
   (0x1AFFD, 0x1AFFE); (0x1B000, 0x1B122); (0x1B150, 0x1B152); (0x1B164, 0x1B167);
   (0x1B170, 0x1B2FB); (0x1BC00, 0x1BC6A); (0x1BC70, 0x1BC7C); (0x1BC80, 0x1BC88);
   (0x1BC90, 0x1BC99); (0x1D2E0, 0x1D2F3); (0x1D360, 0x1D378); (0x1D400, 0x1D454);
   (0x1D456, 0x1D49C); (0x1D49E, 0x1D49F); (0x1D4A2, 0x1D4A2); (0x1D4A5, 0x1D4A6);
   (0x1D4A9, 0x1D4AC); (0x1D4AE, 0x1D4B9); (0x1D4BB, 0x1D4BB); (0x1D4BD, 0x1D4C3);
   (0x1D4C5, 0x1D505); (0x1D507, 0x1D50A); (0x1D50D, 0x1D514); (0x1D516, 0x1D51C);
   (0x1D51E, 0x1D539); (0x1D53B, 0x1D53E); (0x1D540, 0x1D544); (0x1D546, 0x1D546);
   (0x1D54A, 0x1D550); (0x1D552, 0x1D6A5); (0x1D6A8, 0x1D6C0); (0x1D6C2, 0x1D6DA);
   (0x1D6DC, 0x1D6FA); (0x1D6FC, 0x1D714); (0x1D716, 0x1D734); (0x1D736, 0x1D74E);
   (0x1D750, 0x1D76E); (0x1D770, 0x1D788); (0x1D78A, 0x1D7A8); (0x1D7AA, 0x1D7C2);
   (0x1D7C4, 0x1D7CB); (0x1D7CE, 0x1D7FF); (0x1DF00, 0x1DF1E); (0x1E100, 0x1E12C);
   (0x1E137, 0x1E13D); (0x1E140, 0x1E149); (0x1E14E, 0x1E14E); (0x1E290, 0x1E2AD);
   (0x1E2C0, 0x1E2EB); (0x1E2F0, 0x1E2F9); (0x1E7E0, 0x1E7E6); (0x1E7E8, 0x1E7EB);
   (0x1E7ED, 0x1E7EE); (0x1E7F0, 0x1E7FE); (0x1E800, 0x1E8C4); (0x1E8C7, 0x1E8CF);
   (0x1E900, 0x1E943); (0x1E94B, 0x1E94B); (0x1E950, 0x1E959); (0x1EC71, 0x1ECAB);
   (0x1ECAD, 0x1ECAF); (0x1ECB1, 0x1ECB4); (0x1ED01, 0x1ED2D); (0x1ED2F, 0x1ED3D);
   (0x1EE00, 0x1EE03); (0x1EE05, 0x1EE1F); (0x1EE21, 0x1EE22); (0x1EE24, 0x1EE24);
   (0x1EE27, 0x1EE27); (0x1EE29, 0x1EE32); (0x1EE34, 0x1EE37); (0x1EE39, 0x1EE39);
   (0x1EE3B, 0x1EE3B); (0x1EE42, 0x1EE42); (0x1EE47, 0x1EE47); (0x1EE49, 0x1EE49);
   (0x1EE4B, 0x1EE4B); (0x1EE4D, 0x1EE4F); (0x1EE51, 0x1EE52); (0x1EE54, 0x1EE54);
   (0x1EE57, 0x1EE57); (0x1EE59, 0x1EE59); (0x1EE5B, 0x1EE5B); (0x1EE5D, 0x1EE5D);
   (0x1EE5F, 0x1EE5F); (0x1EE61, 0x1EE62); (0x1EE64, 0x1EE64); (0x1EE67, 0x1EE6A);
   (0x1EE6C, 0x1EE72); (0x1EE74, 0x1EE77); (0x1EE79, 0x1EE7C); (0x1EE7E, 0x1EE7E);
   (0x1EE80, 0x1EE89); (0x1EE8B, 0x1EE9B); (0x1EEA1, 0x1EEA3); (0x1EEA5, 0x1EEA9);
   (0x1EEAB, 0x1EEBB); (0x1F100, 0x1F10C); (0x1FBF0, 0x1FBF9); (0x20000, 0x2A6DF);
   (0x2A700, 0x2B738); (0x2B740, 0x2B81D); (0x2B820, 0x2CEA1); (0x2CEB0, 0x2EBE0);
   (0x2F800, 0x2FA1D); (0x30000, 0x3134A)]%N.

(** [\w] in a pattern over [str]: a letter, a digit or number, or the
    underscore. *)
Definition word_char (c : N) : bool :=
  if (c <? 0x80)%N then is_word (ascii_of_N c) else in_ranges word_ranges c.

(** [\s] in a pattern over [str]. *)
Definition blank (c : N) : bool :=
  if (c <? 0x80)%N then is_space (ascii_of_N c) else in_ranges space_ranges c.

(** The six payload bits of a continuation byte. *)
Definition continuation (b : ascii) : option N :=
  let n := N_of_ascii b in
  if in_span 0x80 0xBF n then Some (n - 0x80)%N else None.

Definition scalar (lo hi cp : N) (k : nat) : option (N * nat) :=
  if in_span lo hi cp then Some (cp, k) else None.

(** The character that the lead byte [b0] and the bytes after it encode,
    with the number of those bytes it takes: one to three continuation
    bytes, and a value that needs that many. *)
Definition sequence (b0 : ascii) (r : string) : option (N * nat) :=
  let n0 := N_of_ascii b0 in
  match r with
  | String b1 r1 =>
      match continuation b1 with
      | Some c1 =>
          if in_span 0xC0 0xDF n0 then scalar 0x80 0x7FF ((n0 - 0xC0) * 64 + c1)%N 1
          else
            match r1 with
            | String b2 r2 =>
                match continuation b2 with
                | Some c2 =>
                    if in_span 0xE0 0xEF n0
                    then scalar 0x800 0xFFFF (((n0 - 0xE0) * 64 + c1) * 64 + c2)%N 2
                    else
                      match r2 with
                      | String b3 _ =>
                          match continuation b3 with
                          | Some c3 =>
                              if in_span 0xF0 0xF7 n0
                              then scalar 0x10000 0x10FFFF
                                     ((((n0 - 0xF0) * 64 + c1) * 64 + c2) * 64 + c3)%N 3
                              else None
                          | None => None
                          end
                      | EmptyString => None
                      end
                | None => None
                end
            | EmptyString => None
            end
      | None => None
      end
  | EmptyString => None
  end.

(** A byte outside any well-formed sequence, which the encoding of a
    [str] never holds, stands for itself: the lone surrogate that
    [surrogateescape] makes of it, a character of no class. *)
Definition stray (b : ascii) : N := (0xDC00 + N_of_ascii b)%N.

(** The characters (code points) of a text, the text being the UTF-8
    encoding of the [str]. *)
Fixpoint decode (s : string) : list N :=
  match s with
  | EmptyString => []
  | String b0 r0 =>
      if (N_of_ascii b0 <? 0x80)%N then N_of_ascii b0 :: decode r0
      else
        match sequence b0 r0, r0 with
        | Some (cp, 1), String _ r1 => cp :: decode r1
        | Some (cp, 2), String _ (String _ r2) => cp :: decode r2
        | Some (cp, 3), String _ (String _ (String _ r3)) => cp :: decode r3
        | _, _ => stray b0 :: decode r0
        end
  end.

(** [str.lower] on one character, as far as a pattern of ASCII literals,
    [\w], [\s] and [\b] can tell.  The capital I with a dot goes to an [i]
    and a combining dot, the Kelvin sign to [k].  Every other character
    above 127 goes to one character above 127 of the same class (word
    character, blank or neither) that is neither the dotless i nor the
    long s unless it was, and is carried unchanged. *)
Definition lowered (c : N) : list N :=
  if in_span 0x41 0x5A c then [c + 32]%N
  else if (c =? 0x130)%N then [0x69; 0x307]%N
  else if (c =? 0x212A)%N then [0x6B]%N
  else [c].

Definition to_lower (t : list N) : list N := flat_map lowered t.

(** The lower-case mapping [re.IGNORECASE] compares with, which is one
    character long; above 127 it meets ASCII at the same two places. *)
Definition fold (c : N) : N :=
  if in_span 0x41 0x5A c then (c + 32)%N
  else if (c =? 0x130)%N then 0x69%N
  else if (c =? 0x212A)%N then 0x6B%N
  else c.

(** A literal [p] of the ASCII range under [re.IGNORECASE]: the
    characters whose lower case is that of [p], and for [i] and [s] also
    the dotless i and the long s. *)
Definition lit_matches (p x : N) : bool :=
  let lo := fold p in
  (fold x =? lo)%N
  || ((lo =? 0x69)%N && (x =? 0x131)%N)
  || ((lo =? 0x73)%N && (x =? 0x17F)%N).

(** The constructs of the placeholder patterns: a literal character, a
    starred character class and the word boundary [\b]. *)
Inductive atom : Type :=
| Lit (c : N)
| Star (cls : N -> bool)
| WordB.

Definition word_before (prev : option N) : bool :=
  match prev with Some c => word_char c | None => false end.

Definition word_here (s : list N) : bool :=
  match s with c :: _ => word_char c | [] => false end.

(** Does the pattern match at this position?  [prev] is the character
    before the position.  A star tries every length. *)
Fixpoint match_here (p : list atom) : option N -> list N -> bool :=
  match p with
  | [] => fun _ _ => true
  | a :: p' =>
      let k := match_here p' in
      match a with
      | Lit c => fun _ s =>
          match s with
          | x :: r => if lit_matches c x then k (Some x) r else false
          | [] => false
          end
      | WordB => fun prev s =>
          if xorb (word_before prev) (word_here s) then k prev s else false
      | Star cls =>
          fix star (prev : option N) (s : list N) : bool :=
            if k prev s then true
            else match s with
                 | x :: r => if cls x then star (Some x) r else false
                 | [] => false
                 end
      end
  end.

(** [re.search(p, s, flags=re.IGNORECASE)] is not [None], scanning from a
    position whose previous character is [prev]. *)
Fixpoint search_from (p : list atom) (prev : option N) (s : list N) : bool :=
  if match_here p prev s then true
  else match s with
       | x :: r => search_from p (Some x) r
       | [] => false
       end.

Definition search (p : list atom) (s : list N) : bool := search_from p None s.

(** The characters of a text of the ASCII range. *)
Fixpoint codes (s : string) : list N :=
  match s with
  | EmptyString => []
  | String c r => N_of_ascii c :: codes r
  end.

Definition lits (s : string) : list atom := map Lit (codes s).

(** A text of the ASCII range, and a text that does not start inside an
    encoded character: it is empty or starts with an ASCII character. *)
Fixpoint plain (s : string) : bool :=
  match s with
  | EmptyString => true
  | String c r => (N_of_ascii c <? 0x80)%N && plain r
  end.

Definition boundary (s : string) : bool :=
  match s with
  | EmptyString => true
  | String c _ => (N_of_ascii c <? 0x80)%N
  end.

End Unicode.

(** ** Python values *)

Module Py.
Import Text.

Inductive value : Type :=
| VNone
| VBool (b : bool)
| VInt (z : Z)
| VFloat (nonzero : bool) (text : string)
| VStr (s : string)
| VList (l : list value)
| VDict (d : list (string * value))
| VOpaque (text : string).

(** [isinstance(v, str)], [isinstance(v, list)], [isinstance(v, dict)] *)
Definition is_str (v : value) : bool := match v with VStr _ => true | _ => false end.
Definition is_list (v : value) : bool := match v with VList _ => true | _ => false end.
Definition is_dict (v : value) : bool := match v with VDict _ => true | _ => false end.

(** [bool(v)] *)
Definition truthy (v : value) : bool :=
  match v with
  | VNone => false
  | VBool b => b
  | VInt z => negb (Z.eqb z 0)
  | VFloat nz _ => nz
  | VStr s => negb (is_empty s)
  | VList l => match l with [] => false | _ => true end
  | VDict d => match d with [] => false | _ => true end
  | VOpaque _ => true
  end.

(** [a or b] *)
Definition py_or (a b : value) : value := if truthy a then a else b.

Definition str_of_Z (z : Z) : string := NilZero.string_of_int (Z.to_int z).

Definition hex_digit (n : nat) : ascii :=
  if (n <? 10)%nat then ascii_of_nat (48 + n) else ascii_of_nat (87 + n).

(** One character of [repr] of a [str] quoted with [q]. *)
Definition repr_char (q : ascii) (c : ascii) : string :=
  let n := nat_of_ascii c in
  if Ascii.eqb c q || Ascii.eqb c "092"%char then String "092"%char (String c "")
  else if Ascii.eqb c "010"%char then bslash ++ "n"
  else if Ascii.eqb c "013"%char then bslash ++ "r"
  else if Ascii.eqb c "009"%char then bslash ++ "t"
  else if (n <? 32)%nat || (n =? 127)%nat
       then bslash ++ "x" ++ String (hex_digit (n / 16)) (String (hex_digit (n mod 16)) "")
  else String c "".

Fixpoint repr_body (q : ascii) (s : string) : string :=
  match s with
  | EmptyString => EmptyString
  | String c r => repr_char q c ++ repr_body q r
  end.

(** [repr(s)]: single quotes, unless [s] holds one and no double quote. *)
Definition repr_str (s : string) : string :=
  let q := if has_char "'"%char s && negb (has_char "034"%char s)
           then "034"%char else "'"%char in
  String q (repr_body q s ++ String q "").

(** [repr(v)] *)
Fixpoint py_repr (v : value) : string :=
  match v with
  | VNone => "None"
  | VBool true => "True"
  | VBool false => "False"
  | VInt z => str_of_Z z
  | VFloat _ t => t
  | VStr s => repr_str s
  | VList l =>
      "[" ++ (fix items (l : list value) : string :=
                match l with
                | [] => ""
                | x :: r =>
                    py_repr x ++ match r with [] => "" | _ => ", " ++ items r end
                end) l ++ "]"
  | VDict d =>
      "{" ++ (fix items (d : list (string * value)) : string :=
                match d with
                | [] => ""
                | (k, x) :: r =>
                    repr_str k ++ ": " ++ py_repr x
                    ++ match r with [] => "" | _ => ", " ++ items r end
                end) d ++ "}"
  | VOpaque t => t
  end.

(** [str(v)] *)
Definition py_str (v : value) : string :=
  match v with
  | VStr s => s
  | _ => py_repr v
  end.

(** Dictionaries keep insertion order; keys are strings. *)
Fixpoint dict_find (k : string) (d : list (string * value)) : option value :=
  match d with
  | [] => None
  | (k', v) :: r => if String.eqb k' k then Some v else dict_find k r
  end.

(** [d.get(k, default)] *)
Definition dict_get (k : string) (default : value) (d : list (string * value)) : value :=
  match dict_find k d with Some v => v | None => default end.

(** [d[k] = v] *)
Fixpoint dict_set (k : string) (v : value) (d : list (string * value))
  : list (string * value) :=
  match d with
  | [] => [(k, v)]
  | (k', v') :: r => if String.eqb k' k then (k, v) :: r else (k', v') :: dict_set k v r
  end.

(** [d.setdefault(k, v)] *)
Definition dict_setdefault (k : string) (v : value) (d : list (string * value))
  : list (string * value) :=
  match dict_find k d with Some _ => d | None => (d ++ [(k, v)])%list end.

Definition mem (x : string) (l : list string) : bool := existsb (String.eqb x) l.

(** The elements of a sequence seen as a set, in order of first occurrence. *)
Fixpoint dedup (l : list string) : list string :=
  match l with
  | [] => []
  | x :: r => if mem x r then dedup r else x :: dedup r
  end.

End Py.

(** ** Exceptions, collaborators and the effect monad *)

Module Runtime.
Import Text Py.

Inductive exn_class : Type :=
| LLMError | ValueError | JSONDecodeError | KeyError | TypeError | AttributeError
| TransportError | ToolFailure.

(** An exception: its class and [str(e)]. *)
Record exn : Type := mk_exn { exn_cls : exn_class; exn_text : string }.

Inductive result (A : Type) : Type :=
| Ok (a : A)
| Raise (e : exn).
Arguments Ok {A} a.
Arguments Raise {A} e.

(** The tools registered by [app/tools/doc_writer.py] and
    [app/tools/metrics.py]. *)
Inductive tool : Type := doc_write | metrics_generate.

(** What one [client.post] does: a response (status code, [r.text],
    [r.json()]) or a transport exception such as a timeout. *)
Inductive http_outcome : Type :=
| Responded (status_code : Z) (text : string) (json : result value)
| Failed (e : exn).

Record world : Type := mk_world {
  (** settings *)
  LLM_PROVIDER : string;
  GROQ_API_KEY : string;
  (** the endpoint: the [n]-th request, with its system and user message *)
  endpoint : nat -> string -> string -> http_outcome;
  (** [json.loads]; [None] is [JSONDecodeError] *)
  json_loads : string -> option value;
  (** [json.dumps(v, ensure_ascii=False, indent=2)] on a serializable [v] *)
  json_dumps_indent : value -> string;
  (** the body of a tool: the [n]-th tool call of the step, with its
      keyword arguments *)
  tool_body : tool -> nat -> list (string * value) -> result value
}.

(** What a step leaves behind. *)
Record state : Type := mk_state {
  requests : nat;                                 (* posts made so far *)
  slept : list N;                                 (* backoffs, milliseconds *)
  trace_log : list (string * value);              (* event type, payload *)
  tool_log : list (tool * list (string * value))  (* tool calls, in order *)
}.

Definition initial : state := mk_state 0 [] [] [].

Definition M (A : Type) : Type := state -> result A * state.

Definition ret {A} (a : A) : M A := fun st => (Ok a, st).
Definition raise {A} (e : exn) : M A := fun st => (Raise e, st).
Definition bind {A B} (m : M A) (k : A -> M B) : M B :=
  fun st => match m st with
            | (Ok a, st') => k a st'
            | (Raise e, st') => (Raise e, st')
            end.
(** [try: m except Exception as e: h e] *)
Definition try_catch {A} (m : M A) (h : exn -> M A) : M A :=
  fun st => match m st with
            | (Ok a, st') => (Ok a, st')
            | (Raise e, st') => h e st'
            end.
Definition lift {A} (r : result A) : M A := fun st => (r, st).

Declare Scope step_scope.
Delimit Scope step_scope with step.
Notation "x <- m ;; k" := (bind m (fun x => k))
  (at level 61, m at next level, right associativity) : step_scope.
Notation "m ;;; k" := (bind m (fun _ => k))
  (at level 61, right associativity) : step_scope.

(** [await asyncio.sleep(seconds)] *)
Definition sleep (ms : N) : M unit :=
  fun st => (Ok tt, mk_state (requests st) (slept st ++ [ms])%list (trace_log st) (tool_log st)).

(** [await client.post(url, headers=headers, json=payload)] *)
Definition post (W : world) (system user : string) : M (Z * string * result value) :=
  fun st =>
    let st' := mk_state (S (requests st)) (slept st) (trace_log st) (tool_log st) in
    match endpoint W (requests st) system user with
    | Responded code text json => (Ok (code, text, json), st')
    | Failed e => (Raise e, st')
    end.

(** [await tool] applied to keyword arguments *)
Definition call (W : world) (t : tool) (kwargs : list (string * value)) : M value :=
  fun st =>
    (tool_body W t (length (tool_log st)) kwargs,
     mk_state (requests st) (slept st) (trace_log st) (tool_log st ++ [(t, kwargs)])%list).

(** [json.dumps(v)] succeeds: no foreign object inside. *)
Fixpoint jsonable (v : value) : bool :=
  match v with
  | VOpaque _ => false
  | VList l => forallb jsonable l
  | VDict d =>
      (fix all (d : list (string * value)) : bool :=
         match d with
         | [] => true
         | (_, x) :: r => jsonable x && all r
         end) d
  | _ => true
  end.

End Runtime.

(** ** app/llm/json_parse.py *)

Module JsonParse.
Import Text Py Runtime.

(** [candidate[start:]] for [start] the smaller of the first brace and the
    first bracket. *)
Fixpoint from_first_open (s : string) : option string :=
  match s with
  | EmptyString => None
  | String x r =>
      if Ascii.eqb x "{"%char || Ascii.eqb x "["%char then Some s else from_first_open r
  end.

(** [candidate[: last + 1]] for [last] the larger of the last closing brace
    and the last closing bracket. *)
Fixpoint to_last_close (s : string) : option string :=
  match s with
  | EmptyString => None
  | String x r =>
      match to_last_close r with
      | Some r' => Some (String x r')
      | None =>
          if Ascii.eqb x "}"%char || Ascii.eqb x "]"%char
          then Some (String x EmptyString) else None
      end
  end.

Definition extract_json (W : world) (text : value) : result value :=
  match (if truthy text then text else VStr "") with
  | VStr t =>
      let candidate := strip t in
      let located :=
        if startswith "{" candidate || startswith "[" candidate then Some candidate
        else match from_first_open candidate with
             | Some c => Some (strip c)
             | None => None
             end in
      match located with
      | None => Raise (mk_exn ValueError "No JSON object/array found in text")
      | Some candidate =>
          match json_loads W candidate with
          | Some v => Ok v
          | None =>
              match to_last_close candidate with
              | Some candidate2 =>
                  match json_loads W candidate2 with
                  | Some v => Ok v
                  | None => Raise (mk_exn JSONDecodeError "")
                  end
              | None => Raise (mk_exn JSONDecodeError "")
              end
          end
      end
  | _ => Raise (mk_exn AttributeError "object has no attribute 'strip'")
  end.

End JsonParse.

(** ** app/llm/prompts.py: the prompts the executor sends *)

Module Prompts.
Import Text.

Definition EXECUTOR_SYSTEM : string :=
  String.concat nl [
    "You are an execution agent that runs ONE step.";
    "";
    "Return ONLY valid JSON matching exactly this schema:";
    "{";
    "  " ++ dq ++ "tool" ++ dq ++ ": " ++ dq ++ "doc_write" ++ dq ++ " | " ++ dq ++ "metrics_generate" ++ dq ++ ",";
    "  " ++ dq ++ "args" ++ dq ++ ": { ... },";
    "  " ++ dq ++ "decision" ++ dq ++ ": " ++ dq ++ "string" ++ dq ++ ",";
    "  " ++ dq ++ "reason" ++ dq ++ ": " ++ dq ++ "string" ++ dq ++ ",";
    "  " ++ dq ++ "confidence" ++ dq ++ ": 0-100";
    "}";
    "";
    "CRITICAL RULES:";
    "- Choose EXACTLY ONE tool. Never output multiple tools. Never use separators like " ++ dq ++ "|" ++ dq ++ " or " ++ dq ++ "," ++ dq ++ ".";
    "- Output MUST be a single JSON object (no markdown, no code fences).";
    "- args MUST match the chosen tool signature exactly.";
    "- Keep JSON small and valid. Put long text into doc_write " ++ dq ++ "content" ++ dq ++ " only.";
    "";
    "DOMAIN ANCHORING (VERY IMPORTANT):";
    "- You MUST stay aligned to BOTH:";
    "  (a) the step title, AND";
    "  (b) context.task_goal.";
    "- Do NOT switch product category, industry, or target customer.";
    "  Forbidden drift examples (unless explicitly in context.task_goal):";
    "  - e-commerce, CRM, law firms, HR compliance, ATS/resume screening, logistics, etc.";
    "";
    "HARD ANTI-DRIFT RULE (must follow):";
    "- If you cannot confidently stay on-domain for context.task_goal, you MUST NOT guess.";
    "  You MUST choose tool=" ++ dq ++ "doc_write" ++ dq ++ " and output ONLY clarifying questions needed.";
    "- If the step output would mention a different industry than context.task_goal,";
    "  you MUST output a Clarify doc instead of guessing.";
    "";
    "CONTEXT REQUIRED:";
    "- For doc_write, ALWAYS include context.task_goal, context.assumptions, context.constraints in args.context.";
    "- If any of these are unknown, set them to empty string / empty list (not null),";
    "  and explain assumptions in content.";
    "";
    "Tool signatures:";
    "";
    "1) doc_write args (MUST match exactly):";
    "{";
    "  " ++ dq ++ "title" ++ dq ++ ": " ++ dq ++ "string" ++ dq ++ ",";
    "  " ++ dq ++ "content" ++ dq ++ ": " ++ dq ++ "string" ++ dq ++ ",";
    "  " ++ dq ++ "doc_type" ++ dq ++ ": " ++ dq ++ "string" ++ dq ++ ",";
    "  " ++ dq ++ "context" ++ dq ++ ": {";
    "    " ++ dq ++ "task_goal" ++ dq ++ ": " ++ dq ++ "string" ++ dq ++ ",";
    "    " ++ dq ++ "assumptions" ++ dq ++ ": [" ++ dq ++ "string" ++ dq ++ "],";
    "    " ++ dq ++ "constraints" ++ dq ++ ": [" ++ dq ++ "string" ++ dq ++ "]";
    "  }";
    "}";
    "";
    "doc_write requirements:";
    "- content MUST be a single markdown string (never object/array).";
    "- Include at least 2 sections and at least 5 bullet points total.";
    "- Avoid placeholders like " ++ dq ++ "[Insert...]" ++ dq ++ " or " ++ dq ++ "Bullet 1" ++ dq ++ ".";
    "- Avoid duplicated sections (do not repeat the same header twice).";
    "- Every section MUST be grounded to the domain in context.task_goal.";
    "- When relevant, include: assumptions, risks, timeline, KPIs, and acceptance criteria.";
    "- For steps involving pricing/marketing/integration, include specifics:";
    "  - Pricing: tiers, limits, target segment, metrics to validate";
    "  - Marketing: ICP, channels, messaging, budget split, timeline, KPIs";
    "  - Integrations: scope, APIs, data flow, failure handling, rollout plan";
    "";
    "doc_type guidance (choose one):";
    "- prd, gtm, integration_plan, test_plan, checklist, roadmap, kpi_doc, runbook, generic";
    "";
    "2) metrics_generate args:";
    "- You MAY pass any key-value inputs (optional).";
    "- Return metrics as a JSON OBJECT (not a string).";
    "- Metrics MUST be specific to context.task_goal domain (no generic defaults unless relevant).";
    "- If context.task_goal is empty/unknown OR you are unsure of domain, DO NOT use metrics_generate.";
    "  Use doc_write and ask clarifying questions.";
    "";
    "Tool selection guidance:";
    "- If the step is about writing a plan/document/strategy -> choose doc_write.";
    "- If the step is about defining/measuring KPIs or generating a metrics plan -> choose metrics_generate.";
    ""
  ].

Definition ARG_FIXER_SYSTEM : string :=
  String.concat nl [
    "You fix tool call arguments.";
    "";
    "Return ONLY valid JSON object:";
    "{ " ++ dq ++ "args" ++ dq ++ ": { ... } }";
    "";
    "Rules:";
    "- MUST match tool signature exactly.";
    "- Do not include extra keys.";
    "- Keep it minimal.";
    "- If tool is doc_write: content MUST be a string (markdown), and args MUST include doc_type and context.";
    "- Ensure args.context has keys: task_goal, assumptions, constraints (use empty values if missing).";
    ""
  ].

End Prompts.

(** ** app/llm/router.py *)

Module Router.
Import Text Py Runtime JsonParse.
Local Open Scope step_scope.

(** A quoted word, and a block of lines. *)
Definition q (s : string) : string := dq ++ s ++ dq.
Definition lines (l : list string) : string := String.concat nl l.

Definition llm_error (msg : string) : exn := mk_exn LLMError msg.

(** [(text or "")[:n].replace(LF, "\\n").replace(CR, "\\r")].  The slice or
    the [replace] raises on a true value that is not a [str]. *)
Definition _safe_snippet (text : value) (n : nat) : result string :=
  match (if truthy text then text else VStr "") with
  | VStr t =>
      Ok (replace_char "013"%char (bslash ++ "r")
            (replace_char "010"%char (bslash ++ "n") (take n t)))
  | VList _ => Raise (mk_exn AttributeError "'list' object has no attribute 'replace'")
  | _ => Raise (mk_exn TypeError "object is not subscriptable")
  end.

(** [status_code in (429, 500, 502, 503, 504)] *)
Definition transient (code : Z) : bool :=
  existsb (Z.eqb code) [429; 500; 502; 503; 504]%Z.

(** [0.6 * (2**attempt)] seconds, in milliseconds. *)
Definition backoff (attempt : nat) : N := 600 * 2 ^ N.of_nat attempt.

(** [data["choices"][0]["message"]["content"]], if every subscript exists. *)
Definition chat_content (data : value) : option value :=
  match data with
  | VDict d =>
      match dict_find "choices" d with
      | Some (VList (VDict c :: _)) =>
          match dict_find "message" c with
          | Some (VDict m) => dict_find "content" m
          | _ => None
          end
      | _ => None
      end
  | _ => None
  end.

(** How one turn of the retry loop ends: [return], or the next turn with
    [last_err] set. *)
Inductive turn : Type :=
| Returned (content : value)
| Next (last_err : exn).

(** The body of [for attempt in range(3)]. *)
Definition chat_attempt (W : world) (system user : string) (attempt : nat) : M turn :=
  try_catch
    (r <- post W system user ;;
     let '(status_code, text, json) := r in
     if transient status_code then
       let msg := "Groq transient " ++ str_of_Z status_code ++ ": " ++ text in
       sleep (backoff attempt) ;;;
       ret (Next (llm_error msg))
     else if (400 <=? status_code)%Z then
       raise (llm_error ("Groq error " ++ str_of_Z status_code ++ ": " ++ text))
     else
       data <- lift json ;;
       match chat_content data with
       | Some content => ret (Returned content)
       | None => raise (llm_error ("Unexpected Groq response: " ++ py_str data))
       end)
    (fun e =>
       sleep (backoff attempt) ;;;
       ret (Next e)).

Fixpoint chat_loop (W : world) (system user : string)
  (attempts : list nat) (last_err : option exn) : M value :=
  match attempts with
  | [] =>
      raise (llm_error ("Groq call failed after retries: "
                        ++ match last_err with Some e => exn_text e | None => "None" end))
  | attempt :: rest =>
      t <- chat_attempt W system user attempt ;;
      match t with
      | Returned content => ret content
      | Next e => chat_loop W system user rest (Some e)
      end
  end.

Definition _groq_chat (W : world) (system user : string) : M value :=
  if is_empty (GROQ_API_KEY W) then
    raise (llm_error "Missing GROQ_API_KEY. Put it in your .env")
  else chat_loop W system user (seq 0 3) None.

Definition mock_decision (user : string) : value :=
  VDict [("tool", VStr "doc_write");
         ("args", VDict [("title", VStr "Mock Output"); ("content", VStr user)]);
         ("decision", VStr "Mock tool");
         ("reason", VStr "No LLM key");
         ("confidence", VInt 50)].

Definition fallback_decision : value :=
  VDict [("tool", VStr "doc_write");
         ("args", VDict [("title", VStr "Step Output");
                         ("content", VStr "Fallback: produce a structured document for this step.")]);
         ("decision", VStr "Fallback doc_write");
         ("reason", VStr "LLM JSON formatting failed after retries.");
         ("confidence", VInt 0)].

Definition repair_system : string :=
  "You are a strict JSON formatter. Return ONLY a valid JSON object.".

Definition repair_user (text : value) : string :=
  "Fix and output ONLY a JSON object for this content:" ++ nl
  ++ py_str text ++ nl ++ "Return ONLY JSON.".

Definition schema_system : string :=
  "Return ONLY valid JSON. You MUST match the provided schema exactly.".

Definition schema_user (text2 : value) : string :=
  lines [
    "";
    "You must output a JSON object that matches this schema EXACTLY:";
    "";
    "{";
    "  " ++ q "tool" ++ ": " ++ q "doc_write" ++ " | " ++ q "metrics_generate" ++ ",";
    "  " ++ q "args" ++ ": { },";
    "  " ++ q "decision" ++ ": " ++ q "string" ++ ",";
    "  " ++ q "reason" ++ ": " ++ q "string" ++ ",";
    "  " ++ q "confidence" ++ ": 0";
    "}";
    "";
    "Rules:";
    "- tool MUST be exactly " ++ q "doc_write" ++ " or " ++ q "metrics_generate" ++ ".";
    "- confidence MUST be an integer 0-100.";
    "- Keep args SMALL. Do NOT output long text blocks.";
    "- If tool=" ++ q "doc_write" ++ ", args MUST be:";
    "  {";
    "    " ++ q "title" ++ ": " ++ q "string" ++ ",";
    "    " ++ q "content" ++ ": " ++ q "string";
    "  }";
    "  And content MUST be <= 200 characters.";
    "- Return ONLY JSON. Nothing else.";
    "";
    "Convert the following into a minimal valid object:";
    "";
    "CONTENT:";
    py_str text2;
    ""
  ].

(** One [try: parsed = extract_json(text) ... return parsed] with its
    [except Exception] handler, which formats a log line from
    [_safe_snippet(text)].  [Some] is the [return]; [None] falls through to
    the next attempt. *)
Definition parse_attempt (W : world) (check : value -> bool) (text : value)
  : M (option value) :=
  match extract_json W text with
  | Ok (VDict d) =>
      if check (VDict d) then ret (Some (VDict d))
      else _ <- lift (_safe_snippet text 400) ;; ret None
  | _ => _ <- lift (_safe_snippet text 400) ;; ret None
  end.

Definition llm_json (W : world) (system user : string) : M value :=
  let provider := strip (lower (LLM_PROVIDER W)) in
  if String.eqb provider "mock" then ret (mock_decision user)
  else if negb (String.eqb provider "groq") then
    raise (llm_error ("Unsupported LLM_PROVIDER=" ++ LLM_PROVIDER W ++ ". Use groq or mock."))
  else
    (* Attempt 1 *)
    text <- _groq_chat W system user ;;
    r1 <- parse_attempt W (fun _ => true) text ;;
    match r1 with
    | Some parsed => ret parsed
    | None =>
        (* Attempt 2: strict formatter *)
        text2 <- _groq_chat W repair_system (repair_user text) ;;
        r2 <- parse_attempt W (fun _ => true) text2 ;;
        match r2 with
        | Some parsed2 => ret parsed2
        | None =>
            (* Attempt 3: schema-forced minimal object; [json.dumps(parsed3)]
               must succeed too *)
            text3 <- _groq_chat W schema_system (schema_user text2) ;;
            r3 <- parse_attempt W jsonable text3 ;;
            match r3 with
            | Some parsed3 => ret parsed3
            | None => ret fallback_decision
            end
        end
    end.

End Router.

(** ** app/tools/registry.py, with the signatures of the registered tools *)

Module Registry.
Import Text Py Runtime.

Definition TOOLS : list (string * tool) :=
  [("doc_write", doc_write); ("metrics_generate", metrics_generate)].

Fixpoint lookup (name : string) (l : list (string * tool)) : option tool :=
  match l with
  | [] => None
  | (k, t) :: r => if String.eqb k name then Some t else lookup name r
  end.

Definition get_tool (name : string) : result tool :=
  match lookup name TOOLS with
  | Some t => Ok t
  | None => Raise (mk_exn KeyError ("Unknown tool: " ++ name))
  end.

(** [inspect.signature(tool).parameters.keys()]:
    [doc_write(title, content, doc_type=..., context=...)] and
    [metrics_generate] with its one starred parameter [kwargs]. *)
Definition parameters (t : tool) : list string :=
  match t with
  | doc_write => ["title"; "content"; "doc_type"; "context"]
  | metrics_generate => ["kwargs"]
  end.

End Registry.

(** ** app/agent/executor.py *)

Module Executor.
Import Text Unicode Py Runtime JsonParse Prompts Router Registry.
Local Open Scope step_scope.

Definition ALLOWED_TOOLS : list string := ["doc_write"; "metrics_generate"].

Definition ALLOWED_DOC_TYPES : list string :=
  ["prd"; "gtm"; "integration_plan"; "test_plan"; "checklist"; "roadmap"; "kpi_doc";
   "runbook"; "generic"; "spec"; "risk_register"; "user_research"; "onboarding"].

Definition _safe_jsonable (v : value) : value :=
  if jsonable v then v else VStr (py_str v).

Definition _pretty (W : world) (v : value) (limit : nat) : string :=
  let s := if is_dict v || is_list v
           then (if jsonable v then json_dumps_indent W v else py_repr v)
           else py_str v in
  take limit s.

Definition _clarify_title (step_title : string) : string :=
  let st := strip step_title in
  if startswith "clarify:" (lower st) then st else "Clarify: " ++ st.

Definition _normalize_tool_name (tool_name : value) : string :=
  match tool_name with
  | VStr s =>
      let t := strip s in
      let t := if has_char "|"%char t then strip (before "|"%char t) else t in
      let t := if has_char ","%char t then strip (before ","%char t) else t in
      if mem t ALLOWED_TOOLS then t else "doc_write"
  | _ => "doc_write"
  end.

Definition _clean_args_for_tool (t : tool) (args : value) : list (string * value) :=
  match args with
  | VDict d =>
      let valid_params := parameters t in
      match valid_params with
      | [] => d
      | _ => filter (fun kv => mem (fst kv) valid_params) d
      end
  | _ => [("title", VStr "Output"); ("content", VStr (py_str args))]
  end.

(** *** Guardrails *)

Definition not_close (c : N) : bool := negb (c =? 0x5D)%N.

(** [\[word[^\]]*\]] *)
Definition bracketed (word : string) : list atom :=
  (lits ("[" ++ word) ++ [Star not_close; Lit 0x5D%N])%list.

(** [\bword\b] *)
Definition whole (word : string) : list atom :=
  ([WordB] ++ lits word ++ [WordB])%list.

(** [\bbullet\s*d\b] *)
Definition bullet (d : ascii) : list atom :=
  ([WordB] ++ lits "bullet" ++ [Star blank; Lit (N_of_ascii d); WordB])%list.

Definition _PLACEHOLDER_PATTERNS : list (list atom) :=
  [bracketed "insert"; bracketed "target"; bracketed "assumption";
   bracketed "constraint"; bracketed "estimated";
   whole "tbd"; whole "lorem ipsum";
   bullet "1"%char; bullet "2"%char; bullet "3"%char].

(** The patterns are searched in the characters of the lower-cased text,
    with [re.IGNORECASE]. *)
Definition _contains_placeholders (text : string) : bool :=
  let low := to_lower (decode text) in
  existsb (fun pat => search pat low) _PLACEHOLDER_PATTERNS.

(** [ctx.get("task_goal")], stripped when it is a [str]. *)
Definition _extract_goal_from_context (ctx : value) : result string :=
  match ctx with
  | VDict d =>
      match dict_get "task_goal" VNone d with
      | VStr goal => Ok (strip goal)
      | _ => Ok ""
      end
  | _ => Raise (mk_exn AttributeError "object has no attribute 'get'")
  end.

Definition _DRIFT_TOKENS : list string :=
  ["e-commerce"; "ecommerce"; "crm"; "law firm"; "law firms"; "compliance"; "hr";
   "ats"; "resume"; "logistics"; "gaming"; "order management"; "inventory"; "billing"].

(** [{w for w in re.findall(r"[a-z0-9]+", s) if len(w) >= 4}] *)
Definition long_words (s : string) : list string :=
  dedup (filter (fun w => (4 <=? String.length w)%nat) (findall_lower_alnum s)).

(** [len(a.intersection(b))] for a set [a] *)
Definition overlap_count (a : list string) (b : string -> bool) : nat :=
  List.length (filter b a).

Definition _likely_domain_drift (task_goal step_title content : string) : bool :=
  let goal := lower task_goal in
  let out := lower content in
  if is_empty (strip goal) then false
  else if existsb (fun tok => contains tok out && negb (contains tok goal)) _DRIFT_TOKENS
  then true
  else
    let goal_words := long_words goal in
    let out_words := long_words out in
    match goal_words with
    | [] => true
    | _ =>
        let overlap := overlap_count goal_words (fun w => mem w out_words) in
        if (overlap <? 2)%nat then
          let st := lower step_title in
          let st_words := long_words st in
          let overlap2 :=
            overlap_count goal_words (fun w => mem w st_words || mem w out_words) in
          (overlap2 <? 2)%nat
        else false
    end.

Fixpoint seen_twice (seen : list string) (headers : list string) : bool :=
  match headers with
  | [] => false
  | h :: r => mem h seen || seen_twice (h :: seen) r
  end.

Definition _duplicate_headers (text : string) : bool :=
  let headers :=
    map strip (filter (fun ln => startswith "## " (strip ln)) (splitlines text)) in
  seen_twice [] headers.

(** *** The clarify document *)

Definition questions : list string :=
  ["What is the exact product category and target user persona for this goal?";
   "What is the #1 pain point we are solving (and top 2 secondary pains)?";
   "What is the primary activation event (what must a user do to get value)?";
   "What is the business model (free, freemium, subscription, enterprise) and expected pricing range?";
   "Any must-have integrations (e.g., Stripe, Apple/Google IAP, wearable devices, analytics stack)?";
   "What is the launch geography and the 6-month success target (users / revenue / retention)?"].

Definition bullets (xs : list string) : string :=
  match xs with
  | [] => "- (not provided)"
  | _ => String.concat nl (map (fun x => "- " ++ x) xs)
  end.

Definition _make_clarify_doc
  (step_title task_goal : string) (assumptions constraints : list string) : string :=
  let goal_line := if is_empty (strip task_goal) then "(missing)" else strip task_goal in
  let a := firstn 6 assumptions in
  let c := firstn 6 constraints in
  let q_md := String.concat nl (map (fun x => "- " ++ x) questions) in
  lines [
    "# " ++ _clarify_title step_title;
    "";
    "## Context";
    "- **task_goal:** " ++ goal_line;
    "- **assumptions:**";
    bullets a;
    "- **constraints:**";
    bullets c;
    "";
    "## Why I’m asking";
    "The previous output risked guessing or drifting from the goal. To keep this step accurate and on-domain, I need the details below.";
    "";
    "## Questions";
    q_md;
    ""
  ].

(** *** Schema enforcement for [doc_write] *)

(** [[str(x) for x in xs if str(x).strip()]] *)
Definition str_items (xs : list value) : list string :=
  map py_str (filter (fun x => negb (is_empty (strip (py_str x)))) xs).

Definition list_or_empty (v : value) : list value :=
  match v with VList l => l | _ => [] end.

Definition or_default (s default : string) : string :=
  if is_empty s then default else s.

(** The local variables of [_ensure_doc_write_args_schema], one by one. *)
Definition enforced_title (args : list (string * value)) : string :=
  or_default (strip (py_str (py_or (dict_get "title" VNone args) (VStr "Document"))))
             "Document".

Definition enforced_content (args : list (string * value)) : string :=
  match dict_get "content" VNone args with
  | VStr s => s
  | VNone => ""
  | v => py_str v
  end.

Definition enforced_doc_type (args : list (string * value)) : string :=
  let doc_type :=
    or_default (strip (py_str (py_or (dict_get "doc_type" VNone args) (VStr "generic"))))
               "generic" in
  if mem doc_type ALLOWED_DOC_TYPES then doc_type else "generic".

(** [ctx] *)
Definition given_context (args : list (string * value)) : list (string * value) :=
  match dict_get "context" VNone args with VDict c => c | _ => [] end.

Definition enforced_goal (args : list (string * value)) : string :=
  strip (py_str (py_or (dict_get "task_goal" VNone (given_context args)) (VStr ""))).

Definition enforced_assumptions (args : list (string * value)) : list string :=
  str_items (list_or_empty (dict_get "assumptions" VNone (given_context args))).

Definition enforced_constraints (args : list (string * value)) : list string :=
  str_items (list_or_empty (dict_get "constraints" VNone (given_context args))).

(** [ctx_fixed] *)
Definition enforced_context (args : list (string * value)) : list (string * value) :=
  [("task_goal", VStr (enforced_goal args));
   ("assumptions", VList (map VStr (enforced_assumptions args)));
   ("constraints", VList (map VStr (enforced_constraints args)))].

Definition _ensure_doc_write_args_schema (args : list (string * value))
  : list (string * value) :=
  [("title", VStr (enforced_title args));
   ("content", VStr (enforced_content args));
   ("doc_type", VStr (enforced_doc_type args));
   ("context", VDict (enforced_context args))].

(** *** The step *)

(** [await trace(db, task_id, step_id, event_type, payload)]: the tracer
    serializes the payload with [json.dumps] and appends the event. *)
Definition trace (task_id step_id event_type : string) (payload : value) : M unit :=
  if jsonable payload then
    fun st => (Ok tt, mk_state (requests st) (slept st)
                        (trace_log st ++ [(event_type, payload)])%list (tool_log st))
  else raise (mk_exn TypeError "Object is not JSON serializable").

(** [d.get(k, default)] on a value that must be a [dict]. *)
Definition get (d : value) (k : string) (default : value) : result value :=
  match d with
  | VDict l => Ok (dict_get k default l)
  | _ => Raise (mk_exn AttributeError "object has no attribute 'get'")
  end.

(** What the preparation hands to the retry loop. *)
Record prepared : Type := mk_prepared {
  p_tool_name : string;
  p_tool : tool;
  p_raw_args : value;
  p_clean_args : list (string * value)
}.

Definition clarify_call (step_title : string) : list (string * value) :=
  _ensure_doc_write_args_schema
    [("title", VStr (_clarify_title step_title));
     ("doc_type", VStr "generic");
     ("content", VStr (_make_clarify_doc step_title "" [] []));
     ("context", VDict [("task_goal", VStr ""); ("assumptions", VList []);
                        ("constraints", VList [])])].

(** From the tool lookup to the arguments of the first attempt. *)
Definition prepare (step_title : string) (memory : list (string * value))
  (tool_name : string) (raw_args : value) : result prepared :=
  (* Load tool (fallback safe) *)
  match (match get_tool tool_name with
         | Ok t => Ok (tool_name, t, raw_args)
         | Raise _ =>
             match get_tool "doc_write" with
             | Ok t => Ok ("doc_write", t, VDict [])
             | Raise e => Raise e
             end
         end) with
  | Raise e => Raise e
  | Ok (tool_name, t, raw_args) =>
      (* Enforce doc_write schema before execution *)
      match (if String.eqb tool_name "doc_write" then
               let raw_args := match raw_args with VDict d => d | _ => [] end in
               let raw_args := _ensure_doc_write_args_schema raw_args in
               let ctx := dict_get "context" VNone raw_args in
               match _extract_goal_from_context ctx with
               | Raise e => Raise e
               | Ok task_goal =>
                   if is_empty task_goal then
                     let ctx_assumptions := match ctx with
                                            | VDict c => dict_get "assumptions" (VList []) c
                                            | _ => VList [] end in
                     let ctx_constraints := match ctx with
                                            | VDict c => dict_get "constraints" (VList []) c
                                            | _ => VList [] end in
                     let raw_args := dict_set "title" (VStr (_clarify_title step_title)) raw_args in
                     let raw_args := dict_set "doc_type" (VStr "generic") raw_args in
                     let raw_args :=
                       dict_set "content"
                         (VStr (_make_clarify_doc step_title task_goal
                                  (map py_str (list_or_empty ctx_assumptions))
                                  (map py_str (list_or_empty ctx_constraints))))
                         raw_args in
                     Ok (VDict raw_args)
                   else Ok (VDict raw_args)
               end
             else Ok raw_args) with
      | Raise e => Raise e
      | Ok raw_args =>
          let clean_args := _clean_args_for_tool t raw_args in
          (* Ground metrics_generate to the goal if possible *)
          if String.eqb tool_name "metrics_generate" then
            let clean_args :=
              dict_setdefault "task_goal"
                (VStr (strip (py_str (dict_get "task_goal" (VStr "") memory)))) clean_args in
            let clean_args := dict_setdefault "step_title" (VStr step_title) clean_args in
            if negb (truthy (dict_get "task_goal" VNone clean_args)) then
              match get_tool "doc_write" with
              | Raise e => Raise e
              | Ok t =>
                  let raw_args := VDict (clarify_call step_title) in
                  Ok (mk_prepared "doc_write" t raw_args (_clean_args_for_tool t raw_args))
              end
            else Ok (mk_prepared tool_name t raw_args clean_args)
          else Ok (mk_prepared tool_name t raw_args clean_args)
      end
  end.

Definition bool_text (b : bool) : string := if b then "True" else "False".

Definition forced_clarify (step_title task_goal : string)
  (assumptions constraints : list string) (clarify : string)
  (bad_placeholders bad_dup bad_drift : bool) : value :=
  VDict [("tool", VStr "doc_write");
         ("args", VDict [("title", VStr (_clarify_title step_title));
                         ("content", VStr clarify);
                         ("doc_type", VStr "generic");
                         ("context", VDict [("task_goal", VStr task_goal);
                                            ("assumptions", VList (map VStr assumptions));
                                            ("constraints", VList (map VStr constraints))])]);
         ("decision", VStr "Forced clarify due to placeholders/duplication/domain drift risk.");
         ("reason", VStr ("bad_placeholders=" ++ bool_text bad_placeholders
                          ++ ", bad_dup_headers=" ++ bool_text bad_dup
                          ++ ", bad_domain_drift=" ++ bool_text bad_drift));
         ("confidence", VInt 100)].

(** The checks on the text of a successful [doc_write] call: the pair
    [(output, final_decision)] the step ends with. *)
Definition guard (step_title : string) (raw_args : value) (decision output : value)
  : result (value * value) :=
  let out_text := py_str output in
  match (match raw_args with
         | VDict d => Ok (dict_get "context" (VDict []) d)
         | _ => Ok (VDict [])
         end) with
  | Raise e => Raise e
  | Ok ctx =>
      match _extract_goal_from_context ctx with
      | Raise e => Raise e
      | Ok task_goal =>
          let field k := match ctx with
                         | VDict c => list_or_empty (dict_get k (VList []) c)
                         | _ => []
                         end in
          let assumptions := str_items (field "assumptions") in
          let constraints := str_items (field "constraints") in
          let bad_placeholders := _contains_placeholders out_text in
          let bad_dup := _duplicate_headers out_text in
          let bad_drift := _likely_domain_drift task_goal step_title out_text in
          if bad_placeholders || bad_dup || bad_drift then
            let clarify := _make_clarify_doc step_title task_goal assumptions constraints in
            Ok (VStr clarify,
                forced_clarify step_title task_goal assumptions constraints clarify
                  bad_placeholders bad_dup bad_drift)
          else Ok (output, decision)
      end
  end.

(** What follows [output = await tool(...)] inside the [try]: the checks
    when the tool is [doc_write], nothing otherwise. *)
Definition checked (step_title : string) (p : prepared) (decision output : value)
  : result (value * value) :=
  if String.eqb (p_tool_name p) "doc_write"
  then guard step_title (p_raw_args p) decision output
  else Ok (output, decision).

Definition error_record (e : exn) : value :=
  VDict [("error", VStr "Tool execution failed after retry"); ("details", VStr (exn_text e))].

Definition fix_user (W : world) (tool_name step_title : string) (raw_args : value)
  (e : exn) : string :=
  lines [
    "";
    "Tool: " ++ tool_name;
    "";
    "Step title: " ++ step_title;
    "";
    "Original args:";
    _pretty W raw_args 4000;
    "";
    "Error:";
    exn_text e;
    "";
    "Return ONLY JSON:";
    "{ " ++ q "args" ++ ": { ... } }";
    ""
  ].

(** The arg fixer: the body of the inner [try] of the first failure. *)
Definition self_heal (W : world) (step_title : string) (p : prepared)
  (clean_args : list (string * value)) (e : exn) : M (list (string * value)) :=
  fix_ <- llm_json W ARG_FIXER_SYSTEM
            (fix_user W (p_tool_name p) step_title (p_raw_args p) e) ;;
  fixed_args <- lift (get fix_ "args" (VDict clean_args)) ;;
  let fixed_args :=
    match fixed_args with
    | VDict d =>
        if String.eqb (p_tool_name p) "doc_write"
        then VDict (_ensure_doc_write_args_schema d) else fixed_args
    | _ => fixed_args
    end in
  ret (_clean_args_for_tool (p_tool p) fixed_args).

(** The inner [try ... except Exception as heal_err]: when the arg fixer
    raises, the arguments stay as they were. *)
Definition heal (W : world) (step_title : string) (p : prepared)
  (clean_args : list (string * value)) (e : exn) : M (list (string * value)) :=
  try_catch (self_heal W step_title p clean_args e) (fun heal_err => ret clean_args).

(** How one turn of [for attempt in range(2)] ends: [break], or the next
    turn with the arguments and the output as the handler left them. *)
Inductive attempt_end : Type :=
| Break (output final_decision : value)
| Retry (clean_args : list (string * value)) (output : value).

Definition attempt_body (W : world) (step_title : string) (p : prepared)
  (decision : value) (attempt : nat) (clean_args : list (string * value))
  (output : value) : M attempt_end :=
  try_catch
    (out <- call W (p_tool p) clean_args ;;
     r <- lift (checked step_title p decision out) ;;
     ret (Break (fst r) (snd r)))
    (fun e =>
       clean_args' <-
         (if (attempt =? 0)%nat then heal W step_title p clean_args e
          else ret clean_args) ;;
       ret (Retry clean_args'
                  (if (attempt =? 1)%nat then error_record e else output))).

Fixpoint attempt_loop (W : world) (step_title : string) (p : prepared)
  (decision : value) (attempts : list nat) (clean_args : list (string * value))
  (output : value) : M (value * value) :=
  match attempts with
  | [] => ret (output, decision)
  | attempt :: rest =>
      r <- attempt_body W step_title p decision attempt clean_args output ;;
      match r with
      | Break output' final_decision => ret (output', final_decision)
      | Retry clean_args' output' =>
          attempt_loop W step_title p decision rest clean_args' output'
      end
  end.

Definition reflection_prompt (W : world) (step_title : string) (output : value) : string :=
  lines [
    "";
    "Evaluate this step execution.";
    "";
    "Step: " ++ step_title;
    "Output:";
    _pretty W output 4000;
    "";
    "Return ONLY valid JSON:";
    "{";
    "  " ++ q "quality_score" ++ ": 1,";
    "  " ++ q "success" ++ ": true,";
    "  " ++ q "improvement" ++ ": " ++ q "...";
    "}";
    ""
  ].

Definition user_prompt (W : world) (step_title : string) (memory : list (string * value))
  : string :=
  lines [
    "Step: " ++ step_title;
    "";
    "Memory snapshot (may include task goal + constraints):";
    _pretty W (VDict memory) 2000;
    "";
    "Return the tool call JSON.";
    "Choose exactly ONE tool.";
    ""
  ].

(** From the decision request to the arguments of the first attempt:
    the lines of [run_step] before the retry loop. *)
Definition decide (W : world) (task_id step_id step_title : string)
  (memory : list (string * value)) : M (value * prepared) :=
  decision <- llm_json W EXECUTOR_SYSTEM (user_prompt W step_title memory) ;;
  trace task_id step_id "decision" (_safe_jsonable decision) ;;;
  raw_tool_name <- lift (get decision "tool" (VStr "doc_write")) ;;
  raw_args <- lift (get decision "args" (VDict [])) ;;
  let tool_name := _normalize_tool_name raw_tool_name in
  trace task_id step_id "tool"
    (_safe_jsonable (VDict [("tool_raw", raw_tool_name); ("tool", VStr tool_name);
                            ("args", raw_args)])) ;;;
  p <- lift (prepare step_title memory tool_name raw_args) ;;
  ret (decision, p).

(** The lines of [run_step] after the retry loop: the trace of the output,
    the best-effort reflection and the [return]. *)
Definition conclude (W : world) (task_id step_id step_title : string)
  (output final_decision : value) : M (value * value) :=
  trace task_id step_id "llm" (VDict [("tool_output", _safe_jsonable output)]) ;;;
  try_catch
    (reflection <- llm_json W "You evaluate agent performance."
                     (reflection_prompt W step_title output) ;;
     trace task_id step_id "reflection" (_safe_jsonable reflection))
    (fun e => ret tt) ;;;
  ret (output, final_decision).

Definition run_step (W : world) (task_id step_id step_title : string)
  (memory : list (string * value)) : M (value * value) :=
  dp <- decide W task_id step_id step_title memory ;;
  let '(decision, p) := dp in
  (* Execute with 1 retry (arg fixer) *)
  r <- attempt_loop W step_title p decision (seq 0 2) (p_clean_args p) VNone ;;
  conclude W task_id step_id step_title (fst r) (snd r).

End Executor.

(** ** The specification's wording of some operations *)

Module Spec.
Import Text Unicode Py Runtime Prompts Executor.

(** The text before the first list separator, [|] or [,]. *)
Fixpoint before_separator (s : string) : string :=
  match s with
  | EmptyString => EmptyString
  | String x r =>
      if Ascii.eqb x "|"%char || Ascii.eqb x ","%char then EmptyString
      else String x (before_separator r)
  end.

(** The first segment of a raw tool name, as a name: without the blanks
    around it. *)
Definition first_segment (s : string) : string :=
  strip (before_separator (strip s)).

(** The lower-case alphanumeric words of length at least 4 of a text. *)
Definition is_long_word_of (s : string) (w : string) : Prop :=
  In w (findall_lower_alnum s) /\ 4 <= String.length w.

(** [l] lists a set of words once each. *)
Definition enumerates (l : list string) (P : string -> Prop) : Prop :=
  NoDup l /\ forall w, In w l <-> P w.

(** The arguments of a [doc_write] call after the clarify substitution:
    the enforced arguments with the title, the content and the document
    type replaced. *)
Definition clarified (step_title : string) (args : list (string * value))
  : list (string * value) :=
  [("title", VStr (_clarify_title step_title));
   ("content", VStr (_make_clarify_doc step_title ""
                       (enforced_assumptions args) (enforced_constraints args)));
   ("doc_type", VStr "generic");
   ("context", VDict (enforced_context args))].

(** The argument mapping of a decision: [decision.get("args", {})], or
    the empty mapping when that is not a mapping. *)
Definition args_of (decision : list (string * value)) : list (string * value) :=
  match dict_get "args" (VDict []) decision with VDict a => a | _ => [] end.

(** The tool a decision selects, normalized. *)
Definition tool_of (decision : list (string * value)) : string :=
  _normalize_tool_name (dict_get "tool" (VStr "doc_write") decision).

(** A call prepared for the document tool, whose context is the enforced
    context of the arguments [x]; a call prepared for the metrics tool. *)
Definition doc_prepared (p : prepared) (x : list (string * value)) : Prop :=
  p_tool_name p = "doc_write" /\ p_tool p = doc_write /\
  exists d, p_raw_args p = VDict d /\
            dict_get "context" (VDict []) d = VDict (enforced_context x).

Definition metrics_prepared (p : prepared) : Prop :=
  p_tool_name p = "metrics_generate" /\ p_tool p = metrics_generate.

(** The state after a tool call. *)
Definition after_call (t : tool) (kwargs : list (string * value)) (st : state) : state :=
  mk_state (requests st) (slept st) (trace_log st) (tool_log st ++ [(t, kwargs)])%list.

(** The arguments of the tool calls of the retry loop entered in state
    [st0]: the prepared arguments, then the healed ones when the first call
    raises. *)
Definition attempts (W : world) (step_title : string) (p : prepared) (st0 : state)
  : list (list (string * value)) :=
  let a1 := p_clean_args p in
  match tool_body W (p_tool p) (List.length (tool_log st0)) a1 with
  | Ok _ => [a1]
  | Raise e1 =>
      match fst (heal W step_title p a1 e1 (after_call (p_tool p) a1 st0)) with
      | Ok a2 => [a1; a2]
      | Raise _ => [a1]
      end
  end.

(** What the last of these calls does. *)
Definition last_attempt (W : world) (step_title : string) (p : prepared) (st0 : state)
  : result value :=
  let a1 := p_clean_args p in
  let n := List.length (tool_log st0) in
  match tool_body W (p_tool p) n a1 with
  | Ok v => Ok v
  | Raise e1 =>
      match fst (heal W step_title p a1 e1 (after_call (p_tool p) a1 st0)) with
      | Ok a2 => tool_body W (p_tool p) (S n) a2
      | Raise e => Raise e
      end
  end.

(** The arguments an answer [fix_] of the arg fixer leaves for the second
    call: [fix.get("args", clean_args)], enforced when the tool is the
    document tool and they are a mapping, then cleaned for the tool. *)
Definition healed_args (p : prepared) (clean_args fix_ : list (string * value))
  : list (string * value) :=
  let fixed_args := dict_get "args" (VDict clean_args) fix_ in
  _clean_args_for_tool (p_tool p)
    (match fixed_args with
     | VDict d =>
         if String.eqb (p_tool_name p) "doc_write"
         then VDict (_ensure_doc_write_args_schema d) else fixed_args
     | _ => fixed_args
     end).

(** The arguments of the second call, from the outcome of the arg fixer's
    request: those its answer leaves when the request returns a mapping,
    the arguments of the first call when it raises. *)
Definition second_args (p : prepared) (clean_args : list (string * value))
  (fixer : result value) : list (string * value) :=
  match fixer with
  | Ok (VDict fix_) => healed_args p clean_args fix_
  | _ => clean_args
  end.

(** One of the three checks holds of a text. *)
Definition fires (task_goal step_title text : string) : bool :=
  _contains_placeholders text || _duplicate_headers text
  || _likely_domain_drift task_goal step_title text.

(** The last character of a text is a word character. *)
Fixpoint ends_in_word (s : list N) : bool :=
  match s with
  | [] => false
  | [c] => word_char c
  | _ :: r => ends_in_word r
  end.

(** The character before the position reached after reading [a]. *)
Fixpoint last_char (prev : option N) (a : list N) : option N :=
  match a with
  | [] => prev
  | c :: r => last_char (Some c) r
  end.

(** The word [w] (lower-case ASCII letters) stands in a text as a whole
    word in the sense of the pattern [\bw\b], in any letter case: in the
    lower-cased text the character before it, if any, and the character
    after it, if any, are no word characters, that is no letter, digit or
    number of any script and no underscore. *)
Definition token_occurs (w text : string) : Prop :=
  exists a m b, text = a ++ m ++ b /\ lower m = w /\
                ends_in_word (to_lower (decode a)) = false /\
                word_here (to_lower (decode b)) = false.

(** The content of a completion is a text: a [str], or a false value such
    as a null content, which [text or ""] reads as the empty text. *)
Definition is_text (content : value) : bool := is_str content || negb (truthy content).

(** A completion is parsable when [extract_json] finds a JSON object in
    it. *)
Definition parsable (W : world) (content : value) : Prop :=
  exists d, JsonParse.extract_json W content = Ok (VDict d).

End Spec.

(** ** Worlds and states used in the statements and the examples *)

Module Examples.
Import Text Py Runtime Prompts Router Registry Executor.

(** The state after a failed attempt of the round trip: one more request,
    one more backoff. *)
Definition after_failure (attempt : nat) (st : state) : state :=
  mk_state (S (requests st)) (slept st ++ [backoff attempt])%list (trace_log st) (tool_log st).

(** A world whose endpoint answers every request with one status code. *)
Definition always_status (code : Z) (text : string) : world :=
  mk_world "groq" "key"
    (fun _ _ _ => Responded code text (Raise (mk_exn JSONDecodeError "")))
    (fun _ => None) (fun _ => "") (fun _ _ _ => Raise (mk_exn ToolFailure "")).

(** The body of a chat completion whose message content is [content]. *)
Definition chat_body (content : value) : value :=
  VDict [("choices", VList [VDict [("message", VDict [("content", content)])]])].

(** A world whose endpoint answers every request with the same text, and
    whose [json.loads] reads the listed texts only.  Its pretty-printer is
    a stand-in: it shapes the prompts only, which this endpoint does not
    read. *)
Definition always_says (provider : string) (content : string)
  (readings : list (string * value))
  (tools : tool -> nat -> list (string * value) -> result value) : world :=
  mk_world provider "key"
    (fun _ _ _ => Responded 200 "" (Ok (chat_body (VStr content))))
    (fun s => dict_find s readings) (fun v => py_repr v) tools.

(** A world whose endpoint never answers. *)
Definition unreachable : world :=
  mk_world "groq" "key"
    (fun _ _ _ => Failed (mk_exn TransportError "timed out"))
    (fun _ => None) (fun v => py_repr v)
    (fun _ _ _ => Ok (VStr "unused")).

(** A decision for the document tool with a goal, and the text the
    endpoint sends for it. *)
Definition fitness_args : list (string * value) :=
  [("title", VStr "Pricing plan");
   ("content", VStr "Tiers and limits");
   ("doc_type", VStr "prd");
   ("context", VDict [("task_goal", VStr "mobile fitness app");
                      ("assumptions", VList [VStr "iOS first"]);
                      ("constraints", VList [])])].

Definition fitness_decision : value :=
  VDict [("tool", VStr "doc_write");
         ("args", VDict fitness_args);
         ("decision", VStr "write the plan");
         ("reason", VStr "it is a document");
         ("confidence", VInt 80)].

Definition metrics_decision : value :=
  VDict [("tool", VStr "metrics_generate");
         ("args", VDict [("kwargs", VDict [])]);
         ("decision", VStr "define KPIs");
         ("reason", VStr "it is a metrics step");
         ("confidence", VInt 70)].

(** A tool that returns the same value at every call, and one that raises
    at its first [n] calls. *)
Definition returning (v : value) : tool -> nat -> list (string * value) -> result value :=
  fun _ _ _ => Ok v.

Definition failing (n : nat) (v : value)
  : tool -> nat -> list (string * value) -> result value :=
  fun _ k _ => if (k <? n)%nat then Raise (mk_exn ToolFailure "boom") else Ok v.

(** The JSON text of a value, for texts without control characters. *)
Fixpoint json_string_body (s : string) : string :=
  match s with
  | EmptyString => EmptyString
  | String c r =>
      (if Ascii.eqb c "034"%char || Ascii.eqb c "092"%char
       then String "092"%char (String c "") else String c "")
      ++ json_string_body r
  end.

Fixpoint json_text (v : value) : string :=
  match v with
  | VNone => "null"
  | VBool true => "true"
  | VBool false => "false"
  | VInt z => str_of_Z z
  | VFloat _ t => t
  | VStr s => dq ++ json_string_body s ++ dq
  | VList l =>
      "[" ++ (fix items (l : list value) : string :=
                match l with
                | [] => ""
                | x :: r =>
                    json_text x ++ match r with [] => "" | _ => ", " ++ items r end
                end) l ++ "]"
  | VDict d =>
      "{" ++ (fix items (d : list (string * value)) : string :=
                match d with
                | [] => ""
                | (k, x) :: r =>
                    dq ++ json_string_body k ++ dq ++ ": " ++ json_text x
                    ++ match r with [] => "" | _ => ", " ++ items r end
                end) d ++ "}"
  | VOpaque _ => "null"
  end.

(** The live provider answering every request with the JSON text of one
    decision, which [json.loads] reads back. *)
Definition deciding (decision : value)
  (tools : tool -> nat -> list (string * value) -> result value) : world :=
  always_says "groq" (json_text decision) [(json_text decision, decision)] tools.

Definition fitness_world (tools : tool -> nat -> list (string * value) -> result value)
  : world := deciding fitness_decision tools.

Definition metrics_world (tools : tool -> nat -> list (string * value) -> result value)
  : world := deciding metrics_decision tools.

(** The live provider answering the executor's request with the JSON text
    of the fitness decision and every other request, the arg fixer's and
    the reflection's, with a text that holds no JSON. *)
Definition deaf_to_repairs
  (tools : tool -> nat -> list (string * value) -> result value) : world :=
  mk_world "groq" "key"
    (fun _ system _ =>
       Responded 200 ""
         (Ok (chat_body (VStr (if String.eqb system EXECUTOR_SYSTEM
                               then json_text fitness_decision else "no JSON here")))))
    (fun s => dict_find s [(json_text fitness_decision, fitness_decision)])
    (fun v => py_repr v) tools.

(** A document of the fitness app whose price is open, in Japanese. *)
Definition open_price : string := "Pricing for the mobile fitness app: 価格はTBDです".

End Examples.

(** ** More of [str]: [count], [replace] and slices *)

Module Strings.
Import Text.

(** [s[n:]] *)
Fixpoint drop (n : nat) (s : string) : string :=
  match n, s with
  | S k, String _ r => drop k r
  | _, _ => s
  end.

Fixpoint drop_while (p : ascii -> bool) (s : string) : string :=
  match s with
  | EmptyString => EmptyString
  | String c r => if p c then drop_while p r else s
  end.

(** [s.count(sub)] for a non-empty [sub]: the occurrences are taken left
    to right and do not overlap.  [skip] is the number of characters of the
    occurrence just found that are still to be passed. *)
Fixpoint count_from (sub : string) (skip : nat) (s : string) : nat :=
  match s with
  | EmptyString => 0
  | String _ r =>
      match skip with
      | S k => count_from sub k r
      | O =>
          if prefix sub s then S (count_from sub (String.length sub - 1) r)
          else count_from sub 0 r
      end
  end.

Definition count (sub s : string) : nat := count_from sub 0 s.

(** [s.replace(old, new)] for a non-empty [old], in the same way. *)
Fixpoint replace_from (old new : string) (skip : nat) (s : string) : string :=
  match s with
  | EmptyString => EmptyString
  | String c r =>
      match skip with
      | S k => replace_from old new k r
      | O =>
          if prefix old s then new ++ replace_from old new (String.length old - 1) r
          else String c (replace_from old new 0 r)
      end
  end.

Definition replace (old new s : string) : string := replace_from old new 0 s.

(** [[a-zA-Z0-9]] *)
Definition is_alnum (c : ascii) : bool := is_lower c || is_upper c || is_digit c.

End Strings.

(** ** app/llm/json_parse.py: the code fences *)

Module CodeFences.
Import Text Strings.

Definition fence : string := "```".

(** [re.sub(r"^```[a-zA-Z0-9]*\s*", "", s)]: the pattern is anchored at
    the start, and each of its two stars takes the longest run. *)
Definition sub_fence_open (s : string) : string :=
  if startswith fence s then lstrip (drop_while is_alnum (drop 3 s)) else s.

(** [re.sub(r"\s*```$", "", s)]: the match starts at the leftmost position
    from which blanks and then a fence lead to the end of the text, or to
    the line feed that ends the text; that line feed is not part of the
    match. *)
Fixpoint sub_fence_close (s : string) : string :=
  if String.eqb (lstrip s) fence then EmptyString
  else if String.eqb (lstrip s) (fence ++ nl) then nl
  else match s with
       | EmptyString => EmptyString
       | String c r => String c (sub_fence_close r)
       end.

Definition _strip_code_fences (s : string) : string :=
  let s := strip s in
  let s := if startswith fence s then sub_fence_close (sub_fence_open s) else s in
  strip s.

End CodeFences.

(** ** app/tools/doc_writer.py *)

Module DocWriter.
Import Text Py Runtime Router Executor Strings.

(** [_to_md]: the text of any value.  [json.dumps] raises on a foreign
    object, and the handler falls back to [str]. *)
Definition _to_md (W : world) (value : value) : string :=
  match value with
  | VNone => ""
  | VStr s => strip s
  | _ =>
      if jsonable value then "```json" ++ nl ++ json_dumps_indent W value ++ nl ++ "```"
      else py_str value
  end.

Definition _compact_list (xs : value) : list string :=
  if negb (truthy xs) then []
  else match xs with
       | VList l =>
           map (fun x => strip (py_str x))
               (filter (fun x => negb (is_empty (strip (py_str x)))) l)
       | _ => [strip (py_str xs)]
       end.

Definition banned_tokens : list string :=
  ["[insert"; "bullet 1"; "bullet 2"; "bullet 3"; "tbd"; "lorem ipsum"].

(** The keys of [replacements], in insertion order; every value is the
    empty text. *)
Definition replacements : list string :=
  ["[Insert"; "[insert"; "Bullet 1"; "Bullet 2"; "Bullet 3"; "TBD"; "tbd";
   "Lorem ipsum"; "lorem ipsum"].

Definition _no_placeholder (text : string) : string :=
  if is_empty text then ""
  else
    let lowered := lower text in
    let text :=
      if existsb (fun token => contains token lowered) banned_tokens
      then fold_left (fun text k => replace k "" text) replacements text
      else text in
    strip text.

Definition strong_section_keywords : list string :=
  ["Context"; "Objective"; "Requirements"; "KPIs"; "Risks"; "Acceptance"; "Timeline";
   "Overview"].

Definition _looks_like_full_doc (md : string) : bool :=
  if is_empty md then false
  else
    let md := strip md in
    if negb (startswith "#" md) then false
    else
      let section_count := count (nl ++ "## ") md + count (nl ++ "### ") md in
      let keyword_hits :=
        List.length (filter (fun k => contains (lower k) (lower md)) strong_section_keywords) in
      (2 <=? section_count)%nat || (3 <=? keyword_hits)%nat.

(** The templates, one per document type. *)
Definition template_prd (title meta_block body : string) : string :=
  lines [
    "# " ++ title;
    "";
    "## Context";
    meta_block;
    "";
    "## Problem & User";
    "- Who is the user?";
    "- What pain point are we solving?";
    "- What does success look like?";
    "";
    "## Requirements";
    "- Must-have";
    "- Should-have";
    "- Nice-to-have";
    "";
    "## User Flows";
    "- Happy path";
    "- Edge cases / failure paths";
    "";
    "## Non-functional Requirements";
    "- Performance / latency";
    "- Reliability / monitoring";
    "- Security / privacy";
    "";
    "## Risks & Mitigations";
    "- Risk: …";
    "  - Mitigation: …";
    "";
    "## Acceptance Criteria";
    "- Clear measurable criteria for “done”";
    "";
    "## Notes / Inputs";
    body;
    ""
  ].

Definition template_gtm (title meta_block body : string) : string :=
  lines [
    "# " ++ title;
    "";
    "## Context";
    meta_block;
    "";
    "## ICP & Positioning";
    "- ICP segments";
    "- Core value proposition";
    "- Differentiators";
    "";
    "## Channels & Motion";
    "- Channel 1: …";
    "- Channel 2: …";
    "- Sales motion: self-serve / sales-led / hybrid";
    "";
    "## Launch Plan";
    "- Pre-launch";
    "- Launch week";
    "- Post-launch iteration";
    "";
    "## KPIs";
    "- North star metric";
    "- Activation metric";
    "- Retention / revenue metric";
    "";
    "## Risks & Mitigations";
    "- Risk: …";
    "  - Mitigation: …";
    "";
    "## Notes / Inputs";
    body;
    ""
  ].

Definition template_integration_plan (title meta_block body : string) : string :=
  lines [
    "# " ++ title;
    "";
    "## Context";
    meta_block;
    "";
    "## Scope";
    "- Systems involved";
    "- Data in/out";
    "- Auth model (API key/OAuth)";
    "- Rate limits + retries";
    "";
    "## Data Contract";
    "- Entities";
    "- Required fields";
    "- Versioning strategy";
    "";
    "## Failure Handling";
    "- Idempotency";
    "- Retries/backoff";
    "- Dead-letter logging";
    "";
    "## Rollout";
    "- Sandbox → pilot → GA";
    "";
    "## Acceptance Criteria";
    "- End-to-end sync verified";
    "- Observability in place";
    "";
    "## Notes / Inputs";
    body;
    ""
  ].

Definition template_test_plan (title meta_block body : string) : string :=
  lines [
    "# " ++ title;
    "";
    "## Context";
    meta_block;
    "";
    "## Test Goals";
    "- What are we validating?";
    "";
    "## Test Types";
    "- Unit tests";
    "- Integration tests";
    "- E2E tests";
    "- Load tests (if relevant)";
    "";
    "## Test Cases";
    "- Happy paths";
    "- Edge cases";
    "- Error cases";
    "";
    "## Success Metrics";
    "- Coverage target";
    "- Performance target";
    "- Reliability target";
    "";
    "## Notes / Inputs";
    body;
    ""
  ].

Definition template_checklist (title meta_block body : string) : string :=
  lines [
    "# " ++ title;
    "";
    "## Context";
    meta_block;
    "";
    "## Checklist";
    "- [ ] Define owner + due date";
    "- [ ] List deliverables";
    "- [ ] Add acceptance criteria";
    "- [ ] Identify top risks";
    "";
    "## Owner / Timeline";
    "- Owner:";
    "- Due date:";
    "";
    "## Notes / Inputs";
    body;
    ""
  ].

Definition template_generic (title meta_block objective body : string) : string :=
  lines [
    "# " ++ title;
    "";
    "## Context";
    meta_block;
    "";
    "## Objective";
    objective;
    "";
    "## Key Points";
    body;
    "";
    "## Risks & Mitigations";
    "- Risk: …";
    "  - Mitigation: …";
    "";
    "## Acceptance Criteria";
    "- Define how we’ll know this is complete and correct";
    "";
    "## Next Steps";
    "- Assign an owner";
    "- Set a timeline";
    "- Execute and review outcomes";
    ""
  ].

(** [doc_type == name] *)
Definition is_type (doc_type : value) (name : string) : bool :=
  match doc_type with VStr s => String.eqb s name | _ => false end.

(** The context block of a templated document. *)
Definition meta_lines (task_goal : string) (assumptions constraints : list string)
  (memory : value) : list string :=
  let goal_line := if is_empty task_goal then [] else ["**Task goal:** " ++ task_goal] in
  let assumption_line :=
    match assumptions with
    | [] => []
    | _ => ["**Assumptions:** " ++ String.concat "; " (firstn 6 assumptions)]
    end in
  let constraint_line :=
    match constraints with
    | [] => []
    | _ => ["**Constraints:** " ++ String.concat "; " (firstn 6 constraints)]
    end in
  let memory_line :=
    match memory with
    | VDict (kv :: m) =>
        ["**Memory keys:** " ++ String.concat ", " (firstn 10 (map fst (kv :: m)))]
    | _ => []
    end in
  (goal_line ++ assumption_line ++ constraint_line ++ memory_line)%list.

Definition meta_block (meta_lines : list string) : string :=
  match meta_lines with
  | [] => "- (not provided)"
  | _ => String.concat nl (map (fun m => "- " ++ m) meta_lines)
  end.

(** The body of [doc_write], on its four parameters.  [.strip()] raises on
    a true title that is not a [str], [.get] on a true context that is not
    a [dict]. *)
Definition doc_write (W : world) (title content doc_type context : value) : result value :=
  let context := py_or context (VDict []) in
  match py_or title (VStr "") with
  | VStr t =>
      let title := or_default (strip t) "Document" in
      match context with
      | VDict ctx =>
          let task_goal := strip (py_str (dict_get "task_goal" (VStr "") ctx)) in
          let assumptions := _compact_list (dict_get "assumptions" VNone ctx) in
          let constraints := _compact_list (dict_get "constraints" VNone ctx) in
          let memory := py_or (dict_get "memory" VNone ctx) (VDict []) in
          let body := _no_placeholder (_to_md W content) in
          (* If LLM already generated full structured document, don't wrap again *)
          if _looks_like_full_doc body then Ok (VStr body)
          else
            let meta_block := meta_block (meta_lines task_goal assumptions constraints memory) in
            Ok (VStr
                  (if is_type doc_type "prd" then template_prd title meta_block body
                   else if is_type doc_type "gtm" then template_gtm title meta_block body
                   else if is_type doc_type "integration_plan"
                        then template_integration_plan title meta_block body
                   else if is_type doc_type "test_plan"
                        then template_test_plan title meta_block body
                   else if is_type doc_type "checklist"
                        then template_checklist title meta_block body
                   else template_generic title meta_block
                          (or_default task_goal "Define the objective for this document.")
                          body))
      | _ => Raise (mk_exn AttributeError "object has no attribute 'get'")
      end
  | _ => Raise (mk_exn AttributeError "object has no attribute 'strip'")
  end.

End DocWriter.

(** ** app/tools/metrics.py *)

Module Metrics.
Import Text Py Runtime.

Definition fitness_words : list string :=
  ["fitness"; "workout"; "coaching"; "trainer"; "nutrition"; "health"].

Definition metrics_generate (kwargs : list (string * value)) : value :=
  let task_goal := strip (py_str (py_or (dict_get "task_goal" VNone kwargs) (VStr ""))) in
  let stage := strip (py_str (py_or (dict_get "stage" VNone kwargs) (VStr "growth"))) in
  if is_empty task_goal then
    VDict [
      ("error", VStr "missing_task_goal");
      ("note", VStr "Provide task_goal to generate domain-specific KPIs without guessing.");
      ("required_inputs", VList [
        VStr "task_goal";
        VStr "stage (optional)";
        VStr "activation_event (optional)"])]
  else
    let goal_low := lower task_goal in
    (* fitness / coaching-ish heuristic *)
    if existsb (fun x => contains x goal_low) fitness_words then
      VDict [
        ("task_goal", VStr task_goal);
        ("stage", VStr stage);
        ("north_star_metric", VStr "weekly_active_coached_users");
        ("funnel", VList [
          VStr "signup";
          VStr "onboarding_complete";
          VStr "first_plan_created";
          VStr "first_workout_logged";
          VStr "subscription_start"]);
        ("metrics", VDict [
          ("weekly_active_coached_users", VDict [
            ("definition", VStr "Users who logged at least 1 workout OR completed 1 coaching check-in in the last 7 days");
            ("formula", VStr "count_distinct(user_id where event in {workout_logged, checkin_completed} in last_7d)");
            ("primary_events", VList [
              VStr "workout_logged";
              VStr "checkin_completed"])]);
          ("plan_creation_rate", VDict [
            ("definition", VStr "Share of new users who create a workout plan within 48 hours");
            ("formula", VStr "users_plan_created_48h / new_signups");
            ("primary_events", VList [
              VStr "signup";
              VStr "plan_created"])]);
          ("workout_completion_rate", VDict [
            ("definition", VStr "Share of scheduled workouts that get completed");
            ("formula", VStr "completed_workouts / scheduled_workouts");
            ("primary_events", VList [
              VStr "workout_scheduled";
              VStr "workout_completed"])]);
          ("streak_7d", VDict [
            ("definition", VStr "Users with a 7-day activity streak");
            ("formula", VStr "count_distinct(user_id with >=1 activity each day for 7 days)");
            ("primary_events", VList [
              VStr "app_open";
              VStr "workout_logged";
              VStr "checkin_completed"])]);
          ("retention_d7", VDict [
            ("definition", VStr "Users active on day 7 after signup");
            ("formula", VStr "users_active_day_7 / users_active_day_0");
            ("primary_events", VList [
              VStr "app_open";
              VStr "workout_logged"])]);
          ("subscription_conversion_rate", VDict [
            ("definition", VStr "Share of activated users who start subscription");
            ("formula", VStr "subscribers_started / activated_users");
            ("primary_events", VList [
              VStr "subscription_started";
              VStr "payment_succeeded"])])]);
        ("event_tracking_schema", VDict [
          ("user_id", VStr "string");
          ("event_name", VStr "string");
          ("timestamp", VStr "datetime");
          ("properties", VDict [
            ("device", VStr "string");
            ("plan", VStr "string");
            ("source", VStr "string");
            ("workout_type", VStr "string");
            ("duration_min", VStr "number")])]);
        ("recommended_dashboards", VList [
          VDict [
            ("name", VStr "Engagement & Progress");
            ("tiles", VList [
              VStr "Weekly active coached users";
              VStr "Workouts completed per user per week";
              VStr "Streak distribution (0–7+ days)";
              VStr "Plan creation rate (48h)"])];
          VDict [
            ("name", VStr "Retention");
            ("tiles", VList [
              VStr "D1/D7/D30 cohorts";
              VStr "Churn rate";
              VStr "Session frequency"])];
          VDict [
            ("name", VStr "Revenue (if applicable)");
            ("tiles", VList [
              VStr "Subscriber growth";
              VStr "Trial → paid conversion";
              VStr "ARPU"])]]);
        ("implementation_note", VStr "Map these events to your analytics stack (GA4/Segment/Mixpanel/Amplitude).");
        ("inputs_seen", VList (map VStr (map fst kwargs)))]
    else
      (* default generic (but still grounded to task_goal text) *)
      VDict [
        ("task_goal", VStr task_goal);
        ("stage", VStr stage);
        ("north_star_metric", VStr "activation_rate");
        ("metrics", VDict [
          ("activation_rate", VDict [
            ("definition", VStr "Percentage of new users who complete the key activation event");
            ("formula", VStr "activated_users / new_signups");
            ("primary_events", VList [
              VStr "signup";
              VStr "activation_event"])]);
          ("retention_d7", VDict [
            ("definition", VStr "Users returning 7 days after first activity");
            ("formula", VStr "users_active_day_7 / users_active_day_0");
            ("primary_events", VList [
              VStr "app_open";
              VStr "session_start"])])]);
        ("note", VStr "This is a generic fallback. Provide more domain detail (activation_event, core actions) for sharper KPIs.");
        ("inputs_seen", VList (map VStr (map fst kwargs)))].

End Metrics.

(** ** The registered tools, called with keyword arguments *)

Module Tools.
Import Text Py Runtime Registry.

(** The binding of keyword arguments to the parameters of [doc_write]:
    a keyword that is no parameter and a missing required parameter raise
    [TypeError]. *)
Definition bind_doc_write (kwargs : list (string * value))
  : result (value * value * value * value) :=
  match find (fun kv => negb (mem (fst kv) (parameters doc_write))) kwargs with
  | Some (k, _) =>
      Raise (mk_exn TypeError
               ("doc_write() got an unexpected keyword argument '" ++ k ++ "'"))
  | None =>
      match dict_find "title" kwargs, dict_find "content" kwargs with
      | Some title, Some content =>
          Ok (title, content,
              dict_get "doc_type" (VStr "generic") kwargs,
              dict_get "context" VNone kwargs)
      | None, Some _ =>
          Raise (mk_exn TypeError
                   "doc_write() missing 1 required positional argument: 'title'")
      | Some _, None =>
          Raise (mk_exn TypeError
                   "doc_write() missing 1 required positional argument: 'content'")
      | None, None =>
          Raise (mk_exn TypeError
                   "doc_write() missing 2 required positional arguments: 'title' and 'content'")
      end
  end.

(** [await tool] applied to keyword arguments, for the tool registered under
    each name. *)
Definition registered (W : world) (t : tool) (kwargs : list (string * value))
  : result value :=
  match t with
  | doc_write =>
      match bind_doc_write kwargs with
      | Ok (title, content, doc_type, context) =>
          DocWriter.doc_write W title content doc_type context
      | Raise e => Raise e
      end
  | metrics_generate => Ok (Metrics.metrics_generate kwargs)
  end.

End Tools.

(** ** app/agent/memory.py over the memory table of app/db/repo.py *)

Module Memory.
Import Text Py Runtime.

(** A row of [memory_kv]. *)
Record MemoryKV : Type := mk_memory {
  m_id : string;
  m_user_id : string;
  m_key : string;
  m_value : string;
  m_kind : string
}.

(** The table: its rows, in insertion order. *)
Definition table : Type := list MemoryKV.

Definition owned_by (user_id : string) (m : MemoryKV) : bool :=
  String.eqb (m_user_id m) user_id.

(** [select(MemoryKV).where(MemoryKV.user_id == user_id)] *)
Definition get_memory (db : table) (user_id : string) : list MemoryKV :=
  filter (owned_by user_id) db.

(** [delete(MemoryKV).where(MemoryKV.user_id == user_id)] *)
Definition reset_memory (db : table) (user_id : string) : table :=
  filter (fun m => negb (owned_by user_id m)) db.

(** The delete and the insert of [upsert_memory] are one transaction: when
    the primary key of the new row is taken by a row that stays, the commit
    fails ([None]) and the table is as before. *)
Definition upsert_memory (db : table) (mem : MemoryKV) : option table :=
  let kept :=
    filter (fun m => negb (owned_by (m_user_id mem) m && String.eqb (m_key m) (m_key mem)))
           db in
  if existsb (fun m => String.eqb (m_id m) (m_id mem)) kept then None
  else Some (kept ++ [mem])%list.

(** [new_id(prefix)] of app/core/ids.py, for the sixteen hexadecimal
    digits [uuid4] draws. *)
Definition new_id (prefix hex : string) : string := prefix ++ "_" ++ hex.

Definition remember_preference (db : table) (user_id hex key value : string)
  : option table :=
  upsert_memory db (mk_memory (new_id "mem" hex) user_id key value "preference").

Definition remember_fact (db : table) (user_id hex key value kind : string)
  : option table :=
  upsert_memory db (mk_memory (new_id "mem" hex) user_id key value kind).

(** The key of a row in the snapshot. *)
Definition snapshot_key (m : MemoryKV) : string := m_kind m ++ ":" ++ m_key m.

(** The dictionary comprehension over a list of rows: a later row with
    the same key replaces the value. *)
Definition snapshot_of (items : list MemoryKV) : list (string * value) :=
  fold_left (fun d m => dict_set (snapshot_key m) (VStr (m_value m)) d) items [].

Definition snapshot (db : table) (user_id : string) : list (string * value) :=
  snapshot_of (get_memory db user_id).

End Memory.

(** ** app/llm/schemas.py and app/agent/planner.py *)

Module Planner.
Import Text Py Runtime Router Executor.
Local Open Scope step_scope.

Definition PLANNER_SYSTEM : string :=
  String.concat nl [
    "You are a task-planning agent.";
    "";
    "Return ONLY valid JSON matching exactly this schema:";
    "{";
    "  " ++ dq ++ "goal" ++ dq ++ ": " ++ dq ++ "string" ++ dq ++ ",";
    "  " ++ dq ++ "assumptions" ++ dq ++ ": [" ++ dq ++ "string" ++ dq ++ "],";
    "  " ++ dq ++ "constraints" ++ dq ++ ": [" ++ dq ++ "string" ++ dq ++ "],";
    "  " ++ dq ++ "steps" ++ dq ++ ": [";
    "    {";
    "      " ++ dq ++ "title" ++ dq ++ ": " ++ dq ++ "string" ++ dq ++ ",";
    "      " ++ dq ++ "tool" ++ dq ++ ": " ++ dq ++ "doc_write" ++ dq ++ " | " ++ dq ++ "metrics_generate" ++ dq ++ ",";
    "      " ++ dq ++ "doc_type" ++ dq ++ ": " ++ dq ++ "optional_string" ++ dq;
    "    }";
    "  ]";
    "}";
    "";
    "Rules:";
    "- Produce 3 to 7 steps.";
    "- Every step MUST be tool-executable with ONE of the available tools.";
    "- Available tools: doc_write, metrics_generate";
    "- Use doc_write for: requirements, PRDs/specs, strategies, plans, checklists, integration plan, clarifying questions.";
    "- Use metrics_generate ONLY for: KPI definitions, dashboards/metrics plans, experiment tracking, performance monitoring.";
    "- Avoid generic step titles like " ++ dq ++ "Do marketing" ++ dq ++ ". Be specific (audience/channel/KPI/timeline).";
    "";
    "DOMAIN ANCHORING (PLANNER):";
    "- Steps MUST stay in the same domain as the goal (no industry drift).";
    "  Example: If goal is " ++ dq ++ "mobile fitness app" ++ dq ++ ", do NOT create steps about e-commerce, CRM, SaaS billing, ATS, etc.";
    "- ALWAYS include at least one step that explicitly defines the user + pain points for THIS goal";
    "  (unless that is already clearly specified in the goal).";
    "- ALWAYS include one step that defines KPIs (metrics_generate) unless constraints forbid measurement.";
    "";
    "CLARIFY RULE:";
    "- If anything is unclear, include a final step titled like:";
    "  " ++ dq ++ "Clarify: <question>" ++ dq ++ " with tool=" ++ dq ++ "doc_write" ++ dq ++ " that outputs the question(s) to ask the user.";
    "";
    "doc_type options (optional):";
    "  prd, gtm, integration_plan, test_plan, checklist, spec, roadmap, kpi_doc, risk_register, user_research, onboarding, runbook, generic";
    ""
  ].

Record PlanStep : Type := mk_step {
  ps_title : string;
  ps_tool : option string
}.

Record Plan : Type := mk_plan {
  plan_goal : string;
  plan_assumptions : list string;
  plan_constraints : list string;
  plan_steps : list PlanStep
}.

(** Validation of one field: a [str] field takes a text and nothing else,
    a list field takes a list all of whose items validate. *)
Definition valid_str (v : value) : option string :=
  match v with VStr s => Some s | _ => None end.

Fixpoint all_valid {A} (f : value -> option A) (l : list value) : option (list A) :=
  match l with
  | [] => Some []
  | x :: r =>
      match f x, all_valid f r with
      | Some a, Some r' => Some (a :: r')
      | _, _ => None
      end
  end.

Definition valid_list {A} (f : value -> option A) (v : value) : option (list A) :=
  match v with VList l => all_valid f l | _ => None end.

(** [PlanStep]: [title] is required; [tool] is a text or null, and null
    when it is missing.  Other keys are ignored. *)
Definition valid_step (v : value) : option PlanStep :=
  match v with
  | VDict d =>
      match dict_find "title" d with
      | Some title =>
          match valid_str title with
          | Some title =>
              match dict_find "tool" d with
              | None | Some VNone => Some (mk_step title None)
              | Some tool =>
                  match valid_str tool with
                  | Some tool => Some (mk_step title (Some tool))
                  | None => None
                  end
              end
          | None => None
          end
      | None => None
      end
  | _ => None
  end.

(** A list field with the default [[]]. *)
Definition valid_strings (field : option value) : option (list string) :=
  match field with
  | None => Some []
  | Some v => valid_list valid_str v
  end.

(** [Plan.model_validate(raw)]: [goal] and [steps] are required.  A
    rejected input raises [ValidationError], a [ValueError]; its message,
    which lists the rejected fields, is not modelled. *)
Definition model_validate (raw : value) : result Plan :=
  let rejected := Raise (mk_exn ValueError "validation error for Plan") in
  match raw with
  | VDict d =>
      match dict_find "goal" d, dict_find "steps" d with
      | Some goal, Some steps =>
          match valid_str goal,
                valid_strings (dict_find "assumptions" d),
                valid_strings (dict_find "constraints" d),
                valid_list valid_step steps with
          | Some goal, Some assumptions, Some constraints, Some steps =>
              Ok (mk_plan goal assumptions constraints steps)
          | _, _, _, _ => rejected
          end
      | _, _ => rejected
      end
  | _ => rejected
  end.

(** [plan.model_dump()] *)
Definition dump_step (s : PlanStep) : value :=
  VDict [("title", VStr (ps_title s));
         ("tool", match ps_tool s with Some t => VStr t | None => VNone end)].

Definition model_dump (plan : Plan) : value :=
  VDict [("goal", VStr (plan_goal plan));
         ("assumptions", VList (map VStr (plan_assumptions plan)));
         ("constraints", VList (map VStr (plan_constraints plan)));
         ("steps", VList (map dump_step (plan_steps plan)))].

Definition make_plan (W : world) (task_id step_id goal : string) : M Plan :=
  raw <- llm_json W PLANNER_SYSTEM goal ;;
  plan <- lift (model_validate raw) ;;
  trace task_id step_id "plan" (model_dump plan) ;;;
  ret plan.

End Planner.

(** ** Notions used in the statements about the code above *)

Module Notions.
Import Text Py Runtime Router Executor.

(** The header lines of a text, as [_duplicate_headers] collects them. *)
Definition header_lines (text : string) : list string :=
  map strip (filter (fun ln => startswith "## " (strip ln)) (splitlines text)).

(** The words of the five bracketed placeholder patterns. *)
Definition bracket_words : list string :=
  ["insert"; "target"; "assumption"; "constraint"; "estimated"].

(** The keyword test of the drift check alone: a drift keyword occurs in
    the text and not in the goal, both in lower case. *)
Definition token_drift (task_goal content : string) : bool :=
  existsb (fun tok => contains tok (lower content) && negb (contains tok (lower task_goal)))
    _DRIFT_TOKENS.

(** The time a state has spent in backoff, in milliseconds. *)
Definition nap (st : state) : N := fold_right N.add 0%N (slept st).

(** A computation that posts at most [n] requests and sleeps at most [ms]
    milliseconds, whatever its outcome. *)
Definition costs {A} (n : nat) (ms : N) (m : M A) : Prop :=
  forall st,
    (requests st <= requests (snd (m st)) <= requests st + n)%nat
    /\ (nap st <= nap (snd (m st)) <= nap st + ms)%N.

(** The mark of a section in a markdown text: a line break and [## ]. *)
Definition section_mark : string := nl ++ "## ".

(** Every character of a text is in a class. *)
Fixpoint all_chars (p : ascii -> bool) (s : string) : bool :=
  match s with
  | EmptyString => true
  | String c r => p c && all_chars p r
  end.

(** The characters that open a JSON object or array. *)
Definition opener (c : ascii) : bool := Ascii.eqb c "{" || Ascii.eqb c "[".

(** The content of a well-formed answer of the endpoint: a status below
    400 that is none of the transient ones, a body that parses, and the
    content of the first choice in it. *)
Definition answer (o : http_outcome) : option value :=
  match o with
  | Responded status_code _ (Ok data) =>
      if transient status_code || (400 <=? status_code)%Z then None
      else chat_content data
  | _ => None
  end.

End Notions.

(** ** More worlds and tables for the examples *)

Module Scenarios.
Import Text Py Runtime Router Executor Examples Tools Memory.

(** A world whose endpoint is busy for its first [n] requests and then
    answers with one content. *)
Definition flaky (n : nat) (content : value) : world :=
  mk_world "groq" "key"
    (fun k _ _ =>
       if (k <? n)%nat then Responded 503 "busy" (Raise (mk_exn JSONDecodeError ""))
       else Responded 200 "" (Ok (chat_body content)))
    (fun _ => None) (fun v => py_repr v) (returning VNone).

(** A world with the mock provider, spelled with blanks and capitals. *)
Definition offline : world :=
  always_says " Mock " "" [] (returning (VStr "# Notes")).

(** A world with the registered tools behind the step. *)
Definition with_registered (W : world) : world :=
  mk_world (LLM_PROVIDER W) (GROQ_API_KEY W) (endpoint W) (json_loads W)
    (json_dumps_indent W) (fun t _ kwargs => registered W t kwargs).

Definition studio : world := with_registered (fitness_world (returning VNone)).

(** A memory with a goal, and arguments a decision may propose for the
    metrics tool. *)
Definition budget_memory : list (string * value) :=
  [("task_goal", VStr " budgeting app ")].

Definition proposed_metrics_args : value :=
  VDict [("task_goal", VStr "law firm CRM"); ("stage", VStr "seed")].

(** A memory table of two users. *)
Definition shelf : table :=
  [mk_memory "mem_1" "ann" "tone" "formal" "preference";
   mk_memory "mem_2" "bob" "tone" "casual" "preference";
   mk_memory "mem_3" "ann" "market" "EU" "semantic"].

End Scenarios.

(** * Properties *)

Import Text Unicode Py Runtime JsonParse Prompts Router Registry Executor Spec Examples.

(** ** Text lemmas *)

Section TextFacts.

Lemma lstrip_idem s : lstrip (lstrip s) = lstrip s.
Proof.
  induction s as [|c r IH]; simpl; auto.
  destruct (is_space c) eqn:E; auto. simpl. now rewrite E.
Qed.

Lemma lstrip_nonspace c r : is_space c = false -> lstrip (String c r) = String c r.
Proof. intros H. simpl. now rewrite H. Qed.

Lemma lstrip_cases s : lstrip s = "" \/ exists c r, lstrip s = String c r /\ is_space c = false.
Proof.
  induction s as [|c r IH]; simpl; auto.
  destruct (is_space c) eqn:E; auto. right. now exists c, r.
Qed.

Lemma rstrip_cons_nonempty x r :
  rstrip r <> "" -> rstrip (String x r) = String x (rstrip r).
Proof. simpl. destruct (rstrip r); congruence. Qed.

Lemma rstrip_nonspace_head c r :
  is_space c = false -> exists r', rstrip (String c r) = String c r'.
Proof.
  intros H. simpl. destruct (rstrip r); rewrite ?H; eauto.
Qed.

Lemma rstrip_idem s : rstrip (rstrip s) = rstrip s.
Proof.
  induction s as [|c r IH]; simpl; auto.
  destruct (rstrip r) as [|c' r'] eqn:E.
  - destruct (is_space c) eqn:Ec; simpl; auto. now rewrite Ec.
  - change (rstrip (String c (String c' r')) = String c (String c' r')).
    rewrite rstrip_cons_nonempty; rewrite IH; congruence.
Qed.

Lemma strip_idem s : strip (strip s) = strip s.
Proof.
  unfold strip. destruct (lstrip_cases s) as [E | (c & r & E & Hc)]; rewrite E.
  - reflexivity.
  - destruct (rstrip_nonspace_head c r Hc) as [r' Er]. rewrite Er.
    rewrite lstrip_nonspace by assumption. rewrite <- Er. apply rstrip_idem.
Qed.

Lemma strip_lstrip s : strip (lstrip s) = strip s.
Proof. unfold strip. now rewrite lstrip_idem. Qed.

Lemma strip_empty : strip "" = "".
Proof. reflexivity. Qed.

Lemma before_absent c s : has_char c s = false -> before c s = s.
Proof.
  induction s as [|x r IH]; simpl; auto.
  destruct (Ascii.eqb x c); simpl; [discriminate|]. intros H. now rewrite IH.
Qed.

Lemma space_not_char c x : is_space c = false -> is_space x = true -> Ascii.eqb x c = false.
Proof.
  intros Hc Hx. destruct (Ascii.eqb x c) eqn:E; auto.
  apply Ascii.eqb_eq in E. congruence.
Qed.

Lemma before_lstrip c s :
  is_space c = false -> before c (lstrip s) = lstrip (before c s).
Proof.
  intros Hc. induction s as [|x r IH]; simpl; auto.
  destruct (is_space x) eqn:Ex.
  - rewrite (space_not_char c x Hc Ex). simpl. now rewrite Ex.
  - simpl. destruct (Ascii.eqb x c); simpl; auto. now rewrite Ex.
Qed.

Lemma has_char_rstrip_nonempty c s :
  is_space c = false -> has_char c s = true -> rstrip s <> "".
Proof.
  intros Hc. induction s as [|x r IH]; simpl; [discriminate|].
  destruct (Ascii.eqb x c) eqn:E; simpl.
  - apply Ascii.eqb_eq in E. subst x. intros _.
    destruct (rstrip r); rewrite ?Hc; discriminate.
  - intros H. specialize (IH H). destruct (rstrip r); [congruence | discriminate].
Qed.

Lemma before_rstrip c s :
  is_space c = false -> has_char c s = true -> before c (rstrip s) = before c s.
Proof.
  intros Hc. induction s as [|x r IH]; [discriminate|].
  cbn [has_char before]. destruct (Ascii.eqb x c) eqn:E; simpl orb.
  - intros _. apply Ascii.eqb_eq in E. subst x.
    destruct (rstrip_nonspace_head c r Hc) as [r' Er]. rewrite Er. simpl.
    now rewrite Ascii.eqb_refl.
  - intros H. rewrite rstrip_cons_nonempty by (eapply has_char_rstrip_nonempty; eauto).
    simpl. rewrite E. now rewrite IH.
Qed.

Lemma has_char_lstrip c s : is_space c = false -> has_char c (lstrip s) = has_char c s.
Proof.
  intros Hc. induction s as [|x r IH]; simpl; auto.
  destruct (is_space x) eqn:Ex; auto.
  now rewrite (space_not_char c x Hc Ex).
Qed.

Lemma has_char_rstrip c s : is_space c = false -> has_char c (rstrip s) = has_char c s.
Proof.
  intros Hc. induction s as [|x r IH]; simpl; auto.
  destruct (rstrip r) as [|y r'] eqn:E.
  - simpl in IH. rewrite <- IH. destruct (is_space x) eqn:Ex; simpl.
    + now rewrite (space_not_char c x Hc Ex).
    + now rewrite orb_false_r.
  - cbn [has_char]. now rewrite <- IH.
Qed.

Lemma has_char_strip c s : is_space c = false -> has_char c (strip s) = has_char c s.
Proof.
  intros Hc. unfold strip. now rewrite has_char_rstrip, has_char_lstrip.
Qed.

Lemma before_strip c s :
  is_space c = false -> has_char c s = true ->
  strip (before c (strip s)) = strip (before c s).
Proof.
  intros Hc H. unfold strip at 2.
  rewrite before_rstrip by (rewrite ?has_char_lstrip; assumption).
  rewrite before_lstrip by assumption. apply strip_lstrip.
Qed.

End TextFacts.

(** ** The decision normalizer *)

Section Normalizer.

Lemma before_separator_two_steps s :
  before ","%char (before "|"%char s) = Spec.before_separator s.
Proof.
  induction s as [|x r IH]; simpl; auto.
  destruct (Ascii.eqb x "|"%char) eqn:E1; simpl; auto.
  destruct (Ascii.eqb x ","%char) eqn:E2; simpl; auto.
  now rewrite IH.
Qed.

Lemma mem_In x l : mem x l = true <-> In x l.
Proof.
  unfold mem. rewrite existsb_exists. split.
  - intros (y & Hy & E). apply String.eqb_eq in E. now subst.
  - intros H. exists x. split; auto. apply String.eqb_refl.
Qed.

Lemma normalize_tool_name_allowed v : In (_normalize_tool_name v) ALLOWED_TOOLS.
Proof.
  destruct v; try (simpl; auto; fail).
  unfold _normalize_tool_name. cbv zeta.
  match goal with |- In (if mem ?t _ then _ else _) _ => destruct (mem t ALLOWED_TOOLS) eqn:E end.
  - now apply mem_In.
  - simpl; auto.
Qed.

Lemma normalize_first_segment s :
  (let t := strip s in
   let t := if has_char "|"%char t then strip (before "|"%char t) else t in
   if has_char ","%char t then strip (before ","%char t) else t)
  = Spec.first_segment s.
Proof.
  unfold Spec.first_segment. cbv zeta.
  rewrite <- before_separator_two_steps.
  set (u := strip s).
  destruct (has_char "|"%char u) eqn:Hp.
  - rewrite has_char_strip by reflexivity.
    destruct (has_char ","%char (before "|"%char u)) eqn:Hc.
    + apply before_strip; [reflexivity | assumption].
    + now rewrite (before_absent ","%char) by assumption.
  - rewrite (before_absent "|"%char) by assumption.
    destruct (has_char ","%char u) eqn:Hc; [reflexivity|].
    rewrite before_absent by assumption. subst u. symmetry. apply strip_idem.
Qed.

(** C8.  A raw tool identifier that is not a string normalizes to the
    document tool.  A string is stripped and cut at its first [|] or [,];
    that first segment, as a name (without the blanks around it), is the
    result when it is a known tool name, and the document tool is the
    result otherwise. *)
Theorem normalize_tool_name_spec :
  (forall v, is_str v = false -> _normalize_tool_name v = "doc_write") /\
  (forall s, _normalize_tool_name (VStr s) =
             if mem (Spec.first_segment s) ALLOWED_TOOLS
             then Spec.first_segment s else "doc_write") /\
  (forall s, In (Spec.first_segment s) ALLOWED_TOOLS ->
             _normalize_tool_name (VStr s) = Spec.first_segment s) /\
  (forall s, ~ In (Spec.first_segment s) ALLOWED_TOOLS ->
             _normalize_tool_name (VStr s) = "doc_write").
Proof.
  assert (E : forall s, _normalize_tool_name (VStr s) =
             if mem (Spec.first_segment s) ALLOWED_TOOLS
             then Spec.first_segment s else "doc_write").
  { intros s. unfold _normalize_tool_name. now rewrite normalize_first_segment. }
  repeat split.
  - intros v Hv. destruct v; simpl in *; congruence.
  - exact E.
  - intros s H. rewrite E. apply mem_In in H. now rewrite H.
  - intros s H. rewrite E. destruct (mem _ _) eqn:M; auto.
    apply mem_In in M. contradiction.
Qed.

Example normalize_pipe :
  _normalize_tool_name (VStr " metrics_generate | doc_write ") = "metrics_generate".
Proof. reflexivity. Qed.

Example normalize_comma_unknown :
  _normalize_tool_name (VStr "search, doc_write") = "doc_write".
Proof. reflexivity. Qed.

Example normalize_number : _normalize_tool_name (VInt 3) = "doc_write".
Proof. reflexivity. Qed.

End Normalizer.

(** ** Goal-drift detection *)

Section Drift.

Lemma is_empty_true s : is_empty s = true <-> s = "".
Proof. destruct s; simpl; split; congruence. Qed.

Lemma is_empty_false s : is_empty s = false <-> s <> "".
Proof. destruct s; simpl; split; congruence. Qed.

Lemma lower_char_space c : is_space (lower_char c) = is_space c.
Proof. destruct c as [[] [] [] [] [] [] [] []]; reflexivity. Qed.

Lemma lower_lstrip s : lstrip (lower s) = lower (lstrip s).
Proof.
  induction s as [|c r IH]; simpl; auto.
  rewrite lower_char_space. destruct (is_space c); auto.
Qed.

Lemma lower_rstrip s : rstrip (lower s) = lower (rstrip s).
Proof.
  induction s as [|c r IH]; simpl; auto.
  rewrite IH, lower_char_space.
  destruct (rstrip r); simpl; auto. destruct (is_space c); auto.
Qed.

Lemma lower_strip s : strip (lower s) = lower (strip s).
Proof. unfold strip. now rewrite lower_lstrip, lower_rstrip. Qed.

Lemma lower_empty s : lower s = "" <-> s = "".
Proof. destruct s; simpl; split; congruence. Qed.

Lemma lower_app a b : lower (a ++ b) = lower a ++ lower b.
Proof. induction a as [|c r IH]; simpl; auto. now rewrite IH. Qed.

Lemma prefix_app p s : prefix p (p ++ s) = true.
Proof.
  induction p as [|c r IH]; simpl; [now destruct s|].
  destruct (ascii_dec c c); [assumption | contradiction].
Qed.

Lemma contains_app pre sub post : contains sub (pre ++ sub ++ post) = true.
Proof.
  induction pre as [|c r IH].
  - assert (E : forall s, prefix sub s = true -> contains sub s = true).
    { intros s H. destruct s; simpl in *; now rewrite H. }
    change (contains sub (sub ++ post) = true). apply E, prefix_app.
  - simpl. rewrite IH. apply orb_true_r.
Qed.

Lemma In_dedup x l : In x (dedup l) <-> In x l.
Proof.
  induction l as [|y r IH]; simpl; [tauto|].
  destruct (mem y r) eqn:M; simpl; rewrite IH.
  - apply mem_In in M. split; auto. intros [->|]; auto.
  - tauto.
Qed.

Lemma NoDup_dedup l : NoDup (dedup l).
Proof.
  induction l as [|y r IH]; simpl; [constructor|].
  destruct (mem y r) eqn:M; auto.
  constructor; auto. rewrite In_dedup. intros H. apply mem_In in H. congruence.
Qed.

Lemma In_long_words s w : In w (long_words s) <-> Spec.is_long_word_of s w.
Proof.
  unfold long_words, Spec.is_long_word_of. rewrite In_dedup, filter_In.
  rewrite Nat.leb_le. tauto.
Qed.

Lemma same_elements_length (l1 l2 : list string) :
  NoDup l1 -> NoDup l2 -> (forall w, In w l1 <-> In w l2) -> List.length l1 = List.length l2.
Proof.
  intros H1 H2 H. apply Permutation_length.
  now apply NoDup_Permutation.
Qed.

(** The size of an intersection, as the code counts it. *)
Lemma overlap_count_enumerates a (b : string -> bool) l (P : string -> Prop) :
  NoDup a ->
  Spec.enumerates l (fun w => In w a /\ P w) ->
  (forall w, b w = true <-> P w) ->
  overlap_count a b = List.length l.
Proof.
  intros Ha [Hl Hin] Hb. unfold overlap_count.
  apply same_elements_length; auto.
  - now apply NoDup_filter.
  - intros w. rewrite filter_In, Hin, Hb. tauto.
Qed.

(** C6.  Drift detection, case by case.  Goal, step title and output are
    compared in lower case.  A goal that is empty (or blank) gives no
    drift.  Otherwise a keyword of the fixed list that occurs in the output
    and not in the goal flags drift; otherwise a goal with no word of
    length at least 4 flags drift; otherwise drift is flagged exactly when
    fewer than 2 goal words occur in the output and fewer than 2 goal words
    occur in the output or the step title.  The sets are counted through
    any duplicate-free enumeration.  In particular the goal
    [mobile fitness app] with an output containing [e-commerce] flags
    drift. *)
Theorem likely_domain_drift_spec (task_goal step_title content : string) :
  let goal := lower task_goal in
  let out := lower content in
  let st := lower step_title in
  let drift := _likely_domain_drift task_goal step_title content in
  (task_goal = "" -> drift = false) /\
  (strip task_goal = "" -> drift = false) /\
  (strip task_goal <> "" ->
   ((exists tok, In tok _DRIFT_TOKENS /\ contains tok out = true /\ contains tok goal = false)
    -> drift = true) /\
   ((forall tok, In tok _DRIFT_TOKENS -> contains tok out = true -> contains tok goal = true)
    ->
    ((forall w, ~ Spec.is_long_word_of goal w) -> drift = true) /\
    ((exists w, Spec.is_long_word_of goal w) ->
     forall shared widened,
       Spec.enumerates shared
         (fun w => Spec.is_long_word_of goal w /\ Spec.is_long_word_of out w) ->
       Spec.enumerates widened
         (fun w => Spec.is_long_word_of goal w /\
                   (Spec.is_long_word_of st w \/ Spec.is_long_word_of out w)) ->
       drift = (List.length shared <? 2)%nat && (List.length widened <? 2)%nat))) /\
  (forall before_ after_,
     _likely_domain_drift "mobile fitness app" step_title
       (before_ ++ "e-commerce" ++ after_) = true).
Proof.
  cbv zeta.
  assert (Hblank : strip task_goal = "" -> _likely_domain_drift task_goal step_title content = false).
  { intros H. unfold _likely_domain_drift. now rewrite lower_strip, H. }
  split; [intros ->; apply Hblank; reflexivity|].
  split; [exact Hblank|].
  split.
  - intros Hgoal.
    assert (Hne : is_empty (strip (lower task_goal)) = false).
    { apply is_empty_false. rewrite lower_strip. now rewrite lower_empty. }
    unfold _likely_domain_drift. rewrite Hne.
    split.
    + intros (tok & Hin & Ho & Hg).
      replace (existsb _ _DRIFT_TOKENS) with true; [reflexivity|].
      symmetry. apply existsb_exists. exists tok. split; auto. now rewrite Ho, Hg.
    + intros Hnone.
      replace (existsb _ _DRIFT_TOKENS) with false.
      2:{ symmetry. apply not_true_is_false. intros H. apply existsb_exists in H.
          destruct H as (tok & Hin & H). apply andb_prop in H. destruct H as [Ho Hg].
          rewrite (Hnone tok Hin Ho) in Hg. discriminate. }
      split.
      * intros Hw. destruct (long_words (lower task_goal)) as [|w ws] eqn:E; auto.
        exfalso. apply (Hw w). apply In_long_words. rewrite E. now left.
      * intros (w & Hw) shared widened Hs Hwd.
        apply In_long_words in Hw.
        destruct (long_words (lower task_goal)) as [|w0 ws] eqn:E; [contradiction|].
        rewrite <- E. clear Hw.
        rewrite (overlap_count_enumerates _ _ shared
                   (fun w => Spec.is_long_word_of (lower content) w)).
        2:{ unfold long_words. apply NoDup_dedup. }
        2:{ destruct Hs as [Hs1 Hs2]. split; auto. intros x. rewrite Hs2, In_long_words. tauto. }
        2:{ intros x. rewrite mem_In. apply In_long_words. }
        rewrite (overlap_count_enumerates _ _ widened
                   (fun w => Spec.is_long_word_of (lower step_title) w \/
                             Spec.is_long_word_of (lower content) w)).
        2:{ unfold long_words. apply NoDup_dedup. }
        2:{ destruct Hwd as [Hs1 Hs2]. split; auto. intros x. rewrite Hs2, In_long_words. tauto. }
        2:{ intros x. rewrite orb_true_iff, !mem_In, !In_long_words. tauto. }
        destruct (List.length shared <? 2)%nat; reflexivity.
  - intros b a. unfold _likely_domain_drift.
    change (is_empty (strip (lower "mobile fitness app"))) with false. cbv iota.
    replace (existsb _ _DRIFT_TOKENS) with true; [reflexivity|].
    symmetry. apply existsb_exists. exists "e-commerce". split; [simpl; auto|].
    rewrite !lower_app. change (lower "e-commerce") with "e-commerce".
    rewrite contains_app. reflexivity.
Qed.

(** The last case at work: one goal word occurs in the output, a second
    one in the step title. *)
Lemma likely_domain_drift_widened_example :
  _likely_domain_drift "mobile fitness tracker" "Plan the fitness launch"
    "A mobile launch plan"
  = (List.length ["mobile"] <? 2)%nat && (List.length ["mobile"; "fitness"] <? 2)%nat.
Proof.
  destruct (likely_domain_drift_spec "mobile fitness tracker" "Plan the fitness launch"
              "A mobile launch plan") as (_ & _ & H & _).
  destruct H as [_ H]; [discriminate|].
  destruct H as [_ H].
  { intros tok Hin Ho. simpl in Hin.
    repeat (destruct Hin as [<- | Hin]; [vm_compute in Ho; discriminate|]).
    contradiction. }
  apply H.
  - exists "mobile". split; [vm_compute; tauto | simpl; lia].
  - split; [repeat constructor; simpl; tauto|].
    intros w. unfold Spec.is_long_word_of.
    change (findall_lower_alnum (lower "mobile fitness tracker"))
      with ["mobile"; "fitness"; "tracker"].
    change (findall_lower_alnum (lower "A mobile launch plan"))
      with ["a"; "mobile"; "launch"; "plan"].
    simpl. split.
    + intros [<- | []]. split; (split; [auto 6 | simpl; lia]).
    + intros [[H1 _] [H2 _]].
      destruct H1 as [<- | [<- | [<- | []]]];
        destruct H2 as [H2 | [H2 | [H2 | [H2 | []]]]]; try discriminate; auto.
  - split; [repeat constructor; simpl; intuition discriminate|].
    intros w. unfold Spec.is_long_word_of.
    change (findall_lower_alnum (lower "mobile fitness tracker"))
      with ["mobile"; "fitness"; "tracker"].
    change (findall_lower_alnum (lower "A mobile launch plan"))
      with ["a"; "mobile"; "launch"; "plan"].
    change (findall_lower_alnum (lower "Plan the fitness launch"))
      with ["plan"; "the"; "fitness"; "launch"].
    simpl. split.
    + intros [<- | [<- | []]]; (split; [split; [auto | simpl; lia]|]).
      * right. split; [auto | simpl; lia].
      * left. split; [auto 6 | simpl; lia].
    + intros [[H1 _] [[Hw _] | [Hw _]]];
        destruct H1 as [<- | [<- | [<- | []]]]; auto;
        repeat (destruct Hw as [Hw | Hw]; [discriminate|]); contradiction.
Defined.

Example drift_example :
  _likely_domain_drift "mobile fitness app" "Write the PRD"
    "A PRD for an E-Commerce checkout" = true.
Proof. reflexivity. Qed.

Example drift_blank_goal : _likely_domain_drift "   " "Plan" "billing and inventory" = false.
Proof. reflexivity. Qed.

Example drift_no_long_goal_word : _likely_domain_drift "an app" "Plan" "an app plan" = true.
Proof. reflexivity. Qed.

Example drift_widened_by_title :
  _likely_domain_drift "mobile fitness tracker" "Plan the fitness launch"
    "A mobile launch plan" = false.
Proof. reflexivity. Qed.

End Drift.

(** ** The schema enforcer *)

Section Schema.

Lemma or_default_nonempty s d : d <> "" -> or_default s d <> "".
Proof. unfold or_default. destruct s; simpl; congruence. Qed.

Lemma str_items_nonempty xs : Forall (fun s => s <> "") (str_items xs).
Proof.
  unfold str_items. apply Forall_forall. intros s H.
  apply in_map_iff in H. destruct H as (v & <- & H).
  apply filter_In in H. destruct H as [_ H].
  intros E. rewrite E in H. discriminate.
Qed.

Lemma str_items_not_blank xs : Forall (fun s => strip s <> "") (str_items xs).
Proof.
  unfold str_items. apply Forall_forall. intros s H.
  apply in_map_iff in H. destruct H as (v & <- & H).
  apply filter_In in H. destruct H as [_ H].
  apply negb_true_iff, is_empty_false in H. exact H.
Qed.

(** C5.  Whatever the argument mapping holds, the enforced mapping has
    exactly the four fields [title], [content], [doc_type] and [context],
    in this shape: the title is a non-empty string ([Document] when the
    input has no true title); the content is a string (the input when it
    is a string, empty when it is null or missing, its [str] otherwise);
    the document type is one of the allowed types ([generic] when the input
    names none); the context holds a string [task_goal] and two lists of
    non-empty strings, [assumptions] and [constraints] (empty when the
    input gives no list). *)
Theorem ensure_doc_write_args_schema_shape (args : list (string * value)) :
  exists title content doc_type task_goal assumptions constraints,
    _ensure_doc_write_args_schema args =
      [("title", VStr title);
       ("content", VStr content);
       ("doc_type", VStr doc_type);
       ("context", VDict [("task_goal", VStr task_goal);
                          ("assumptions", VList (map VStr assumptions));
                          ("constraints", VList (map VStr constraints))])]
    /\ title <> ""
    /\ (truthy (dict_get "title" VNone args) = false -> title = "Document")
    /\ (forall s, dict_find "content" args = Some (VStr s) -> content = s)
    /\ (dict_get "content" VNone args = VNone -> content = "")
    /\ (forall v, dict_find "content" args = Some v -> is_str v = false -> v <> VNone ->
                  content = py_str v)
    /\ In doc_type ALLOWED_DOC_TYPES
    /\ (forall v, dict_find "doc_type" args = Some v ->
                  ~ In (strip (py_str v)) ALLOWED_DOC_TYPES -> doc_type = "generic")
    /\ Forall (fun s => s <> "") assumptions
    /\ Forall (fun s => s <> "") constraints
    /\ (is_dict (dict_get "context" VNone args) = false ->
        task_goal = "" /\ assumptions = [] /\ constraints = [])
    /\ (forall c, dict_get "context" VNone args = VDict c ->
        (is_list (dict_get "assumptions" VNone c) = false -> assumptions = []) /\
        (is_list (dict_get "constraints" VNone c) = false -> constraints = [])).
Proof.
  unfold _ensure_doc_write_args_schema, enforced_context, enforced_title, enforced_content,
    enforced_doc_type, enforced_goal, enforced_assumptions, enforced_constraints,
    given_context.
  do 6 eexists. split; [reflexivity|].
  split; [apply or_default_nonempty; discriminate|].
  split.
  { intros H. unfold py_or. rewrite H. reflexivity. }
  split.
  { intros s H. unfold dict_get. now rewrite H. }
  split.
  { intros H. now rewrite H. }
  split.
  { intros v H Hs Hn. unfold dict_get. rewrite H. destruct v; simpl in *; congruence. }
  split.
  { match goal with |- In (if mem ?t _ then _ else _) _ =>
      destruct (mem t ALLOWED_DOC_TYPES) eqn:E end.
    - now apply mem_In.
    - simpl; tauto. }
  split.
  { intros v H Hn. unfold dict_get. rewrite H. unfold py_or.
    destruct (truthy v); [|reflexivity].
    unfold or_default. destruct (is_empty (strip (py_str v))) eqn:B; [reflexivity|].
    destruct (mem (strip (py_str v)) ALLOWED_DOC_TYPES) eqn:E; [|reflexivity].
    apply mem_In in E. contradiction. }
  split; [apply str_items_nonempty|].
  split; [apply str_items_nonempty|].
  split.
  { intros H. destruct (dict_get "context" VNone args); simpl in H; try discriminate;
      repeat split; reflexivity. }
  intros c H. rewrite H. split; intros Hl.
  - destruct (dict_get "assumptions" VNone c); simpl in Hl; try discriminate; reflexivity.
  - destruct (dict_get "constraints" VNone c); simpl in Hl; try discriminate; reflexivity.
Qed.

End Schema.

(** ** Reasoning about computations *)

Section Effects.

Lemma bind_ok {A B} (m : M A) (k : A -> M B) st a st1 :
  m st = (Ok a, st1) -> bind m k st = k a st1.
Proof. unfold bind. now intros ->. Qed.

Lemma bind_raise {A B} (m : M A) (k : A -> M B) st e st1 :
  m st = (Raise e, st1) -> bind m k st = (Raise e, st1).
Proof. unfold bind. now intros ->. Qed.

Lemma bind_inv {A B} (m : M A) (k : A -> M B) st r st' :
  bind m k st = (r, st') ->
  (exists a st1, m st = (Ok a, st1) /\ k a st1 = (r, st')) \/
  (exists e, m st = (Raise e, st') /\ r = Raise e).
Proof.
  unfold bind. destruct (m st) as [[a|e] st1]; intros H.
  - left. eauto.
  - right. inversion H; subst. eauto.
Qed.

Lemma try_catch_inv {A} (m : M A) (h : exn -> M A) st r st' :
  try_catch m h st = (r, st') ->
  (exists a, m st = (Ok a, st') /\ r = Ok a) \/
  (exists e st1, m st = (Raise e, st1) /\ h e st1 = (r, st')).
Proof.
  unfold try_catch. destruct (m st) as [[a|e] st1]; intros H.
  - left. inversion H; subst. eauto.
  - right. eauto.
Qed.

(** A computation that leaves an observation of the state unchanged. *)
Definition preserves {A X} (f : state -> X) (m : M A) : Prop :=
  forall st r st', m st = (r, st') -> f st' = f st.

Lemma preserves_ret {A X} (f : state -> X) (a : A) : preserves f (ret a).
Proof. intros st r st' H. inversion H. reflexivity. Qed.

Lemma preserves_raise {A X} (f : state -> X) e : preserves f (@raise A e).
Proof. intros st r st' H. inversion H. reflexivity. Qed.

Lemma preserves_lift {A X} (f : state -> X) (x : result A) : preserves f (lift x).
Proof. intros st r st' H. inversion H. reflexivity. Qed.

Lemma preserves_bind {A B X} (f : state -> X) (m : M A) (k : A -> M B) :
  preserves f m -> (forall a, preserves f (k a)) -> preserves f (bind m k).
Proof.
  intros Hm Hk st r st' H. apply bind_inv in H.
  destruct H as [(a & st1 & H1 & H2) | (e & H1 & _)].
  - rewrite (Hk a _ _ _ H2). eauto.
  - eauto.
Qed.

Lemma preserves_try_catch {A X} (f : state -> X) (m : M A) (h : exn -> M A) :
  preserves f m -> (forall e, preserves f (h e)) -> preserves f (try_catch m h).
Proof.
  intros Hm Hh st r st' H. apply try_catch_inv in H.
  destruct H as [(a & H1 & _) | (e & st1 & H1 & H2)].
  - eauto.
  - rewrite (Hh e _ _ _ H2). eauto.
Qed.

(** A computation that never raises. *)
Definition returns {A} (m : M A) : Prop :=
  forall st, exists a st', m st = (Ok a, st').

Lemma returns_ret {A} (a : A) : returns (ret a).
Proof. intros st. now exists a, st. Qed.

Lemma returns_bind {A B} (m : M A) (k : A -> M B) :
  returns m -> (forall a, returns (k a)) -> returns (bind m k).
Proof.
  intros Hm Hk st. destruct (Hm st) as (a & st1 & H1).
  destruct (Hk a st1) as (b & st2 & H2). exists b, st2.
  now rewrite (bind_ok _ _ _ _ _ H1).
Qed.

Lemma returns_try_catch {A} (m : M A) (h : exn -> M A) :
  (forall e, returns (h e)) -> returns (try_catch m h).
Proof.
  intros Hh st. unfold try_catch. destruct (m st) as [[a|e] st1]; [eauto | apply Hh].
Qed.

Lemma returns_sleep ms : returns (sleep ms).
Proof. intros st. unfold sleep. eauto. Qed.

Lemma preserves_sleep_tools ms : preserves tool_log (sleep ms).
Proof. intros st r st' H. unfold sleep in H. inversion H. reflexivity. Qed.

Lemma preserves_post_tools W s u : preserves tool_log (post W s u).
Proof.
  intros st r st' H. unfold post in H.
  destruct (endpoint W (requests st) s u); inversion H; reflexivity.
Qed.

Lemma preserves_trace_tools t s ev p : preserves tool_log (trace t s ev p).
Proof.
  intros st r st' H. unfold trace in H.
  destruct (jsonable p); inversion H; reflexivity.
Qed.

End Effects.

Create HintDb frame.
#[export] Hint Resolve preserves_ret preserves_raise preserves_lift
  preserves_sleep_tools preserves_post_tools preserves_trace_tools : frame.

(** Frame goals follow the shape of the computation. *)
Ltac frame :=
  repeat first
    [ solve [auto with frame]
    | apply preserves_bind
    | apply preserves_try_catch
    | intro ].

(** ** The completion round trip *)

Section RoundTrip.

Lemma chat_attempt_returns W system user attempt : returns (chat_attempt W system user attempt).
Proof.
  apply returns_try_catch. intros e.
  apply returns_bind; [apply returns_sleep | intros; apply returns_ret].
Qed.

Lemma preserves_chat_attempt_tools W system user attempt :
  preserves tool_log (chat_attempt W system user attempt).
Proof.
  apply preserves_try_catch.
  - apply preserves_bind; [apply preserves_post_tools|].
    intros [[code text] json].
    destruct (transient code).
    + apply preserves_bind; [apply preserves_sleep_tools | intros; apply preserves_ret].
    + destruct (400 <=? code)%Z; [apply preserves_raise|].
      apply preserves_bind; [apply preserves_lift|]. intros data.
      destruct (chat_content data); [apply preserves_ret | apply preserves_raise].
  - intros e. apply preserves_bind; [apply preserves_sleep_tools | intros; apply preserves_ret].
Qed.

Lemma preserves_chat_loop_tools W system user attempts last_err :
  preserves tool_log (chat_loop W system user attempts last_err).
Proof.
  revert last_err. induction attempts as [|a rest IH]; intros last_err; simpl.
  - apply preserves_raise.
  - apply preserves_bind; [apply preserves_chat_attempt_tools|].
    intros [c|e]; [apply preserves_ret | apply IH].
Qed.

Lemma preserves_groq_chat_tools W system user : preserves tool_log (_groq_chat W system user).
Proof.
  unfold _groq_chat. destruct (is_empty (GROQ_API_KEY W)).
  - apply preserves_raise.
  - apply preserves_chat_loop_tools.
Qed.

#[local] Hint Resolve preserves_groq_chat_tools : frame.

(** The round trip raises nothing but [LLMError]. *)
Lemma chat_loop_raises W system user attempts last_err st e st' :
  chat_loop W system user attempts last_err st = (Raise e, st') -> exn_cls e = LLMError.
Proof.
  revert last_err st. induction attempts as [|a rest IH]; intros last_err st; simpl.
  - unfold raise. intros H. inversion H. reflexivity.
  - intros H. apply bind_inv in H.
    destruct H as [(t & st1 & H1 & H2) | (e' & H1 & _)].
    + destruct t as [c|e'].
      * inversion H2.
      * eauto.
    + destruct (chat_attempt_returns W system user a st) as (t & st1 & Ht). congruence.
Qed.

Lemma groq_chat_raises W system user st e st' :
  _groq_chat W system user st = (Raise e, st') -> exn_cls e = LLMError.
Proof.
  unfold _groq_chat. destruct (is_empty (GROQ_API_KEY W)).
  - unfold raise. intros H. inversion H. reflexivity.
  - apply chat_loop_raises.
Qed.

(** Every attempt of the round trip posts once. *)
Lemma chat_attempt_requests W system user attempt st r st' :
  chat_attempt W system user attempt st = (r, st') -> requests st' = S (requests st).
Proof.
  unfold chat_attempt, try_catch, bind, post, sleep, lift, ret, raise.
  destruct (endpoint W (requests st) system user) as [code text json|e].
  - destruct (transient code); [intros H; inversion H; reflexivity|].
    destruct (400 <=? code)%Z; [intros H; inversion H; reflexivity|].
    destruct json as [data|e]; [|intros H; inversion H; reflexivity].
    destruct (chat_content data); intros H; inversion H; reflexivity.
  - intros H; inversion H; reflexivity.
Qed.

Lemma chat_loop_requests W system user attempts last_err st r st' :
  chat_loop W system user attempts last_err st = (r, st') ->
  requests st <= requests st' <= requests st + List.length attempts.
Proof.
  revert last_err st. induction attempts as [|a rest IH]; intros last_err st; simpl.
  - unfold raise. intros H. inversion H. lia.
  - intros H. apply bind_inv in H.
    destruct H as [(t & st1 & H1 & H2) | (e & H1 & _)].
    + apply chat_attempt_requests in H1. destruct t as [c|e].
      * inversion H2; subst. lia.
      * apply IH in H2. lia.
    + apply chat_attempt_requests in H1. lia.
Qed.

(** A round trip posts at most three times. *)
Lemma groq_chat_requests W system user st r st' :
  _groq_chat W system user st = (r, st') ->
  requests st <= requests st' <= requests st + 3.
Proof.
  unfold _groq_chat. destruct (is_empty (GROQ_API_KEY W)).
  - unfold raise. intros H. inversion H. lia.
  - intros H. apply chat_loop_requests in H. simpl in H. exact H.
Qed.

End RoundTrip.

(** ** Retries of the round trip *)

Section Retry.

(** A response with a status of 400 or more that is not one of the five
    transient codes raises inside the [try], and the handler sleeps and
    goes on to the next attempt. *)
Lemma chat_attempt_client_error W system user attempt st code text body :
  endpoint W (requests st) system user = Responded code text body ->
  transient code = false -> (400 <= code)%Z ->
  chat_attempt W system user attempt st =
    (Ok (Next (llm_error ("Groq error " ++ str_of_Z code ++ ": " ++ text))),
     after_failure attempt st).
Proof.
  intros He Ht Hc. unfold chat_attempt, try_catch, bind, post.
  rewrite He, Ht. apply Z.leb_le in Hc. rewrite Hc. reflexivity.
Qed.

Lemma chat_attempt_transient W system user attempt st code text body :
  endpoint W (requests st) system user = Responded code text body ->
  transient code = true ->
  chat_attempt W system user attempt st =
    (Ok (Next (llm_error ("Groq transient " ++ str_of_Z code ++ ": " ++ text))),
     after_failure attempt st).
Proof.
  intros He Ht. unfold chat_attempt, try_catch, bind, post.
  rewrite He, Ht. reflexivity.
Qed.

Lemma chat_attempt_transport W system user attempt st e :
  endpoint W (requests st) system user = Failed e ->
  chat_attempt W system user attempt st = (Ok (Next e), after_failure attempt st).
Proof.
  intros He. unfold chat_attempt, try_catch, bind, post.
  rewrite He. reflexivity.
Qed.

(** C2, the non-transient half, on the code.  When the endpoint answers
    the three requests of a round trip with a 4xx status other than 429,
    [_groq_chat] does not fail at the first answer: it posts three times,
    sleeps 0.6 s, 1.2 s and 2.4 s, and only then raises. *)
Theorem groq_chat_retries_client_errors W system user st code text body :
  GROQ_API_KEY W <> "" ->
  (400 <= code < 500)%Z -> code <> 429%Z ->
  (forall n, endpoint W n system user = Responded code text body) ->
  exists st',
    _groq_chat W system user st =
      (Raise (llm_error ("Groq call failed after retries: Groq error "
                         ++ str_of_Z code ++ ": " ++ text)), st')
    /\ requests st' = requests st + 3
    /\ slept st' = (slept st ++ [600; 1200; 2400]%N)%list.
Proof.
  intros Hk Hc Hn He.
  assert (Ht : transient code = false).
  { unfold transient. simpl. 
    repeat match goal with |- context [Z.eqb code ?k] =>
      let E := fresh in destruct (Z.eqb_spec code k) as [E|E]; [lia|] end.
    reflexivity. }
  unfold _groq_chat. apply is_empty_false in Hk. rewrite Hk.
  eexists. split.
  - simpl seq.
    do 3 (cbn [chat_loop];
          erewrite bind_ok by (eapply chat_attempt_client_error; [apply He | exact Ht | lia]);
          cbv iota).
    reflexivity.
  - split; simpl; [lia|]. rewrite <- !app_assoc. reflexivity.
Qed.

(** The same at a concrete endpoint: every request answered 401. *)
Lemma groq_chat_retries_401 :
  exists st',
    _groq_chat (always_status 401 "unauthorized") "system" "user" initial =
      (Raise (llm_error "Groq call failed after retries: Groq error 401: unauthorized"), st')
    /\ requests st' = 3
    /\ slept st' = [600; 1200; 2400]%N.
Proof.
  apply (groq_chat_retries_client_errors (always_status 401 "unauthorized")
           "system" "user" initial 401 "unauthorized" (Raise (mk_exn JSONDecodeError ""))).
  - discriminate.
  - lia.
  - discriminate.
  - reflexivity.
Defined.

(** The transient half of C2: a 429 (or 500, 502, 503, 504) and a
    transport failure are retried the same way, three requests in all, with
    backoffs of 0.6 s, 1.2 s and 2.4 s. *)
Lemma groq_chat_retries_transient W system user st :
  GROQ_API_KEY W <> "" ->
  (forall n, match endpoint W n system user with
             | Responded code _ _ => transient code = true
             | Failed _ => True
             end) ->
  exists e st',
    _groq_chat W system user st = (Raise e, st')
    /\ requests st' = requests st + 3
    /\ slept st' = (slept st ++ [600; 1200; 2400]%N)%list.
Proof.
  intros Hk He.
  assert (Hstep : forall attempt s, exists e,
             chat_attempt W system user attempt s = (Ok (Next e), after_failure attempt s)).
  { intros attempt s. specialize (He (requests s)).
    destruct (endpoint W (requests s) system user) as [code text body|e] eqn:E.
    - eexists. eapply chat_attempt_transient; eauto.
    - eexists. eapply chat_attempt_transport; eauto. }
  unfold _groq_chat. apply is_empty_false in Hk. rewrite Hk.
  simpl seq. cbn [chat_loop].
  destruct (Hstep 0 st) as [e0 H0]. rewrite (bind_ok _ _ _ _ _ H0). cbn [chat_loop].
  destruct (Hstep 1 (after_failure 0 st)) as [e1 H1]. rewrite (bind_ok _ _ _ _ _ H1).
  cbn [chat_loop].
  destruct (Hstep 2 (after_failure 1 (after_failure 0 st))) as [e2 H2].
  rewrite (bind_ok _ _ _ _ _ H2). cbn [chat_loop].
  eexists. eexists. split; [reflexivity|].
  split; simpl; [lia|]. rewrite <- !app_assoc. reflexivity.
Qed.

End Retry.

(** ** The repair cascade *)

Section Cascade.

Lemma preserves_parse_attempt {X} (f : state -> X) W check text :
  preserves f (parse_attempt W check text).
Proof.
  assert (H : preserves f (_ <- lift (_safe_snippet text 400) ;; ret (@None value))%step).
  { apply preserves_bind; [apply preserves_lift | intros; apply preserves_ret]. }
  unfold parse_attempt. destruct (extract_json W text) as [[]|]; auto.
  destruct (check _); auto. apply preserves_ret.
Qed.

Lemma parse_attempt_some W check text st v st' :
  parse_attempt W check text st = (Ok (Some v), st') -> is_dict v = true.
Proof.
  assert (H : forall s s', (_ <- lift (_safe_snippet text 400) ;; ret (@None value))%step s
                           = (Ok (Some v), s') -> is_dict v = true).
  { intros s s' H. unfold bind, lift, ret in H.
    destruct (_safe_snippet text 400); inversion H. }
  unfold parse_attempt. destruct (extract_json W text) as [[]|]; eauto.
  destruct (check _); eauto. unfold ret. intros E. inversion E. reflexivity.
Qed.

Lemma parse_attempt_raises W check text st e st' :
  parse_attempt W check text st = (Raise e, st') ->
  exn_cls e = TypeError \/ exn_cls e = AttributeError.
Proof.
  assert (H : forall s s', (_ <- lift (_safe_snippet text 400) ;; ret (@None value))%step s
                           = (Raise e, s') ->
                           exn_cls e = TypeError \/ exn_cls e = AttributeError).
  { intros s s' H. unfold bind, lift, ret, _safe_snippet in H.
    destruct (truthy text); [destruct text|]; inversion H; auto. }
  unfold parse_attempt. destruct (extract_json W text) as [[]|]; eauto.
  destruct (check _); eauto. unfold ret. intros E. inversion E.
Qed.

(** An unparsable text falls through to the next attempt. *)
Lemma parse_attempt_unparsable W check t st :
  Spec.is_text t = true -> ~ Spec.parsable W t ->
  parse_attempt W check t st = (Ok None, st).
Proof.
  intros T H.
  assert (S : (_ <- lift (_safe_snippet t 400) ;; ret (@None value))%step st
              = (Ok None, st)).
  { unfold bind, lift, ret, _safe_snippet.
    destruct (truthy t) eqn:E; [|reflexivity].
    unfold Spec.is_text in T. rewrite E, orb_false_r in T.
    destruct t; try discriminate; reflexivity. }
  unfold parse_attempt.
  destruct (extract_json W t) as [v|e] eqn:E; [|exact S].
  destruct v; try exact S. exfalso. apply H. now exists d.
Qed.

(** Whatever the endpoint does, the cascade returns a mapping or raises;
    it raises no parse exception ([ValueError], [JSONDecodeError]). *)
Lemma llm_json_result W system user st r st' :
  llm_json W system user st = (r, st') ->
  match r with
  | Ok v => is_dict v = true
  | Raise e => exn_cls e = LLMError \/ exn_cls e = TypeError \/ exn_cls e = AttributeError
  end.
Proof.
  unfold llm_json.
  destruct (String.eqb _ "mock"); [intros H; inversion H; reflexivity|].
  destruct (negb _); [intros H; inversion H; auto|].
  intros H.
  repeat match goal with
  | H : bind (_groq_chat _ _ _) _ _ = _ |- _ =>
      apply bind_inv in H;
      destruct H as [(? & ? & _ & H) | (? & H & ->)];
      [| left; eapply groq_chat_raises; eassumption]
  | H : bind (parse_attempt _ _ _) _ _ = _ |- _ =>
      let H1 := fresh "Hp" in
      apply bind_inv in H;
      destruct H as [([?|] & ? & H1 & H) | (? & H & ->)];
      [ inversion H; subst; eapply parse_attempt_some; eassumption
      | | right; eapply parse_attempt_raises; eassumption]
  end.
  inversion H. reflexivity.
Qed.

Lemma llm_json_returns_dict W system user st v st' :
  llm_json W system user st = (Ok v, st') -> exists d, v = VDict d.
Proof.
  intros H. apply llm_json_result in H. destruct v; try discriminate. eauto.
Qed.

Lemma preserves_llm_json_tools W system user : preserves tool_log (llm_json W system user).
Proof.
  unfold llm_json.
  destruct (String.eqb _ "mock"); [apply preserves_ret|].
  destruct (negb _); [apply preserves_raise|].
  repeat first
    [ solve [auto using preserves_groq_chat_tools, preserves_parse_attempt with frame]
    | apply preserves_bind
    | intros [?|]
    | intro ].
Qed.

(** C7.  When the provider is the live one and the three round trips of
    the cascade return texts (or null contents) none of which holds a
    parsable JSON object,
    the cascade ends after the third parse attempt (its state is the one
    the third round trip left, at most nine requests after the start),
    raises nothing, and returns the fixed fallback decision: a mapping that
    selects the document tool with confidence 0. *)
Theorem llm_json_three_unparsable W system user st t1 st1 t2 st2 t3 st3 :
  strip (lower (LLM_PROVIDER W)) = "groq" ->
  _groq_chat W system user st = (Ok t1, st1) ->
  Spec.is_text t1 = true -> ~ Spec.parsable W t1 ->
  _groq_chat W repair_system (repair_user t1) st1 = (Ok t2, st2) ->
  Spec.is_text t2 = true -> ~ Spec.parsable W t2 ->
  _groq_chat W schema_system (schema_user t2) st2 = (Ok t3, st3) ->
  Spec.is_text t3 = true -> ~ Spec.parsable W t3 ->
  llm_json W system user st = (Ok fallback_decision, st3)
  /\ requests st3 <= requests st + 9
  /\ is_dict fallback_decision = true
  /\ get fallback_decision "tool" VNone = Ok (VStr "doc_write")
  /\ get fallback_decision "confidence" VNone = Ok (VInt 0).
Proof.
  intros Hp H1 T1 U1 H2 T2 U2 H3 T3 U3.
  split; [|split; [|repeat split]].
  2:{ apply groq_chat_requests in H1, H2, H3. lia. }
  unfold llm_json. rewrite Hp.
  change (String.eqb "groq" "mock") with false.
  change (String.eqb "groq" "groq") with true. cbv iota. cbn [negb].
  rewrite (bind_ok _ _ _ _ _ H1).
  rewrite (bind_ok _ _ _ _ _ (parse_attempt_unparsable W _ t1 st1 T1 U1)).
  rewrite (bind_ok _ _ _ _ _ H2).
  rewrite (bind_ok _ _ _ _ _ (parse_attempt_unparsable W _ t2 st2 T2 U2)).
  rewrite (bind_ok _ _ _ _ _ H3).
  rewrite (bind_ok _ _ _ _ _ (parse_attempt_unparsable W _ t3 st3 T3 U3)).
  reflexivity.
Qed.

(** Three replies in prose. *)
Lemma llm_json_three_unparsable_example :
  llm_json (always_says "groq" "Sorry, I cannot help." [] (fun _ _ _ => Ok VNone))
    "system" "user" initial
  = (Ok fallback_decision, mk_state 3 [] [] [])
  /\ 3 <= 0 + 9
  /\ is_dict fallback_decision = true
  /\ get fallback_decision "tool" VNone = Ok (VStr "doc_write")
  /\ get fallback_decision "confidence" VNone = Ok (VInt 0).
Proof.
  apply (llm_json_three_unparsable
           (always_says "groq" "Sorry, I cannot help." [] (fun _ _ _ => Ok VNone))
           "system" "user" initial
           (VStr "Sorry, I cannot help.") (mk_state 1 [] [] [])
           (VStr "Sorry, I cannot help.") (mk_state 2 [] [] [])
           (VStr "Sorry, I cannot help.") (mk_state 3 [] [] []));
    try reflexivity; intros [d H]; vm_compute in H; discriminate.
Defined.

(** A completion whose content is a number is no text: the log line of the
    first handler raises on it. *)
Example llm_json_content_not_text :
  fst (llm_json (mk_world "groq" "key"
                   (fun _ _ _ => Responded 200 "" (Ok (chat_body (VInt 5))))
                   (fun _ => None) (fun _ => "") (returning VNone))
         "system" "user" initial)
  = Raise (mk_exn TypeError "object is not subscriptable").
Proof. reflexivity. Qed.

End Cascade.

(** ** The step: preparation *)

Section Preparation.

Lemma jsonable_safe v : jsonable (_safe_jsonable v) = true.
Proof. unfold _safe_jsonable. destruct (jsonable v) eqn:E; auto. Qed.

Lemma trace_ok t s ev p st :
  jsonable p = true ->
  trace t s ev p st =
    (Ok tt, mk_state (requests st) (slept st) (trace_log st ++ [(ev, p)])%list (tool_log st)).
Proof. unfold trace. now intros ->. Qed.

Lemma returns_trace t s ev p : jsonable p = true -> returns (trace t s ev p).
Proof. intros H st. rewrite trace_ok by assumption. eauto. Qed.

Lemma map_py_str_VStr l : map py_str (map VStr l) = l.
Proof. induction l; simpl; congruence. Qed.

Lemma enforced_goal_stripped args : strip (enforced_goal args) = enforced_goal args.
Proof. unfold enforced_goal. apply strip_idem. Qed.

Lemma extract_goal_enforced args :
  _extract_goal_from_context (VDict (enforced_context args)) = Ok (enforced_goal args).
Proof.
  unfold _extract_goal_from_context, enforced_context.
  change (dict_get "task_goal" VNone _) with (VStr (enforced_goal args)).
  cbv iota. now rewrite enforced_goal_stripped.
Qed.

(** The preparation of a [doc_write] call. *)
Lemma prepare_doc_write step_title memory raw_args :
  let d := match raw_args with VDict d => d | _ => [] end in
  prepare step_title memory "doc_write" raw_args =
    Ok (if is_empty (enforced_goal d)
        then mk_prepared "doc_write" doc_write
               (VDict (Spec.clarified step_title d)) (Spec.clarified step_title d)
        else mk_prepared "doc_write" doc_write
               (VDict (_ensure_doc_write_args_schema d)) (_ensure_doc_write_args_schema d)).
Proof.
  intros d. unfold prepare.
  change (get_tool "doc_write") with (Ok doc_write). cbv iota beta.
  change (String.eqb "doc_write" "doc_write") with true. cbv iota.
  fold d.
  change (dict_get "context" VNone (_ensure_doc_write_args_schema d))
    with (VDict (enforced_context d)).
  rewrite extract_goal_enforced. cbv iota.
  change (String.eqb "doc_write" "metrics_generate") with false. cbv iota.
  destruct (is_empty (enforced_goal d)) eqn:E.
  - apply is_empty_true in E. rewrite E.
    unfold enforced_context at 1 2.
    change (dict_get "assumptions" (VList []) _)
      with (VList (map VStr (enforced_assumptions d))).
    change (dict_get "constraints" (VList []) _)
      with (VList (map VStr (enforced_constraints d))).
    cbn [list_or_empty]. rewrite !map_py_str_VStr.
    reflexivity.
  - reflexivity.
Qed.

Lemma prepare_metrics step_title memory raw_args :
  exists p, prepare step_title memory "metrics_generate" raw_args = Ok p /\
            (Spec.metrics_prepared p \/
             p = mk_prepared "doc_write" doc_write
                   (VDict (clarify_call step_title)) (clarify_call step_title)).
Proof.
  unfold prepare.
  change (get_tool "metrics_generate") with (Ok metrics_generate). cbv iota beta.
  change (String.eqb "metrics_generate" "doc_write") with false. cbv iota.
  change (String.eqb "metrics_generate" "metrics_generate") with true. cbv iota.
  destruct (negb (truthy _)).
  - change (get_tool "doc_write") with (Ok doc_write). cbv iota.
    eexists. split; [reflexivity|]. right. reflexivity.
  - eexists. split; [reflexivity|]. left. split; reflexivity.
Qed.

(** Whatever the decision holds, the preparation succeeds, for one of the
    two tools. *)
Lemma prepare_prepared step_title memory tool_name raw_args :
  In tool_name ALLOWED_TOOLS ->
  exists p, prepare step_title memory tool_name raw_args = Ok p /\
            ((exists x, Spec.doc_prepared p x) \/ Spec.metrics_prepared p).
Proof.
  intros [<- | [<- | []]].
  - rewrite prepare_doc_write. cbv zeta. eexists. split; [reflexivity|]. left.
    match goal with |- context [is_empty (enforced_goal ?d)] =>
      exists d; destruct (is_empty (enforced_goal d)) end;
      (split; [reflexivity | split; [reflexivity|]]); eexists; split; reflexivity.
  - destruct (prepare_metrics step_title memory raw_args) as (p & Hp & [H | ->]).
    + exists p. auto.
    + eexists. split; [exact Hp|]. left. eexists. split; [reflexivity|].
      split; [reflexivity|]. eexists. split; reflexivity.
Qed.

Lemma str_items_VStr l :
  Forall (fun s => strip s <> "") l -> str_items (map VStr l) = l.
Proof.
  unfold str_items. induction 1 as [|x r Hx Hr IH]; simpl; auto.
  apply is_empty_false in Hx. rewrite Hx. simpl. now rewrite IH.
Qed.

(** The checks after a successful call of a prepared document tool. *)
Lemma checked_doc step_title p x decision out :
  Spec.doc_prepared p x ->
  let text := py_str out in
  let goal := enforced_goal x in
  let clarify := _make_clarify_doc step_title goal
                   (enforced_assumptions x) (enforced_constraints x) in
  checked step_title p decision out =
    Ok (if Spec.fires goal step_title text
        then (VStr clarify,
              forced_clarify step_title goal
                (enforced_assumptions x) (enforced_constraints x) clarify
                (_contains_placeholders text) (_duplicate_headers text)
                (_likely_domain_drift goal step_title text))
        else (out, decision)).
Proof.
  intros (Hn & Ht & d & Hd & Hc). cbv zeta.
  unfold checked. rewrite Hn. change (String.eqb "doc_write" "doc_write") with true.
  cbv iota. unfold guard. rewrite Hd, Hc. cbv iota.
  rewrite extract_goal_enforced. cbv iota.
  unfold enforced_context at 1 2.
  change (dict_get "assumptions" (VList []) _)
    with (VList (map VStr (enforced_assumptions x))).
  change (dict_get "constraints" (VList []) _)
    with (VList (map VStr (enforced_constraints x))).
  cbn [list_or_empty].
  rewrite !str_items_VStr by apply str_items_not_blank.
  unfold Spec.fires. destruct (_ || _ || _); reflexivity.
Qed.

Lemma checked_metrics step_title p decision out :
  Spec.metrics_prepared p -> checked step_title p decision out = Ok (out, decision).
Proof.
  intros (Hn & Ht). unfold checked. rewrite Hn. reflexivity.
Qed.

End Preparation.

(** ** The step: the retry loop *)

Section Loop.

Lemma call_eq W t kwargs st :
  call W t kwargs st = (tool_body W t (List.length (tool_log st)) kwargs, after_call t kwargs st).
Proof. reflexivity. Qed.

Lemma heal_returns W step_title p clean_args e : returns (heal W step_title p clean_args e).
Proof. apply returns_try_catch. intros. apply returns_ret. Qed.

Lemma preserves_heal_tools W step_title p clean_args e :
  preserves tool_log (heal W step_title p clean_args e).
Proof.
  unfold heal, self_heal. pose proof preserves_llm_json_tools. frame.
Qed.

(** When the arg fixer's round trip raises, the arguments stay. *)
Lemma heal_unchanged W step_title p clean_args e st e' st1 :
  llm_json W ARG_FIXER_SYSTEM
    (fix_user W (p_tool_name p) step_title (p_raw_args p) e) st = (Raise e', st1) ->
  heal W step_title p clean_args e st = (Ok clean_args, st1).
Proof.
  intros H. unfold heal, try_catch, self_heal.
  now rewrite (bind_raise _ _ _ _ _ H).
Qed.

Lemma attempt_body_success W step_title p decision attempt clean_args output st v r :
  tool_body W (p_tool p) (List.length (tool_log st)) clean_args = Ok v ->
  checked step_title p decision v = Ok r ->
  attempt_body W step_title p decision attempt clean_args output st =
    (Ok (Break (fst r) (snd r)), after_call (p_tool p) clean_args st).
Proof.
  intros Hv Hr. unfold attempt_body, try_catch, bind.
  rewrite call_eq, Hv, Hr. reflexivity.
Qed.

Lemma attempt_body_failure W step_title p decision attempt clean_args output st e :
  tool_body W (p_tool p) (List.length (tool_log st)) clean_args = Raise e ->
  attempt_body W step_title p decision attempt clean_args output st =
    (clean_args' <- (if (attempt =? 0)%nat then heal W step_title p clean_args e
                     else ret clean_args) ;;
     ret (Retry clean_args' (if (attempt =? 1)%nat then error_record e else output)))%step
      (after_call (p_tool p) clean_args st).
Proof.
  intros He. unfold attempt_body, try_catch. unfold bind at 1.
  rewrite call_eq, He. reflexivity.
Qed.

(** The first attempt succeeds: one call, then the checks. *)
Lemma loop_first_success W step_title p decision clean_args st v r :
  tool_body W (p_tool p) (List.length (tool_log st)) clean_args = Ok v ->
  checked step_title p decision v = Ok r ->
  attempt_loop W step_title p decision (seq 0 2) clean_args VNone st =
    (Ok r, after_call (p_tool p) clean_args st).
Proof.
  intros Hv Hr. simpl seq. cbn [attempt_loop].
  rewrite (bind_ok _ _ _ _ _
             (attempt_body_success W step_title p decision 0 clean_args VNone st v r Hv Hr)).
  destruct r; reflexivity.
Qed.

(** The first attempt raises: the arg fixer runs once, and the second
    attempt is the last. *)
Lemma loop_second_attempt W step_title p decision clean_args st e1 args2 st2 :
  tool_body W (p_tool p) (List.length (tool_log st)) clean_args = Raise e1 ->
  heal W step_title p clean_args e1 (after_call (p_tool p) clean_args st) = (Ok args2, st2) ->
  List.length (tool_log st2) = S (List.length (tool_log st))
  /\ (forall v r,
        tool_body W (p_tool p) (S (List.length (tool_log st))) args2 = Ok v ->
        checked step_title p decision v = Ok r ->
        attempt_loop W step_title p decision (seq 0 2) clean_args VNone st =
          (Ok r, after_call (p_tool p) args2 st2))
  /\ (forall e2,
        tool_body W (p_tool p) (S (List.length (tool_log st))) args2 = Raise e2 ->
        attempt_loop W step_title p decision (seq 0 2) clean_args VNone st =
          (Ok (error_record e2, decision), after_call (p_tool p) args2 st2)).
Proof.
  intros H1 Hh.
  assert (L : List.length (tool_log st2) = S (List.length (tool_log st))).
  { rewrite (preserves_heal_tools _ _ _ _ _ _ _ _ Hh). simpl.
    rewrite length_app. simpl. lia. }
  assert (F : attempt_body W step_title p decision 0 clean_args VNone st =
              (Ok (Retry args2 VNone), st2)).
  { rewrite (attempt_body_failure _ _ _ _ _ _ _ _ _ H1).
    change (0 =? 0)%nat with true. change (0 =? 1)%nat with false. cbv iota.
    now rewrite (bind_ok _ _ _ _ _ Hh). }
  split; [exact L|]. split.
  - intros v r Hv Hr. simpl seq. cbn [attempt_loop].
    rewrite (bind_ok _ _ _ _ _ F). cbv iota. cbn [attempt_loop].
    rewrite <- L in Hv.
    rewrite (bind_ok _ _ _ _ _
               (attempt_body_success W step_title p decision 1 args2 VNone st2 v r Hv Hr)).
    destruct r; reflexivity.
  - intros e2 He. simpl seq. cbn [attempt_loop].
    rewrite (bind_ok _ _ _ _ _ F). cbv iota. cbn [attempt_loop].
    rewrite <- L in He.
    erewrite bind_ok by (rewrite (attempt_body_failure _ _ _ _ _ _ _ _ _ He); reflexivity).
    reflexivity.
Qed.

Lemma conclude_returns W task_id step_id step_title output final_decision st :
  exists st', conclude W task_id step_id step_title output final_decision st
              = (Ok (output, final_decision), st')
              /\ tool_log st' = tool_log st.
Proof.
  unfold conclude.
  assert (J : jsonable (VDict [("tool_output", _safe_jsonable output)]) = true).
  { simpl. now rewrite jsonable_safe. }
  rewrite (bind_ok _ _ _ _ _ (trace_ok task_id step_id "llm" _ st J)).
  set (st1 := mk_state _ _ _ _).
  set (refl := try_catch _ _).
  assert (R : returns refl) by (apply returns_try_catch; intros; apply returns_ret).
  assert (P : preserves tool_log refl).
  { apply preserves_try_catch; [|intros; apply preserves_ret].
    apply preserves_bind; [apply preserves_llm_json_tools|].
    intros. apply preserves_trace_tools. }
  destruct (R st1) as ([] & st2 & H2).
  rewrite (bind_ok _ _ _ _ _ H2).
  exists st2. split; [reflexivity|].
  rewrite (P _ _ _ H2). reflexivity.
Qed.

(** The lines before the loop raise what the decision request raises, and
    nothing else. *)
Lemma decide_cases W task_id step_id step_title memory st :
  match llm_json W EXECUTOR_SYSTEM (user_prompt W step_title memory) st with
  | (Raise e, st1) => decide W task_id step_id step_title memory st = (Raise e, st1)
  | (Ok decision, st1) =>
      exists d p st0,
        decision = VDict d
        /\ prepare step_title memory (Spec.tool_of d) (dict_get "args" (VDict []) d) = Ok p
        /\ ((exists x, Spec.doc_prepared p x) \/ Spec.metrics_prepared p)
        /\ decide W task_id step_id step_title memory st = (Ok (decision, p), st0)
        /\ tool_log st0 = tool_log st
        /\ requests st0 = requests st1
  end.
Proof.
  destruct (llm_json _ _ _ st) as [[decision|e] st1] eqn:H.
  - destruct (llm_json_returns_dict _ _ _ _ _ _ H) as [d ->].
    destruct (prepare_prepared step_title memory (Spec.tool_of d)
                (dict_get "args" (VDict []) d)) as (p & Hp & Hwp).
    { apply normalize_tool_name_allowed. }
    exists d, p. eexists. split; [reflexivity|]. split; [exact Hp|]. split; [exact Hwp|].
    unfold decide. rewrite (bind_ok _ _ _ _ _ H).
    rewrite (bind_ok _ _ _ _ _ (trace_ok _ _ _ _ _ (jsonable_safe _))).
    unfold get. unfold lift at 1. unfold bind at 1. unfold lift at 1. unfold bind at 1.
    rewrite (bind_ok _ _ _ _ _ (trace_ok _ _ _ _ _ (jsonable_safe _))).
    unfold Spec.tool_of in Hp. rewrite Hp.
    unfold lift, bind, ret. split; [reflexivity|]. cbn [tool_log requests].
    split; [|reflexivity].
    apply (preserves_llm_json_tools _ _ _ _ _ _ H).
  - unfold decide. now rewrite (bind_raise _ _ _ _ _ H).
Qed.

End Loop.

(** ** The step as a whole *)

Section Step.

(** Once the lines before the loop have returned, the step returns: the
    checked output of its last tool call, or the error record of the
    exception that call raised; and the loop makes the calls of
    [attempts]. *)
Lemma run_step_summary W task_id step_id step_title memory st decision p st0 :
  decide W task_id step_id step_title memory st = (Ok (decision, p), st0) ->
  (exists x, doc_prepared p x) \/ metrics_prepared p ->
  exists st',
    run_step W task_id step_id step_title memory st =
      (Ok (match last_attempt W step_title p st0 with
           | Ok v => match checked step_title p decision v with
                     | Ok r => r
                     | Raise _ => (v, decision)
                     end
           | Raise e => (error_record e, decision)
           end), st')
    /\ tool_log st' =
       (tool_log st0 ++ map (pair (p_tool p)) (attempts W step_title p st0))%list.
Proof.
  intros Hd Hp.
  assert (Hc : forall v, exists r, checked step_title p decision v = Ok r).
  { intros v. destruct Hp as [[x Hx] | Hm].
    - rewrite (checked_doc _ _ _ _ _ Hx). eauto.
    - rewrite (checked_metrics _ _ _ _ Hm). eauto. }
  unfold run_step. rewrite (bind_ok _ _ _ _ _ Hd). cbv iota beta.
  unfold last_attempt, attempts. cbv zeta.
  destruct (tool_body W (p_tool p) (List.length (tool_log st0)) (p_clean_args p))
    as [v|e1] eqn:H1.
  - destruct (Hc v) as [r Hr]. rewrite Hr.
    rewrite (bind_ok _ _ _ _ _ (loop_first_success _ _ _ _ _ _ _ _ H1 Hr)).
    destruct (conclude_returns W task_id step_id step_title (fst r) (snd r)
                (after_call (p_tool p) (p_clean_args p) st0)) as (st' & Hs & Ht).
    exists st'. rewrite Hs. destruct r. split; [reflexivity|]. rewrite Ht. reflexivity.
  - destruct (heal_returns W step_title p (p_clean_args p) e1
                (after_call (p_tool p) (p_clean_args p) st0)) as (a2 & st2 & Hh).
    rewrite Hh. cbn [fst].
    destruct (loop_second_attempt W step_title p decision _ _ _ _ _ H1 Hh)
      as (L & Hok & Hfail).
    assert (T2 : tool_log st2 = (tool_log st0 ++ [(p_tool p, p_clean_args p)])%list).
    { rewrite (preserves_heal_tools _ _ _ _ _ _ _ _ Hh). reflexivity. }
    destruct (tool_body W (p_tool p) (S (List.length (tool_log st0))) a2) as [v|e2] eqn:H2.
    + destruct (Hc v) as [r Hr]. rewrite Hr.
      rewrite (bind_ok _ _ _ _ _ (Hok v r eq_refl Hr)).
      destruct (conclude_returns W task_id step_id step_title (fst r) (snd r)
                  (after_call (p_tool p) a2 st2)) as (st' & Hs & Ht).
      exists st'. rewrite Hs. destruct r. split; [reflexivity|]. rewrite Ht.
      simpl. rewrite T2, <- app_assoc. reflexivity.
    + rewrite (bind_ok _ _ _ _ _ (Hfail e2 eq_refl)).
      destruct (conclude_returns W task_id step_id step_title
                  (error_record e2) decision
                  (after_call (p_tool p) a2 st2)) as (st' & Hs & Ht).
      exists st'. cbn [fst snd]. rewrite Hs. split; [reflexivity|]. rewrite Ht.
      simpl. rewrite T2, <- app_assoc. reflexivity.
Qed.

Lemma decide_prepared W task_id step_id step_title memory st decision p st0 :
  decide W task_id step_id step_title memory st = (Ok (decision, p), st0) ->
  ((exists x, doc_prepared p x) \/ metrics_prepared p)
  /\ tool_log st0 = tool_log st
  /\ exists d st1,
       decision = VDict d
       /\ llm_json W EXECUTOR_SYSTEM (user_prompt W step_title memory) st
          = (Ok decision, st1)
       /\ prepare step_title memory (tool_of d) (dict_get "args" (VDict []) d) = Ok p.
Proof.
  intros H. pose proof (decide_cases W task_id step_id step_title memory st) as C.
  destruct (llm_json _ _ _ st) as [[dec|e] st1].
  - destruct C as (d & p' & st0' & -> & Hp & Hw & Hd & Ht & _).
    rewrite Hd in H. inversion H; subst. split; [exact Hw|]. split; [exact Ht|].
    exists d, st1. auto.
  - congruence.
Qed.

End Step.

(** ** Placeholder tokens *)

Section Tokens.

Lemma codes_app a b : codes (a ++ b) = (codes a ++ codes b)%list.
Proof. induction a as [|c r IH]; simpl; congruence. Qed.

Lemma continuation_ascii c : (N_of_ascii c <? 0x80)%N = true -> continuation c = None.
Proof.
  intros H. unfold continuation, in_span. cbv zeta.
  apply N.ltb_lt in H.
  destruct (0x80 <=? N_of_ascii c)%N eqn:E; [|reflexivity].
  apply N.leb_le in E. lia.
Qed.

(** The character a lead byte starts does not depend on what follows a
    character boundary. *)
Lemma sequence_app b0 r s :
  boundary s = true -> sequence b0 (r ++ s) = sequence b0 r.
Proof.
  intros B.
  assert (E : forall b1 t, s = String b1 t -> continuation b1 = None).
  { intros b1 t ->. now apply continuation_ascii. }
  destruct r as [|b1 [|b2 [|b3 r3]]]; simpl.
  - destruct s as [|c t]; [reflexivity|]. unfold sequence. now rewrite (E c t eq_refl).
  - unfold sequence. destruct (continuation b1); [|reflexivity].
    destruct (in_span 0xC0 0xDF _); [reflexivity|].
    destruct s as [|c t]; [reflexivity|]. now rewrite (E c t eq_refl).
  - unfold sequence. destruct (continuation b1); [|reflexivity].
    destruct (in_span 0xC0 0xDF _); [reflexivity|].
    destruct (continuation b2); [|reflexivity].
    destruct (in_span 0xE0 0xEF _); [reflexivity|].
    destruct s as [|c t]; [reflexivity|]. now rewrite (E c t eq_refl).
  - reflexivity.
Qed.

Lemma sequence_length b0 r cp k :
  sequence b0 r = Some (cp, k) ->
  (1 <= k <= 3 /\ k <= String.length r)%nat /\ (0x80 <= cp)%N.
Proof.
  unfold sequence, scalar, in_span.
  destruct r as [|b1 r1]; [discriminate|].
  destruct (continuation b1); [|discriminate].
  destruct (_ && _).
  { destruct (_ && _) eqn:E; [|discriminate]. intros H. inversion H; subst.
    apply andb_true_iff in E. destruct E as [E _]. apply N.leb_le in E.
    simpl. split; [lia | exact E]. }
  destruct r1 as [|b2 r2]; [discriminate|].
  destruct (continuation b2); [|discriminate].
  destruct (_ && _).
  { destruct (_ && _) eqn:E; [|discriminate]. intros H. inversion H; subst.
    apply andb_true_iff in E. destruct E as [E _]. apply N.leb_le in E.
    simpl. split; lia. }
  destruct r2 as [|b3 r3]; [discriminate|].
  destruct (continuation b3); [|discriminate].
  destruct (_ && _); [|discriminate].
  destruct (_ && _) eqn:E; [|discriminate]. intros H. inversion H; subst.
  apply andb_true_iff in E. destruct E as [E _]. apply N.leb_le in E.
  simpl. split; lia.
Qed.

(** How [decode] reads the first character of a text: an ASCII byte, a
    well-formed sequence, or a stray byte. *)
Lemma decode_cons b0 r0 :
  exists cp rest skipped,
    decode (String b0 r0) = cp :: decode rest
    /\ r0 = skipped ++ rest
    /\ (forall s, boundary s = true ->
          decode (String b0 (r0 ++ s)) = cp :: decode (rest ++ s))
    /\ ((N_of_ascii b0 <? 0x80)%N = true /\ cp = N_of_ascii b0
        \/ (0x80 <= cp)%N).
Proof.
  assert (Stray : (N_of_ascii b0 <? 0x80)%N = false ->
                  (0x80 <= stray b0)%N).
  { intros H. unfold stray. lia. }
  destruct (N_of_ascii b0 <? 0x80)%N eqn:A.
  { exists (N_of_ascii b0), r0, "". cbn [decode]. rewrite A.
    split; [reflexivity|]. split; [reflexivity|]. split; [|now left].
    intros s B. reflexivity. }
  destruct (sequence b0 r0) as [[cp k]|] eqn:Q.
  - destruct (sequence_length _ _ _ _ Q) as [[K L] C].
    destruct k as [|[|[|[|k]]]]; try lia.
    + destruct r0 as [|b1 r1]; [simpl in L; lia|].
      exists cp, r1, (String b1 ""). cbn [decode]. rewrite A, Q.
      split; [reflexivity|]. split; [reflexivity|]. split; [|now right].
      intros s B. pose proof (sequence_app b0 (String b1 r1) s B) as Q'.
      rewrite Q in Q'. cbn [append] in *. cbn [decode]. rewrite ?A, Q'. reflexivity.
    + destruct r0 as [|b1 [|b2 r2]]; try (simpl in L; lia).
      exists cp, r2, (String b1 (String b2 "")). cbn [decode]. rewrite A, Q.
      split; [reflexivity|]. split; [reflexivity|]. split; [|now right].
      intros s B. pose proof (sequence_app b0 (String b1 (String b2 r2)) s B) as Q'.
      rewrite Q in Q'. cbn [append] in *. cbn [decode]. rewrite ?A, Q'. reflexivity.
    + destruct r0 as [|b1 [|b2 [|b3 r3]]]; try (simpl in L; lia).
      exists cp, r3, (String b1 (String b2 (String b3 ""))). cbn [decode]. rewrite A, Q.
      split; [reflexivity|]. split; [reflexivity|]. split; [|now right].
      intros s B.
      pose proof (sequence_app b0 (String b1 (String b2 (String b3 r3))) s B) as Q'.
      rewrite Q in Q'. cbn [append] in *. cbn [decode]. rewrite ?A, Q'. reflexivity.
  - exists (stray b0), r0, "". cbn [decode]. rewrite A, Q.
    split; [reflexivity|]. split; [reflexivity|]. split; [|right; now apply Stray].
    intros s B. cbn [decode]. rewrite ?A, (sequence_app _ _ _ B), Q. reflexivity.
Qed.

Lemma length_sapp_le skipped rest : (String.length rest <= String.length (skipped ++ rest))%nat.
Proof. induction skipped; simpl; lia. Qed.

(** Decoding splits at a character boundary. *)
Lemma decode_app a s :
  boundary s = true -> decode (a ++ s) = (decode a ++ decode s)%list.
Proof.
  intros B.
  assert (G : forall n a, (String.length a <= n)%nat ->
                          decode (a ++ s) = (decode a ++ decode s)%list).
  { clear a. induction n as [|n IH]; intros a L.
    - destruct a; [reflexivity | simpl in L; lia].
    - destruct a as [|b0 r0]; [reflexivity|].
      destruct (decode_cons b0 r0) as (cp & rest & skipped & D & R & Dapp & _).
      change (String b0 r0 ++ s) with (String b0 (r0 ++ s)).
      rewrite (Dapp s B), D. simpl. f_equal. apply IH.
      simpl in L. pose proof (length_sapp_le skipped rest). rewrite <- R in H. lia. }
  apply (G (String.length a)). lia.
Qed.

Lemma decode_plain m b : plain m = true -> decode (m ++ b) = (codes m ++ decode b)%list.
Proof.
  induction m as [|c r IH]; intros P; [reflexivity|].
  simpl in P. apply andb_true_iff in P. destruct P as [C P].
  simpl. rewrite C. now rewrite (IH P).
Qed.

(** Every character of a text is a byte of the text, when it is of the
    ASCII range, or a character above 127. *)
Lemma decode_Forall (P : N -> Prop) s :
  (forall c, has_char c s = true -> P (N_of_ascii c)) ->
  (forall c, (0x80 <= c)%N -> P c) ->
  Forall P (decode s).
Proof.
  intros A H.
  assert (G : forall n t u, (String.length t <= n)%nat -> s = u ++ t -> Forall P (decode t)).
  { induction n as [|n IH]; intros t u L E.
    - destruct t; [constructor | simpl in L; lia].
    - destruct t as [|b0 r0]; [constructor|].
      destruct (decode_cons b0 r0) as (cp & rest & skipped & D & R & _ & C).
      rewrite D. constructor.
      + destruct C as [[_ ->] | C]; [|now apply H].
        apply A. rewrite E. clear. induction u as [|x u IH]; simpl.
        * now rewrite Ascii.eqb_refl.
        * rewrite IH. apply orb_true_r.
      + apply (IH rest (u ++ String b0 skipped)).
        * simpl in L. pose proof (length_sapp_le skipped rest). rewrite <- R in H0. lia.
        * rewrite E, R. clear. induction u as [|x u IH]; simpl; [reflexivity|]. now rewrite IH. }
  apply (G (String.length s) s ""); [lia | reflexivity].
Qed.

Lemma lower_char_plain c :
  (N_of_ascii (lower_char c) <? 0x80)%N = true -> (N_of_ascii c <? 0x80)%N = true.
Proof. destruct c as [[] [] [] [] [] [] [] []]; intros H; (reflexivity || exact H). Qed.

Lemma lower_plain w : plain (lower w) = true -> plain w = true.
Proof.
  induction w as [|c r IH]; [reflexivity|]. simpl.
  intros H. apply andb_true_iff in H. destruct H as [C H].
  now rewrite (lower_char_plain _ C), (IH H).
Qed.

Lemma lowered_ascii c :
  (N_of_ascii c <? 0x80)%N = true -> lowered (N_of_ascii c) = [N_of_ascii (lower_char c)].
Proof. destruct c as [[] [] [] [] [] [] [] []]; intros H; (reflexivity || discriminate H). Qed.

Lemma to_lower_codes w : plain w = true -> to_lower (codes w) = codes (lower w).
Proof.
  induction w as [|c r IH]; [reflexivity|]. simpl.
  intros H. apply andb_true_iff in H. destruct H as [C H].
  unfold to_lower in *. simpl. now rewrite (lowered_ascii _ C), (IH H).
Qed.

Lemma to_lower_app a b : to_lower (a ++ b) = (to_lower a ++ to_lower b)%list.
Proof. apply flat_map_app. Qed.

Lemma search_from_app p prev a s :
  match_here p (last_char prev a) s = true -> search_from p prev (a ++ s) = true.
Proof.
  revert prev. induction a as [|c r IH]; intros prev H.
  - simpl in *. destruct s; simpl; now rewrite H.
  - simpl. rewrite (IH (Some c) H). now destruct (match_here p prev _).
Qed.

Lemma word_before_last_char prev a :
  word_before (last_char prev a) =
  match a with [] => word_before prev | _ => Spec.ends_in_word a end.
Proof.
  revert prev. induction a as [|c r IH]; intros prev; [reflexivity|].
  simpl last_char. rewrite IH. destruct r; reflexivity.
Qed.

Lemma lit_matches_refl c : lit_matches c c = true.
Proof. unfold lit_matches. cbv zeta. now rewrite N.eqb_refl. Qed.

Lemma match_here_lits s p prev rest :
  match_here (lits s ++ p) prev (codes s ++ rest) = match_here p (last_char prev (codes s)) rest.
Proof.
  revert prev. induction s as [|c r IH]; intros prev; [reflexivity|].
  unfold lits in *. simpl. rewrite lit_matches_refl. apply IH.
Qed.

(** A whole-word [tbd], in any case, is a placeholder. *)
Lemma tbd_is_placeholder text :
  Spec.token_occurs "tbd" text -> _contains_placeholders text = true.
Proof.
  intros (a & m & b & -> & Hm & Ha & Hb).
  assert (P : plain m = true) by (apply lower_plain; now rewrite Hm).
  assert (B : boundary (m ++ b) = true).
  { destruct m as [|c r]; [discriminate|]. simpl in *.
    now apply andb_true_iff in P. }
  unfold _contains_placeholders. apply existsb_exists.
  exists (whole "tbd"). split; [simpl; tauto|].
  rewrite (decode_app _ _ B), (decode_plain _ _ P), !to_lower_app, (to_lower_codes _ P), Hm.
  unfold search. apply search_from_app. unfold whole.
  change ([WordB] ++ lits "tbd" ++ [WordB])%list with (WordB :: (lits "tbd" ++ [WordB]))%list.
  cbn [match_here]. rewrite match_here_lits. cbn [match_here].
  rewrite word_before_last_char.
  assert (Q : word_before None = false) by reflexivity.
  replace (match to_lower (decode a) with
           | [] => word_before None
           | _ :: _ => Spec.ends_in_word (to_lower (decode a))
           end) with false by (destruct (to_lower (decode a)); [reflexivity | now rewrite Ha]).
  rewrite Hb. reflexivity.
Qed.

Example tbd_token : _contains_placeholders "Pricing: TBD." = true.
Proof. vm_compute. reflexivity. Qed.

Example tbd_inside_a_word : _contains_placeholders "outbdoor" = false.
Proof. vm_compute. reflexivity. Qed.

(** Word boundaries, blanks and letter case across scripts: a [tbd]
    between Japanese letters or after an accented letter is inside a word,
    one after an ellipsis is a word; the capital I with a dot leaves a
    combining dot, which is no word character, before the token but an
    [i] after it; a no-break space (bytes 194 160) is a blank; the
    dotless i and the long s match [i] and [s]; the underscore is a word
    character. *)
Example placeholders_across_scripts :
  map _contains_placeholders
    [open_price; "…TBD"; "ÉTBD"; "İtbd"; "tbdİ";
     "bullet" ++ String "194" (String "160" "1");
     "[ınsert x]"; "lorem ıpſum"; "TBD_1"]
  = [false; true; false; true; false; true; true; true; false].
Proof. vm_compute. reflexivity. Qed.

End Tokens.

(** ** Faults of the step *)

Section Faults.

(** C1, as stated, fails: when the endpoint never answers, the decision
    request raises after its three attempts, and [run_step] raises that
    fault to its caller. *)
Lemma run_step_raises_when_unreachable :
  run_step unreachable "task" "step" "Write the PRD" [] initial =
    (Raise (llm_error "Groq call failed after retries: timed out"),
     mk_state 3 [600; 1200; 2400]%N [] []).
Proof. vm_compute. reflexivity. Qed.

(** C1, amended.  [run_step] raises to its caller exactly the fault of
    its decision request, when that request raises (no API key, an
    unsupported provider, a round trip that fails after its retries, a
    completion whose content is not text).  Once the decision request has
    returned, whatever the endpoint and the tools do afterwards, the step
    returns a pair of data whose outcome is the value the tool returned, a
    clarify document, or the error record. *)
Theorem run_step_faults W task_id step_id step_title memory st :
  match llm_json W EXECUTOR_SYSTEM (user_prompt W step_title memory) st with
  | (Raise e, st1) =>
      run_step W task_id step_id step_title memory st = (Raise e, st1)
  | (Ok decision, _) =>
      exists output final_decision st',
        run_step W task_id step_id step_title memory st
          = (Ok (output, final_decision), st')
        /\ ((exists t n kwargs, tool_body W t n kwargs = Ok output)
            \/ (exists goal assumptions constraints,
                  output = VStr (_make_clarify_doc step_title goal assumptions constraints))
            \/ (exists e, output = VDict [("error", VStr "Tool execution failed after retry");
                                          ("details", VStr (exn_text e))]))
  end.
Proof.
  pose proof (decide_cases W task_id step_id step_title memory st) as C.
  destruct (llm_json _ _ _ st) as [[decision|e] st1].
  - destruct C as (d & p & st0 & -> & Hp & Hw & Hd & Ht & _).
    destruct (run_step_summary _ _ _ _ _ _ _ _ _ Hd Hw) as (st' & Hr & _).
    rewrite Hr. clear Hr.
    destruct (last_attempt W step_title p st0) as [v|e] eqn:L.
    + assert (T : exists t n kwargs, tool_body W t n kwargs = Ok v).
      { unfold last_attempt in L. cbv zeta in L.
        destruct (tool_body W (p_tool p) _ (p_clean_args p)) eqn:E1.
        - inversion L; subst. eauto.
        - destruct (fst _); [eauto | discriminate]. }
      destruct Hw as [[x Hx] | Hm].
      * rewrite (checked_doc _ _ _ _ _ Hx). cbv zeta.
        destruct (fires _ _ _); do 3 eexists; (split; [reflexivity|]); eauto 10.
      * rewrite (checked_metrics _ _ _ _ Hm). do 3 eexists. split; [reflexivity|]. eauto.
    + do 3 eexists. split; [reflexivity|]. right. right. exists e. reflexivity.
  - unfold run_step. now rewrite (bind_raise _ _ _ _ _ C).
Qed.

Example run_step_raises_without_key :
  fst (run_step (mk_world "groq" "" (fun _ _ _ => Failed (mk_exn TransportError ""))
                   (fun _ => None) (fun _ => "") (returning VNone))
         "task" "step" "Write the PRD" [] initial)
  = Raise (llm_error "Missing GROQ_API_KEY. Put it in your .env").
Proof. reflexivity. Qed.

End Faults.

(** ** Guardrails in the step *)

Section Guardrails.

(** C3, as stated, fails for a [tbd] that stands between letters of a
    script without blanks: the pattern is [\btbd\b], the Japanese letters
    around the token are word characters, so no boundary is found, no
    check holds, and the step returns the document and the decision as
    they are, for a goal that is not empty. *)
Lemma tbd_between_letters_passes :
  contains "tbd" (lower open_price) = true
  /\ enforced_goal fitness_args = "mobile fitness app"
  /\ _contains_placeholders open_price = false
  /\ exists st',
       run_step (fitness_world (returning (VStr open_price)))
         "task" "step" "Write pricing" [] initial
       = (Ok (VStr open_price, fitness_decision), st')
       /\ get fitness_decision "reason" VNone = Ok (VStr "it is a document").
Proof.
  split; [reflexivity|]. split; [reflexivity|]. split; [vm_compute; reflexivity|].
  eexists. split; [vm_compute; reflexivity | reflexivity].
Qed.

(** C3, amended.  Let the lines before the loop return the decision and
    the prepared call.  (1) When the last call of the document tool
    returns and one of the three checks holds of its text, the step
    returns the clarify document of the step (for the goal, assumptions
    and constraints of the enforced context), and a synthetic final
    decision for the document tool with confidence 100 whose reason spells
    the three checks.  (2) When that text holds [tbd] as a whole word of
    the pattern, in any letter case and for any goal, empty or not, the
    reason starts with [bad_placeholders=True]: a whole word is neither
    preceded nor followed, in the lower-cased text, by a letter, a digit
    or number of any script, or an underscore.  (3) After a call of the
    metrics tool, and (4) after the error record, nothing is checked: the
    output is the tool's value, or the error record, and the final
    decision is the decision. *)
Theorem guardrail_override W task_id step_id step_title memory st decision p st0 :
  decide W task_id step_id step_title memory st = (Ok (decision, p), st0) ->
  (forall x v,
     doc_prepared p x -> last_attempt W step_title p st0 = Ok v ->
     fires (enforced_goal x) step_title (py_str v) = true ->
     exists final_decision st',
       run_step W task_id step_id step_title memory st =
         (Ok (VStr (_make_clarify_doc step_title (enforced_goal x)
                      (enforced_assumptions x) (enforced_constraints x)),
              final_decision), st')
       /\ get final_decision "tool" VNone = Ok (VStr "doc_write")
       /\ get final_decision "confidence" VNone = Ok (VInt 100)
       /\ get final_decision "reason" VNone =
          Ok (VStr ("bad_placeholders=" ++ bool_text (_contains_placeholders (py_str v))
                    ++ ", bad_dup_headers=" ++ bool_text (_duplicate_headers (py_str v))
                    ++ ", bad_domain_drift="
                    ++ bool_text (_likely_domain_drift (enforced_goal x) step_title (py_str v)))))
  /\ (forall x v,
        doc_prepared p x -> last_attempt W step_title p st0 = Ok v ->
        token_occurs "tbd" (py_str v) ->
        exists final_decision st' rest,
          run_step W task_id step_id step_title memory st =
            (Ok (VStr (_make_clarify_doc step_title (enforced_goal x)
                         (enforced_assumptions x) (enforced_constraints x)),
                 final_decision), st')
          /\ get final_decision "reason" VNone = Ok (VStr ("bad_placeholders=True" ++ rest)))
  /\ (forall v,
        metrics_prepared p -> last_attempt W step_title p st0 = Ok v ->
        exists st', run_step W task_id step_id step_title memory st = (Ok (v, decision), st'))
  /\ (forall e,
        last_attempt W step_title p st0 = Raise e ->
        exists st', run_step W task_id step_id step_title memory st
                    = (Ok (error_record e, decision), st')).
Proof.
  intros Hd.
  destruct (decide_prepared _ _ _ _ _ _ _ _ _ Hd) as (Hw & _ & _).
  destruct (run_step_summary _ _ _ _ _ _ _ _ _ Hd Hw) as (st' & Hr & _).
  assert (Main : forall x v,
     doc_prepared p x -> last_attempt W step_title p st0 = Ok v ->
     fires (enforced_goal x) step_title (py_str v) = true ->
     run_step W task_id step_id step_title memory st =
       (Ok (VStr (_make_clarify_doc step_title (enforced_goal x)
                    (enforced_assumptions x) (enforced_constraints x)),
            forced_clarify step_title (enforced_goal x)
              (enforced_assumptions x) (enforced_constraints x)
              (_make_clarify_doc step_title (enforced_goal x)
                 (enforced_assumptions x) (enforced_constraints x))
              (_contains_placeholders (py_str v)) (_duplicate_headers (py_str v))
              (_likely_domain_drift (enforced_goal x) step_title (py_str v))), st')).
  { intros x v Hx L F. rewrite Hr, L, (checked_doc _ _ _ _ _ Hx). cbv zeta.
    now rewrite F. }
  split; [|split; [|split]].
  - intros x v Hx L F. do 2 eexists. split; [apply (Main x v Hx L F)|].
    repeat split.
  - intros x v Hx L T. pose proof (tbd_is_placeholder _ T) as P.
    assert (F : fires (enforced_goal x) step_title (py_str v) = true).
    { unfold fires. now rewrite P. }
    do 3 eexists. split; [apply (Main x v Hx L F)|].
    rewrite P. reflexivity.
  - intros v Hm L. exists st'. now rewrite Hr, L, (checked_metrics _ _ _ _ Hm).
  - intros e L. exists st'. now rewrite Hr, L.
Qed.

(** A document for the goal [mobile fitness app] that comes back with a
    [TBD] in it. *)
Lemma guardrail_override_example :
  exists p st0,
    decide (fitness_world (returning (VStr "Pricing: TBD"))) "task" "step" "Write pricing" []
      initial = (Ok (fitness_decision, p), st0)
    /\ doc_prepared p fitness_args
    /\ last_attempt (fitness_world (returning (VStr "Pricing: TBD"))) "Write pricing" p st0
       = Ok (VStr "Pricing: TBD")
    /\ token_occurs "tbd" "Pricing: TBD"
    /\ exists final_decision st' rest,
         run_step (fitness_world (returning (VStr "Pricing: TBD")))
           "task" "step" "Write pricing" [] initial =
           (Ok (VStr (_make_clarify_doc "Write pricing" "mobile fitness app"
                        ["iOS first"] []), final_decision), st')
         /\ get final_decision "reason" VNone = Ok (VStr ("bad_placeholders=True" ++ rest)).
Proof.
  assert (T : token_occurs "tbd" "Pricing: TBD").
  { exists "Pricing: ", "TBD", "". repeat split. }
  assert (D : forall p, p = mk_prepared "doc_write" doc_write
                            (VDict (_ensure_doc_write_args_schema fitness_args))
                            (_ensure_doc_write_args_schema fitness_args) ->
                        doc_prepared p fitness_args).
  { intros p ->. split; [reflexivity | split; [reflexivity | eexists; split; reflexivity]]. }
  do 2 eexists. split; [vm_compute; reflexivity|].
  split; [apply D; reflexivity|].
  split; [reflexivity|].
  split; [exact T|].
  exact (proj1 (proj2 (guardrail_override
           (fitness_world (returning (VStr "Pricing: TBD")))
           "task" "step" "Write pricing" [] initial _ _ _ eq_refl))
           fitness_args (VStr "Pricing: TBD") (D _ eq_refl) eq_refl T).
Defined.

End Guardrails.

(** ** The clarify substitution before the first call *)

Section Substitution.

Lemma clarify_title_cases step_title :
  _clarify_title step_title = "Clarify: " ++ strip step_title
  \/ (startswith "clarify:" (lower (strip step_title)) = true
      /\ _clarify_title step_title = strip step_title).
Proof.
  unfold _clarify_title. destruct (startswith _ _); auto.
Qed.

(** C4.  Let the decision request return a mapping that selects the
    document tool (after normalization) and whose [context.task_goal] is
    empty after schema enforcement.  Then the call is prepared with the
    clarify arguments, whatever title, content and document type the model
    proposed: the title is the clarify title of the step (the stripped step
    title behind [Clarify: ], or the stripped step title itself when it
    already starts with [clarify:]), the content is the clarify document of
    the step for an empty goal and the enforced assumptions and
    constraints, the document type is [generic], the context is the
    enforced one.  These are the arguments of the first tool call the step
    makes. *)
Theorem empty_goal_substitutes_clarify W task_id step_id step_title memory st d st1 :
  llm_json W EXECUTOR_SYSTEM (user_prompt W step_title memory) st = (Ok (VDict d), st1) ->
  tool_of d = "doc_write" ->
  enforced_goal (args_of d) = "" ->
  let kwargs :=
    [("title", VStr (_clarify_title step_title));
     ("content", VStr (_make_clarify_doc step_title ""
                         (enforced_assumptions (args_of d))
                         (enforced_constraints (args_of d))));
     ("doc_type", VStr "generic");
     ("context", VDict [("task_goal", VStr "");
                        ("assumptions", VList (map VStr (enforced_assumptions (args_of d))));
                        ("constraints", VList (map VStr (enforced_constraints (args_of d))))])] in
  exists p st0 result st',
    decide W task_id step_id step_title memory st = (Ok (VDict d, p), st0)
    /\ p_tool p = doc_write
    /\ p_clean_args p = kwargs
    /\ run_step W task_id step_id step_title memory st = (result, st')
    /\ nth_error (tool_log st') (List.length (tool_log st)) = Some (doc_write, kwargs)
    /\ (_clarify_title step_title = "Clarify: " ++ strip step_title
        \/ (startswith "clarify:" (lower (strip step_title)) = true
            /\ _clarify_title step_title = strip step_title)).
Proof.
  intros H Ht Hg kwargs.
  pose proof (decide_cases W task_id step_id step_title memory st) as C.
  rewrite H in C. destruct C as (d' & p & st0 & E & Hp & Hw & Hd & Hl & _).
  inversion E; subst d'. clear E.
  rewrite Ht in Hp. rewrite prepare_doc_write in Hp. cbv zeta in Hp.
  fold (args_of d) in Hp. rewrite Hg in Hp. cbn [is_empty] in Hp.
  inversion Hp; subst p. clear Hp.
  assert (K : clarified step_title (args_of d) = kwargs).
  { unfold clarified, enforced_context. now rewrite Hg. }
  rewrite K in *.
  destruct (run_step_summary _ _ _ _ _ _ _ _ _ Hd Hw) as (st' & Hr & Hlog).
  do 4 eexists. split; [exact Hd|]. split; [reflexivity|]. split; [reflexivity|].
  split; [exact Hr|]. split; [|apply clarify_title_cases].
  rewrite Hlog, <- Hl. rewrite nth_error_app2 by lia.
  rewrite Nat.sub_diag. cbn [p_tool p_clean_args].
  unfold attempts. cbv zeta. cbn [p_tool p_clean_args].
  destruct (tool_body W doc_write _ kwargs); [reflexivity|].
  destruct (fst _); reflexivity.
Qed.

(** The mock provider's decision carries no context, hence no goal. *)
Lemma empty_goal_substitutes_clarify_example :
  exists st1,
    llm_json (always_says "mock" "" [] (returning (VStr "A plan")))
      EXECUTOR_SYSTEM (user_prompt (always_says "mock" "" [] (returning (VStr "A plan")))
                    "Write the PRD" [])
      initial
    = (Ok (mock_decision (user_prompt (always_says "mock" "" [] (returning (VStr "A plan")))
                            "Write the PRD" [])), st1)
    /\ exists p st0 result st',
         decide (always_says "mock" "" [] (returning (VStr "A plan")))
           "task" "step" "Write the PRD" [] initial
         = (Ok (mock_decision (user_prompt (always_says "mock" "" []
                                              (returning (VStr "A plan")))
                                 "Write the PRD" []), p), st0)
         /\ p_tool p = doc_write
         /\ p_clean_args p =
            [("title", VStr "Clarify: Write the PRD");
             ("content", VStr (_make_clarify_doc "Write the PRD" "" [] []));
             ("doc_type", VStr "generic");
             ("context", VDict [("task_goal", VStr ""); ("assumptions", VList []);
                                ("constraints", VList [])])]
         /\ run_step (always_says "mock" "" [] (returning (VStr "A plan")))
              "task" "step" "Write the PRD" [] initial = (result, st')
         /\ nth_error (tool_log st') 0 =
            Some (doc_write,
                  [("title", VStr "Clarify: Write the PRD");
                   ("content", VStr (_make_clarify_doc "Write the PRD" "" [] []));
                   ("doc_type", VStr "generic");
                   ("context", VDict [("task_goal", VStr ""); ("assumptions", VList []);
                                      ("constraints", VList [])])])
         /\ ("Clarify: Write the PRD" = "Clarify: Write the PRD"
             \/ (false = true /\ "Clarify: Write the PRD" = "Write the PRD")).
Proof.
  eexists. split; [reflexivity|].
  exact (empty_goal_substitutes_clarify
           (always_says "mock" "" [] (returning (VStr "A plan")))
           "task" "step" "Write the PRD" [] initial _ _ eq_refl eq_refl eq_refl).
Defined.

End Substitution.

(** ** Two attempts *)

Section Attempts.

(** The arg fixer makes one request, in the state it is entered in, and
    leaves the state that request leaves. *)
Lemma heal_spec W step_title p clean_args e st :
  let fixer := llm_json W ARG_FIXER_SYSTEM
                 (fix_user W (p_tool_name p) step_title (p_raw_args p) e) st in
  heal W step_title p clean_args e st
  = (Ok (second_args p clean_args (fst fixer)), snd fixer).
Proof.
  cbv zeta. unfold heal, try_catch, self_heal.
  destruct (llm_json _ _ _ st) as [[fix_|e'] s] eqn:H.
  - rewrite (bind_ok _ _ _ _ _ H).
    destruct fix_; reflexivity.
  - rewrite (bind_raise _ _ _ _ _ H). reflexivity.
Qed.

Lemma checked_prepared step_title p decision v :
  (exists x, doc_prepared p x) \/ metrics_prepared p ->
  exists r, checked step_title p decision v = Ok r
            /\ (fst r = v
                \/ exists goal assumptions constraints,
                     fst r = VStr (_make_clarify_doc step_title goal assumptions constraints)).
Proof.
  intros [[x Hx] | Hm].
  - rewrite (checked_doc _ _ _ _ _ Hx). cbv zeta.
    destruct (fires _ _ _); eexists; (split; [reflexivity|]); simpl; eauto 6.
  - rewrite (checked_metrics _ _ _ _ Hm). eexists. split; [reflexivity|]. now left.
Qed.

(** C9, amended.  Let the lines before the loop return.  The step returns,
    after one tool call or two.  When the first call returns there is no
    other call and no request of the arg fixer: the step goes on to its
    last lines in the state the call left.  When the first call raises,
    the arg fixer makes exactly one request, in the state the call left,
    and the second call is made in the state that request left, with the
    arguments [second_args] gives: the first call's when the request
    raises, those of the answer (enforced for the document tool, cleaned)
    when it returns one, also when the answer is the fallback decision
    that unparsable replies end in.  When the second call returns, the
    outcome is its value or a clarify document; when it raises too, the
    outcome is the error record with the text of that exception, the
    final decision is the decision, and there is no third call. *)
Theorem tool_attempts_bounded W task_id step_id step_title memory st decision p st0 :
  decide W task_id step_id step_title memory st = (Ok (decision, p), st0) ->
  let clean := p_clean_args p in
  let n := List.length (tool_log st) in
  let st1 := after_call (p_tool p) clean st0 in
  exists output final_decision st',
    run_step W task_id step_id step_title memory st = (Ok (output, final_decision), st')
    /\ match tool_body W (p_tool p) n clean with
       | Ok v =>
           tool_log st' = (tool_log st ++ [(p_tool p, clean)])%list
           /\ st' = snd (conclude W task_id step_id step_title output final_decision st1)
           /\ checked step_title p decision v = Ok (output, final_decision)
       | Raise e1 =>
           let fixer := llm_json W ARG_FIXER_SYSTEM
                          (fix_user W (p_tool_name p) step_title (p_raw_args p) e1) st1 in
           let args2 := second_args p clean (fst fixer) in
           let st2 := after_call (p_tool p) args2 (snd fixer) in
           tool_log st' = (tool_log st ++ [(p_tool p, clean); (p_tool p, args2)])%list
           /\ st' = snd (conclude W task_id step_id step_title output final_decision st2)
           /\ match tool_body W (p_tool p) (S n) args2 with
              | Ok v =>
                  checked step_title p decision v = Ok (output, final_decision)
                  /\ (output = v
                      \/ exists goal assumptions constraints,
                           output = VStr (_make_clarify_doc step_title goal
                                            assumptions constraints))
              | Raise e2 =>
                  output = VDict [("error", VStr "Tool execution failed after retry");
                                  ("details", VStr (exn_text e2))]
                  /\ final_decision = decision
              end
       end.
Proof.
  intros Hd. cbv zeta.
  destruct (decide_prepared _ _ _ _ _ _ _ _ _ Hd) as (Hw & Hl & _).
  unfold run_step. rewrite (bind_ok _ _ _ _ _ Hd). cbv iota beta.
  rewrite <- Hl.
  destruct (tool_body W (p_tool p) (List.length (tool_log st0)) (p_clean_args p))
    as [v1|e1] eqn:H1.
  - destruct (checked_prepared step_title p decision v1 Hw) as (r & Hr & _).
    rewrite (bind_ok _ _ _ _ _ (loop_first_success _ _ _ _ _ _ _ _ H1 Hr)).
    destruct (conclude_returns W task_id step_id step_title (fst r) (snd r)
                (after_call (p_tool p) (p_clean_args p) st0)) as (st' & Hs & Ht).
    exists (fst r), (snd r), st'. rewrite Hs.
    split; [reflexivity|]. split; [rewrite Ht; reflexivity|].
    split; [reflexivity|]. rewrite Hr. now destruct r.
  - pose proof (heal_spec W step_title p (p_clean_args p) e1
                  (after_call (p_tool p) (p_clean_args p) st0)) as Hh.
    cbv zeta in Hh.
    set (fixer := llm_json W ARG_FIXER_SYSTEM
                    (fix_user W (p_tool_name p) step_title (p_raw_args p) e1)
                    (after_call (p_tool p) (p_clean_args p) st0)) in *.
    set (args2 := second_args p (p_clean_args p) (fst fixer)) in *.
    destruct (loop_second_attempt W step_title p decision _ _ _ _ _ H1 Hh)
      as (L & Hok & Hfail).
    assert (T2 : tool_log (snd fixer)
                 = (tool_log st0 ++ [(p_tool p, p_clean_args p)])%list).
    { rewrite (preserves_heal_tools _ _ _ _ _ _ _ _ Hh). reflexivity. }
    destruct (tool_body W (p_tool p) (S (List.length (tool_log st0))) args2)
      as [v|e2] eqn:H2.
    + destruct (checked_prepared step_title p decision v Hw) as (r & Hr & Hf).
      rewrite (bind_ok _ _ _ _ _ (Hok v r eq_refl Hr)).
      destruct (conclude_returns W task_id step_id step_title (fst r) (snd r)
                  (after_call (p_tool p) args2 (snd fixer))) as (st' & Hs & Ht).
      exists (fst r), (snd r), st'. rewrite Hs.
      split; [reflexivity|]. split.
      { rewrite Ht. simpl. rewrite T2, <- app_assoc. reflexivity. }
      split; [reflexivity|]. split; [rewrite Hr; now destruct r | exact Hf].
    + rewrite (bind_ok _ _ _ _ _ (Hfail e2 eq_refl)).
      destruct (conclude_returns W task_id step_id step_title (error_record e2) decision
                  (after_call (p_tool p) args2 (snd fixer))) as (st' & Hs & Ht).
      exists (error_record e2), decision, st'. cbn [fst snd]. rewrite Hs.
      split; [reflexivity|]. split.
      { rewrite Ht. simpl. rewrite T2, <- app_assoc. reflexivity. }
      split; [reflexivity|]. split; reflexivity.
Qed.

(** A tool that raises at both calls: two calls, and the error record. *)
Lemma tool_attempts_bounded_example :
  exists decision p st0,
    decide (fitness_world (failing 2 (VStr "late"))) "task" "step" "Write pricing" [] initial
    = (Ok (decision, p), st0)
    /\ exists output final_decision st',
         run_step (fitness_world (failing 2 (VStr "late")))
           "task" "step" "Write pricing" [] initial = (Ok (output, final_decision), st')
         /\ List.length (tool_log st') = 2
         /\ output = VDict [("error", VStr "Tool execution failed after retry");
                            ("details", VStr "boom")]
         /\ final_decision = decision.
Proof.
  do 3 eexists. split; [vm_compute; reflexivity|].
  destruct (tool_attempts_bounded (fitness_world (failing 2 (VStr "late")))
              "task" "step" "Write pricing" [] initial _ _ _ eq_refl)
    as (output & final_decision & st' & H1 & H2).
  exists output, final_decision, st'. split; [exact H1|].
  destruct (tool_body _ _ _ _) as [v|e1] eqn:E1 in H2; [vm_compute in E1; discriminate|].
  cbv zeta in H2. destruct H2 as (Hlog & _ & H2).
  split; [rewrite Hlog; reflexivity|].
  destruct (tool_body _ _ (S _) _) as [v|e2] eqn:E2 in H2; [vm_compute in E2; discriminate|].
  vm_compute in E2. inversion E2; subst e2. exact H2.
Defined.

(** C9, as stated, fails for a self-heal round trip that fails to parse:
    when none of the arg fixer's three replies holds JSON, its request
    does not raise but returns the fallback decision, and the second call
    is made with the enforced arguments of that decision, titled
    [Step Output], not with the arguments of the first call. *)
Lemma second_attempt_after_unparsable_fixer :
  extract_json (deaf_to_repairs (failing 1 (VStr "# Pricing for the mobile fitness app")))
    (VStr "no JSON here")
  = Raise (mk_exn ValueError "No JSON object/array found in text")
  /\ exists st',
       run_step (deaf_to_repairs (failing 1 (VStr "# Pricing for the mobile fitness app")))
         "task" "step" "Write pricing" [] initial
       = (Ok (VStr "# Pricing for the mobile fitness app", fitness_decision), st')
       /\ requests st' = 7
       /\ tool_log st' =
          [(doc_write,
            [("title", VStr "Pricing plan");
             ("content", VStr "Tiers and limits");
             ("doc_type", VStr "prd");
             ("context", VDict [("task_goal", VStr "mobile fitness app");
                                ("assumptions", VList [VStr "iOS first"]);
                                ("constraints", VList [])])]);
           (doc_write,
            [("title", VStr "Step Output");
             ("content", VStr "Fallback: produce a structured document for this step.");
             ("doc_type", VStr "generic");
             ("context", VDict [("task_goal", VStr ""); ("assumptions", VList []);
                                ("constraints", VList [])])])].
Proof.
  split; [reflexivity|]. eexists. split; [vm_compute; reflexivity|].
  split; reflexivity.
Qed.

Example retry_then_success :
  let W := fitness_world (failing 1 (VStr "# Pricing for the mobile fitness app")) in
  let r := run_step W "task" "step" "Write pricing" [] initial in
  fst r = Ok (VStr "# Pricing for the mobile fitness app", fitness_decision)
  /\ List.length (tool_log (snd r)) = 2.
Proof. vm_compute. split; reflexivity. Qed.

Example retry_then_error_record :
  let W := fitness_world (failing 2 (VStr "late")) in
  let r := run_step W "task" "step" "Write pricing" [] initial in
  fst r = Ok (VDict [("error", VStr "Tool execution failed after retry");
                     ("details", VStr "boom")], fitness_decision)
  /\ List.length (tool_log (snd r)) = 2.
Proof. vm_compute. split; reflexivity. Qed.

End Attempts.

(** ** The final decision *)

Section FinalDecision.

(** C10.  Let the lines before the loop return [decision].  It is the
    mapping the repair cascade returned.  When the last tool call returns
    and no check fires (the tool is the metrics tool, or it is the document
    tool and none of the three checks holds of the text), the step returns
    the tool's value and, as final decision, that same mapping.  And a
    final decision other than [decision] is returned only after a call of
    the document tool on whose text a check fired. *)
Theorem final_decision_unmodified W task_id step_id step_title memory st decision p st0 :
  decide W task_id step_id step_title memory st = (Ok (decision, p), st0) ->
  (exists st1,
     llm_json W EXECUTOR_SYSTEM (user_prompt W step_title memory) st = (Ok decision, st1))
  /\ (forall v,
        last_attempt W step_title p st0 = Ok v ->
        metrics_prepared p
        \/ (exists x, doc_prepared p x /\ fires (enforced_goal x) step_title (py_str v) = false) ->
        exists st', run_step W task_id step_id step_title memory st = (Ok (v, decision), st'))
  /\ (forall e,
        last_attempt W step_title p st0 = Raise e ->
        exists output st',
          run_step W task_id step_id step_title memory st = (Ok (output, decision), st'))
  /\ (forall output final_decision st',
        run_step W task_id step_id step_title memory st = (Ok (output, final_decision), st') ->
        final_decision <> decision ->
        exists x v, doc_prepared p x /\ last_attempt W step_title p st0 = Ok v
                    /\ fires (enforced_goal x) step_title (py_str v) = true).
Proof.
  intros Hd.
  destruct (decide_prepared _ _ _ _ _ _ _ _ _ Hd) as (Hw & _ & d & st1 & -> & Hj & _).
  destruct (run_step_summary _ _ _ _ _ _ _ _ _ Hd Hw) as (st' & Hr & _).
  split; [eauto|]. split; [|split].
  - intros v L [Hm | (x & Hx & F)]; exists st'; rewrite Hr, L.
    + now rewrite (checked_metrics _ _ _ _ Hm).
    + rewrite (checked_doc _ _ _ _ _ Hx). cbv zeta. now rewrite F.
  - intros e L. do 2 eexists. rewrite Hr, L. reflexivity.
  - intros output final_decision st'' Hrun Hne. rewrite Hr in Hrun.
    destruct (last_attempt W step_title p st0) as [v|e] eqn:L.
    + destruct Hw as [[x Hx] | Hm].
      * rewrite (checked_doc _ _ _ _ _ Hx) in Hrun. cbv zeta in Hrun.
        destruct (fires (enforced_goal x) step_title (py_str v)) eqn:F.
        -- exists x, v. auto.
        -- inversion Hrun; subst. contradiction.
      * rewrite (checked_metrics _ _ _ _ Hm) in Hrun. inversion Hrun; subst. contradiction.
    + inversion Hrun; subst. contradiction.
Qed.

(** A metrics step with a goal in memory. *)
Lemma final_decision_unmodified_example :
  exists p st0,
    decide (metrics_world (returning (VDict [("north_star", VStr "weekly users")])))
      "task" "step" "Define KPIs" [("task_goal", VStr "mobile fitness app")] initial
    = (Ok (metrics_decision, p), st0)
    /\ metrics_prepared p
    /\ last_attempt (metrics_world (returning (VDict [("north_star", VStr "weekly users")])))
         "Define KPIs" p st0 = Ok (VDict [("north_star", VStr "weekly users")])
    /\ exists st',
         run_step (metrics_world (returning (VDict [("north_star", VStr "weekly users")])))
           "task" "step" "Define KPIs" [("task_goal", VStr "mobile fitness app")] initial
         = (Ok (VDict [("north_star", VStr "weekly users")], metrics_decision), st').
Proof.
  assert (Mp : forall p, p_tool_name p = "metrics_generate" -> p_tool p = metrics_generate ->
                         metrics_prepared p) by (intros p H1 H2; split; assumption).
  do 2 eexists. split; [vm_compute; reflexivity|].
  split; [apply Mp; reflexivity|].
  split; [reflexivity|].
  refine (proj1 (proj2 (final_decision_unmodified
            (metrics_world (returning (VDict [("north_star", VStr "weekly users")])))
            "task" "step" "Define KPIs" [("task_goal", VStr "mobile fitness app")] initial
            _ _ _ eq_refl))
            (VDict [("north_star", VStr "weekly users")]) eq_refl
            (or_introl (Mp _ _ _))); reflexivity.
Defined.

Example clean_document_keeps_decision :
  let W := fitness_world (returning (VStr "# Pricing for the mobile fitness app")) in
  fst (run_step W "task" "step" "Write pricing" [] initial)
  = Ok (VStr "# Pricing for the mobile fitness app", fitness_decision).
Proof. vm_compute. reflexivity. Qed.

End FinalDecision.

(** ** Edge cases worth recording *)

Section EdgeCases.

(** Null content becomes the empty string, not the text [None]; any other
    value that is not a string becomes its [str]. *)
Example null_content_is_empty :
  dict_get "content" VNone (_ensure_doc_write_args_schema [("content", VNone)]) = VStr ""
  /\ dict_get "content" VNone (_ensure_doc_write_args_schema [("content", VInt 7)]) = VStr "7"
  /\ dict_get "content" VNone (_ensure_doc_write_args_schema []) = VStr "".
Proof. repeat split. Qed.

Example enforced_example :
  _ensure_doc_write_args_schema
    [("title", VStr "  "); ("doc_type", VStr "essay");
     ("context", VDict [("task_goal", VNone);
                        ("assumptions", VList [VStr "a"; VStr " "; VNone; VInt 0]);
                        ("constraints", VStr "none")])]
  = [("title", VStr "Document"); ("content", VStr ""); ("doc_type", VStr "generic");
     ("context", VDict [("task_goal", VStr "");
                        ("assumptions", VList [VStr "a"; VStr "None"; VStr "0"]);
                        ("constraints", VList [])])].
Proof. reflexivity. Qed.

(** When the arg fixer's three replies cannot be parsed, its request does
    not raise: the cascade returns its fallback decision, and the second
    attempt is made with the (enforced) arguments of that decision. *)
Example heal_after_unparsable_replies :
  let W := always_says "groq" "no JSON here" [] (failing 1 (VStr "ok")) in
  let p := mk_prepared "doc_write" doc_write
             (VDict (_ensure_doc_write_args_schema fitness_args))
             (_ensure_doc_write_args_schema fitness_args) in
  fst (heal W "Write pricing" p (p_clean_args p) (mk_exn ToolFailure "boom") initial)
  = Ok [("title", VStr "Step Output");
        ("content", VStr "Fallback: produce a structured document for this step.");
        ("doc_type", VStr "generic");
        ("context", VDict [("task_goal", VStr ""); ("assumptions", VList []);
                           ("constraints", VList [])])].
Proof. vm_compute. reflexivity. Qed.

(** Two sections with the same second-level header. *)
Example duplicate_integration_headers :
  _duplicate_headers
    (lines ["# Plan"; "## Integration"; "- Stripe"; "## Risks"; "  ## Integration  "; "- IAP"])
  = true.
Proof. reflexivity. Qed.

(** Prose around a JSON object: the object is what is handed to
    [json.loads], first with the trailing prose, then cut at the last
    closing brace. *)
Example extract_json_trims_prose :
  let W := always_says "groq" "" [("{ok}", VDict [("ok", VBool true)])] (returning VNone) in
  extract_json W (VStr "Here you go: {ok} Hope it helps.") = Ok (VDict [("ok", VBool true)]).
Proof. reflexivity. Qed.

(** The metrics tool declares one starred parameter, so every key of the
    model's arguments but [kwargs] is dropped before the call. *)
Example metrics_arguments_are_dropped :
  _clean_args_for_tool metrics_generate
    (VDict [("task_goal", VStr "fitness"); ("stage", VStr "growth")]) = [].
Proof. reflexivity. Qed.

(** A decision for the metrics tool with no goal in memory is redirected
    to a clarify call of the document tool before the first attempt, and
    the output of that call is checked like any document. *)
Example metrics_without_goal_is_redirected :
  let W := metrics_world (returning (VStr "KPIs: TBD")) in
  let r := run_step W "task" "step" "Define KPIs" [] initial in
  map fst (tool_log (snd r)) = [doc_write]
  /\ exists output final_decision,
       fst r = Ok (output, final_decision)
       /\ get final_decision "confidence" VNone = Ok (VInt 100).
Proof. vm_compute. split; [reflexivity|]. do 2 eexists. split; reflexivity. Qed.

End EdgeCases.

(** * Further properties of the code *)

Import Strings CodeFences Tools Memory Planner Notions Scenarios.

(** ** More text lemmas *)

Section MoreText.

Lemma sapp_assoc (a b c : string) : (a ++ b) ++ c = a ++ b ++ c.
Proof. induction a as [|x r IH]; simpl; congruence. Qed.

Lemma sapp_nil_r (a : string) : a ++ "" = a.
Proof. induction a as [|x r IH]; simpl; congruence. Qed.

Lemma length_sapp (a b : string) : String.length (a ++ b) = String.length a + String.length b.
Proof. induction a as [|x r IH]; simpl; congruence. Qed.

Lemma sapp_eq_nil (a b : string) : a ++ b = "" -> a = "" /\ b = "".
Proof. destruct a; simpl; [auto | discriminate]. Qed.

Lemma rstrip_app (a b : string) : rstrip b <> "" -> rstrip (a ++ b) = a ++ rstrip b.
Proof.
  intros H. induction a as [|x r IH]; simpl; [reflexivity|].
  rewrite IH. destruct (r ++ rstrip b) eqn:E; [|reflexivity].
  apply sapp_eq_nil in E. tauto.
Qed.

Lemma rstrip_head c r : is_space c = false -> rstrip (String c r) <> "".
Proof. intros H. simpl. destruct (rstrip r); [rewrite H|]; discriminate. Qed.

Lemma lstrip_head c r : is_space c = false -> lstrip (String c r) = String c r.
Proof. intros H. simpl. now rewrite H. Qed.

Lemma strip_stripped s : lstrip s = s -> rstrip s = s -> strip s = s.
Proof. unfold strip. now intros -> ->. Qed.

Lemma rstrip_strip s : rstrip (strip s) = strip s.
Proof. unfold strip. apply rstrip_idem. Qed.

Lemma lstrip_rstrip_comm s : lstrip (rstrip s) = rstrip (lstrip s).
Proof.
  induction s as [|c r IH]; [reflexivity|].
  simpl lstrip at 2. destruct (is_space c) eqn:E.
  - rewrite <- IH. simpl. destruct (rstrip r) eqn:R; rewrite ?E; simpl; rewrite ?E; reflexivity.
  - simpl. destruct (rstrip r) eqn:R; rewrite ?E; simpl; rewrite E; reflexivity.
Qed.

Lemma lstrip_strip s : lstrip (strip s) = strip s.
Proof. unfold strip. rewrite lstrip_rstrip_comm. now rewrite lstrip_idem. Qed.

End MoreText.

(** ** The clarify title and the schema enforcer, applied twice *)

Section Twice.

(** X1.  The clarify title of a clarify title is the same title: the prefix is
    not added a second time.  For a blank step title the first result is
    [Clarify: ] with its trailing blank, which a second application
    strips; so the step title is taken with some visible character. *)
Theorem clarify_title_idempotent step_title :
  strip step_title <> "" ->
  _clarify_title (_clarify_title step_title) = _clarify_title step_title.
Proof.
  intros H.
  assert (R : forall t, startswith "clarify:" (lower (strip t)) = true ->
                        _clarify_title t = strip t).
  { intros t E. unfold _clarify_title. now rewrite E. }
  destruct (clarify_title_cases step_title) as [-> | [E ->]].
  - assert (S : strip ("Clarify: " ++ strip step_title) = "Clarify: " ++ strip step_title).
    { unfold strip at 1. simpl lstrip.
      change (String "C" (String "l" (String "a" (String "r" (String "i" (String "f"
               (String "y" (String ":" (String " " (strip step_title))))))))))
        with ("Clarify: " ++ strip step_title).
      rewrite rstrip_app; [now rewrite rstrip_strip|].
      now rewrite rstrip_strip. }
    rewrite R; rewrite S; reflexivity.
  - rewrite R; rewrite strip_idem; [reflexivity | exact E].
Qed.

Lemma clarify_title_idempotent_example :
  strip "Write the PRD" <> ""
  /\ _clarify_title (_clarify_title "Write the PRD") = _clarify_title "Write the PRD".
Proof.
  split; [discriminate|]. apply (clarify_title_idempotent "Write the PRD"). discriminate.
Defined.

Lemma strip_allowed_doc_type t : In t ALLOWED_DOC_TYPES -> strip t = t /\ t <> "".
Proof.
  intros H. simpl in H.
  repeat (destruct H as [<- | H]; [split; [reflexivity | discriminate]|]).
  destruct H.
Qed.

Lemma or_default_id s d : s <> "" -> or_default s d = s.
Proof. unfold or_default. destruct s; simpl; congruence. Qed.

Lemma enforced_title_stripped args :
  strip (enforced_title args) = enforced_title args /\ enforced_title args <> "".
Proof.
  unfold enforced_title, or_default.
  destruct (is_empty _) eqn:E.
  - split; [reflexivity | discriminate].
  - split; [apply strip_idem | now apply is_empty_false].
Qed.

Lemma enforced_doc_type_allowed args : In (enforced_doc_type args) ALLOWED_DOC_TYPES.
Proof.
  unfold enforced_doc_type.
  match goal with |- In (if mem ?t _ then _ else _) _ =>
    destruct (mem t ALLOWED_DOC_TYPES) eqn:E end.
  - now apply mem_In.
  - simpl; tauto.
Qed.

Lemma py_or_text s d : s <> "" -> py_or (VStr s) d = VStr s.
Proof. unfold py_or. destruct s; simpl; congruence. Qed.

(** X2.  Enforcing the schema of enforced arguments changes nothing. *)
Theorem ensure_doc_write_args_schema_idempotent (args : list (string * value)) :
  _ensure_doc_write_args_schema (_ensure_doc_write_args_schema args)
  = _ensure_doc_write_args_schema args.
Proof.
  set (e := _ensure_doc_write_args_schema args).
  assert (T : enforced_title e = enforced_title args).
  { destruct (enforced_title_stripped args) as [S N].
    unfold enforced_title at 1.
    change (dict_get "title" VNone e) with (VStr (enforced_title args)).
    rewrite (py_or_text _ _ N). cbn [py_str]. rewrite S. now apply or_default_id. }
  assert (C : enforced_content e = enforced_content args) by reflexivity.
  assert (D : enforced_doc_type e = enforced_doc_type args).
  { pose proof (enforced_doc_type_allowed args) as A.
    destruct (strip_allowed_doc_type _ A) as [S N].
    unfold enforced_doc_type at 1.
    change (dict_get "doc_type" VNone e) with (VStr (enforced_doc_type args)).
    rewrite (py_or_text _ _ N). cbn [py_str]. rewrite S, (or_default_id _ _ N).
    apply mem_In in A. now rewrite A. }
  assert (G : enforced_goal e = enforced_goal args).
  { unfold enforced_goal at 1.
    change (given_context e) with (enforced_context args).
    change (dict_get "task_goal" VNone (enforced_context args))
      with (VStr (enforced_goal args)).
    destruct (enforced_goal args) eqn:Q; [reflexivity|].
    rewrite py_or_text by discriminate. cbn [py_str]. rewrite <- Q.
    apply enforced_goal_stripped. }
  assert (A : enforced_assumptions e = enforced_assumptions args).
  { unfold enforced_assumptions at 1.
    change (given_context e) with (enforced_context args).
    change (dict_get "assumptions" VNone (enforced_context args))
      with (VList (map VStr (enforced_assumptions args))).
    cbn [list_or_empty]. apply str_items_VStr, str_items_not_blank. }
  assert (K : enforced_constraints e = enforced_constraints args).
  { unfold enforced_constraints at 1.
    change (given_context e) with (enforced_context args).
    change (dict_get "constraints" VNone (enforced_context args))
      with (VList (map VStr (enforced_constraints args))).
    cbn [list_or_empty]. apply str_items_VStr, str_items_not_blank. }
  unfold _ensure_doc_write_args_schema at 1, enforced_context.
  rewrite T, C, D, G, A, K. reflexivity.
Qed.

End Twice.

(** ** The guardrails *)

Section Guards.

Lemma filter_length_le {A} (f : A -> bool) l : List.length (filter f l) <= List.length l.
Proof. induction l as [|x r IH]; simpl; [lia|]. destruct (f x); simpl; lia. Qed.

(** X3.  A goal with fewer than two distinct long words always drifts: with a
    visible goal that holds at most one lower-case alphanumeric word of
    four characters or more (after lower-casing), the drift check holds of
    every step title and every content. *)
Theorem short_goal_always_drifts task_goal step_title content :
  strip task_goal <> "" ->
  List.length (long_words (lower task_goal)) < 2 ->
  _likely_domain_drift task_goal step_title content = true.
Proof.
  intros Hg Hw. unfold _likely_domain_drift.
  assert (E : is_empty (strip (lower task_goal)) = false).
  { apply is_empty_false. rewrite lower_strip. intros Q. apply Hg. now apply (proj1 (lower_empty (strip task_goal))). }
  rewrite E. destruct (existsb _ _DRIFT_TOKENS); [reflexivity|].
  destruct (long_words (lower task_goal)) as [|w ws] eqn:L; [reflexivity|].
  unfold overlap_count. cbv zeta.
  match goal with |- context [Nat.ltb (List.length (filter ?f ?l)) 2] =>
    pose proof (filter_length_le f l) as B1 end.
  match goal with |- context [if ?c then _ else false] => destruct c eqn:C end.
  - match goal with |- Nat.ltb (List.length (filter ?f ?l)) 2 = true =>
      pose proof (filter_length_le f l) as B2 end.
    apply Nat.ltb_lt. lia.
  - apply Nat.ltb_ge in C. lia.
Qed.

Lemma short_goal_always_drifts_example :
  strip "fitness app" <> ""
  /\ List.length (long_words (lower "fitness app")) < 2
  /\ _likely_domain_drift "fitness app" "Write the fitness app plan"
       "A plan for the fitness app: onboarding, workouts, retention." = true.
Proof.
  split; [discriminate|]. split; [vm_compute; lia|].
  apply (short_goal_always_drifts "fitness app"); [discriminate | vm_compute; lia].
Defined.

Lemma seen_twice_spec seen hs :
  seen_twice seen hs = true <-> (exists h, In h hs /\ In h seen) \/ ~ NoDup hs.
Proof.
  revert seen. induction hs as [|h r IH]; intros seen; simpl.
  - split; [discriminate|]. intros [(h & [] & _) | H]. exfalso. apply H. constructor.
  - rewrite orb_true_iff, IH, mem_In. split.
    + intros [H | [(x & Hx & [<- | Hs]) | H]].
      * left. eauto.
      * right. intros N. inversion N; subst. tauto.
      * left. eauto.
      * right. intros N. inversion N; subst. tauto.
    + intros [(x & [<- | Hx] & Hs) | H].
      * tauto.
      * right. left. exists x. simpl. tauto.
      * destruct (in_dec string_dec h r) as [I | I].
        -- right. left. exists h. simpl. tauto.
        -- right. right. intros N. apply H. now constructor.
Qed.

(** X4.  The duplicate-header check holds exactly when two of the header lines
    of the text (the lines that start with [## ] once stripped) are equal
    after stripping. *)
Theorem duplicate_headers_iff text :
  _duplicate_headers text = true <-> ~ NoDup (header_lines text).
Proof.
  unfold _duplicate_headers, header_lines. rewrite seen_twice_spec.
  split; [intros [(h & _ & []) | H]; exact H | auto].
Qed.

Lemma match_here_star_lit cls c prev m rest :
  forallb cls m = true ->
  match_here [Star cls; Lit c] prev (m ++ c :: rest) = true.
Proof.
  revert prev. induction m as [|x r IH]; intros prev H.
  - simpl. now rewrite lit_matches_refl.
  - simpl in H. apply andb_true_iff in H. destruct H as [Hx Hr].
    specialize (IH (Some x) Hr). simpl in IH. simpl. rewrite Hx, IH.
    now destruct (lit_matches c x); [destruct r|].
Qed.

Lemma lowered_no_close c : c <> 0x5D%N -> forallb not_close (lowered c) = true.
Proof.
  intros H. unfold lowered, in_span, not_close.
  destruct (0x41 <=? c)%N eqn:A; simpl.
  - destruct (c <=? 0x5A)%N eqn:B; simpl.
    + apply N.leb_le in A. apply N.leb_le in B.
      rewrite andb_true_r. apply negb_true_iff. apply N.eqb_neq. lia.
    + destruct (c =? 0x130)%N; [reflexivity|]. destruct (c =? 0x212A)%N; [reflexivity|].
      simpl. rewrite andb_true_r. apply negb_true_iff. now apply N.eqb_neq.
  - destruct (c =? 0x130)%N; [reflexivity|]. destruct (c =? 0x212A)%N; [reflexivity|].
    simpl. rewrite andb_true_r. apply negb_true_iff. now apply N.eqb_neq.
Qed.

(** A text without a closing bracket has none among its characters, also
    once lower-cased. *)
Lemma decode_no_close m :
  has_char "]" m = false -> forallb not_close (to_lower (decode m)) = true.
Proof.
  intros H.
  assert (F : Forall (fun c => c <> 0x5D%N) (decode m)).
  { apply decode_Forall.
    - intros c Hc E. assert (c = "]"%char) as ->; [|congruence].
      rewrite <- (ascii_N_embedding c), E. reflexivity.
    - intros c Hc E. subst c. lia. }
  unfold to_lower. induction F as [|c l Hc F IH]; [reflexivity|].
  simpl. rewrite forallb_app, (lowered_no_close _ Hc), IH. reflexivity.
Qed.

(** X5.  A bracketed placeholder, in any case, is a placeholder: an opening
    bracket followed by one of the five words [insert], [target],
    [assumption], [constraint], [estimated], then any text without a
    closing bracket, then a closing bracket. *)
Theorem bracket_is_placeholder a w m b :
  In (lower w) bracket_words ->
  has_char "]" m = false ->
  _contains_placeholders (a ++ "[" ++ w ++ m ++ "]" ++ b) = true.
Proof.
  intros Hw Hm. unfold _contains_placeholders. apply existsb_exists.
  exists (bracketed (lower w)). split.
  { simpl in Hw. simpl.
    repeat (destruct Hw as [<- | Hw]; [tauto|]). destruct Hw. }
  assert (P : plain ("[" ++ w) = true).
  { apply lower_plain. simpl in Hw. simpl.
    repeat (destruct Hw as [<- | Hw]; [reflexivity|]). destruct Hw. }
  replace ("[" ++ w ++ m ++ "]" ++ b) with (("[" ++ w) ++ m ++ "]" ++ b) by reflexivity.
  rewrite (decode_app a) by reflexivity.
  rewrite (decode_plain _ _ P).
  rewrite (decode_app m) by reflexivity.
  rewrite !to_lower_app, (to_lower_codes _ P).
  change (to_lower (decode ("]" ++ b))) with (0x5D%N :: to_lower (decode b)).
  unfold search. apply search_from_app.
  unfold bracketed. change (lower ("[" ++ w)) with ("[" ++ lower w).
  rewrite match_here_lits. apply match_here_star_lit.
  now apply decode_no_close.
Qed.

Lemma bracket_is_placeholder_example :
  In (lower "Insert") bracket_words
  /\ has_char "]" " price here" = false
  /\ _contains_placeholders ("Cost: " ++ "[" ++ "Insert" ++ " price here" ++ "]" ++ " per seat")
     = true.
Proof.
  split; [simpl; tauto|]. split; [reflexivity|].
  apply (bracket_is_placeholder "Cost: " "Insert" " price here" " per seat");
    [simpl; tauto | reflexivity].
Defined.

End Guards.

(** ** The router: log snippets, budgets, recovery *)

Section Snippet.

Lemma replace_char_app c by_ a b :
  replace_char c by_ (a ++ b) = replace_char c by_ a ++ replace_char c by_ b.
Proof.
  induction a as [|x r IH]; [reflexivity|].
  simpl. rewrite IH. now rewrite sapp_assoc.
Qed.

Lemma has_char_app c a b : has_char c (a ++ b) = has_char c a || has_char c b.
Proof. induction a as [|x r IH]; simpl; [reflexivity|]. rewrite IH. apply orb_assoc. Qed.

Lemma has_char_replaced c by_ s : has_char c by_ = false -> has_char c (replace_char c by_ s) = false.
Proof.
  intros H. induction s as [|x r IH]; [reflexivity|].
  simpl. rewrite has_char_app, IH, orb_false_r.
  destruct (Ascii.eqb_spec x c) as [-> | N]; [exact H|].
  simpl. rewrite orb_false_r. now apply Ascii.eqb_neq.
Qed.

Lemma has_char_kept d c by_ s :
  has_char d by_ = false -> has_char d s = false -> has_char d (replace_char c by_ s) = false.
Proof.
  intros H. induction s as [|x r IH]; [reflexivity|].
  simpl. intros Hs. apply orb_false_iff in Hs. destruct Hs as [Hx Hr].
  rewrite has_char_app, (IH Hr), orb_false_r.
  destruct (Ascii.eqb x c); [exact H|]. simpl. now rewrite Hx.
Qed.

Lemma length_take n t : String.length (take n t) <= n.
Proof.
  revert t. induction n as [|k IH]; intros t; simpl; [lia|].
  destruct t; simpl; [lia|]. specialize (IH t). lia.
Qed.

Lemma length_escaped s :
  String.length (replace_char "013" (bslash ++ "r") (replace_char "010" (bslash ++ "n") s))
  <= 2 * String.length s.
Proof.
  induction s as [|x r IH]; [simpl; lia|].
  cbn [replace_char]. rewrite replace_char_app, length_sapp.
  cbn [String.length].
  set (L := String.length (replace_char "013" _ (replace_char "010" _ r))) in *.
  destruct (Ascii.eqb x "010") eqn:E1.
  - change (String.length (replace_char "013" (bslash ++ "r") (bslash ++ "n"))) with 2. lia.
  - cbn [replace_char]. destruct (Ascii.eqb x "013"); simpl String.length; lia.
Qed.

(** X6.  The snippet of a text that goes into a log line holds no line feed and
    no carriage return, so it stays on the line, and it is at most twice as
    long as the limit. *)
Theorem safe_snippet_one_line text n s :
  _safe_snippet text n = Ok s ->
  has_char "010" s = false /\ has_char "013" s = false /\ String.length s <= 2 * n.
Proof.
  unfold _safe_snippet.
  assert (P : forall t,
             let s := replace_char "013" (bslash ++ "r")
                        (replace_char "010" (bslash ++ "n") (take n t)) in
             has_char "010" s = false /\ has_char "013" s = false
             /\ String.length s <= 2 * n).
  { intros t. cbv zeta. split; [|split].
    - apply has_char_kept; [reflexivity|]. now apply has_char_replaced.
    - now apply has_char_replaced.
    - pose proof (length_escaped (take n t)). pose proof (length_take n t). lia. }
  destruct (truthy text).
  - destruct text; try discriminate. intros H. inversion H. apply P.
  - intros H. inversion H. apply P.
Qed.

Lemma safe_snippet_one_line_example :
  _safe_snippet (VStr ("{" ++ nl ++ "oops" ++ cr ++ nl)) 400 = Ok ("{" ++ bslash ++ "noops" ++ bslash ++ "r" ++ bslash ++ "n")
  /\ has_char "010" ("{" ++ bslash ++ "noops" ++ bslash ++ "r" ++ bslash ++ "n") = false
  /\ has_char "013" ("{" ++ bslash ++ "noops" ++ bslash ++ "r" ++ bslash ++ "n") = false
  /\ String.length ("{" ++ bslash ++ "noops" ++ bslash ++ "r" ++ bslash ++ "n") <= 2 * 400.
Proof.
  split; [reflexivity|].
  apply (safe_snippet_one_line (VStr ("{" ++ nl ++ "oops" ++ cr ++ nl)) 400). reflexivity.
Defined.

End Snippet.

Section Budget.

Lemma sum_app (a b : list N) :
  fold_right N.add 0%N (a ++ b)%list = (fold_right N.add 0 a + fold_right N.add 0 b)%N.
Proof. induction a as [|x r IH]; simpl; [reflexivity|]. rewrite IH. lia. Qed.

Lemma costs_ret {A} (a : A) : costs 0 0 (ret a).
Proof. intros st. simpl. lia. Qed.

Lemma costs_raise {A} e : costs 0 0 (@raise A e).
Proof. intros st. simpl. lia. Qed.

Lemma costs_lift {A} (x : result A) : costs 0 0 (lift x).
Proof. intros st. simpl. lia. Qed.

Lemma costs_weaken {A} n ms n' ms' (m : M A) :
  n <= n' -> (ms <= ms')%N -> costs n ms m -> costs n' ms' m.
Proof. intros Hn Hm H st. specialize (H st). lia. Qed.

Lemma costs_bind {A B} n1 ms1 n2 ms2 (m : M A) (k : A -> M B) :
  costs n1 ms1 m -> (forall a, costs n2 ms2 (k a)) -> costs (n1 + n2) (ms1 + ms2) (bind m k).
Proof.
  intros Hm Hk st. specialize (Hm st). unfold bind.
  destruct (m st) as [[a|e] st1]; simpl in *.
  - specialize (Hk a st1). lia.
  - lia.
Qed.

Lemma costs_try_catch {A} n1 ms1 n2 ms2 (m : M A) (h : exn -> M A) :
  costs n1 ms1 m -> (forall e, costs n2 ms2 (h e)) ->
  costs (n1 + n2) (ms1 + ms2) (try_catch m h).
Proof.
  intros Hm Hh st. specialize (Hm st). unfold try_catch.
  destruct (m st) as [[a|e] st1]; simpl in *.
  - lia.
  - specialize (Hh e st1). lia.
Qed.

Lemma costs_sleep ms : costs 0 ms (sleep ms).
Proof.
  intros st. unfold sleep, nap. simpl. rewrite sum_app. simpl. lia.
Qed.

Lemma costs_post W s u : costs 1 0 (post W s u).
Proof.
  intros st. unfold post. destruct (endpoint W (requests st) s u); simpl; unfold nap; simpl; lia.
Qed.

Lemma costs_trace t s ev p : costs 0 0 (trace t s ev p).
Proof.
  intros st. unfold trace. destruct (jsonable p); simpl; unfold nap; simpl; lia.
Qed.

Lemma costs_call W t kwargs : costs 0 0 (call W t kwargs).
Proof. intros st. unfold call, nap. simpl. lia. Qed.

Lemma costs_chat_attempt W system user attempt :
  costs 1 (backoff attempt) (chat_attempt W system user attempt).
Proof.
  intros st. unfold chat_attempt, try_catch, bind, post, sleep, lift, ret, raise.
  destruct (endpoint W (requests st) system user) as [code text json|e].
  - destruct (transient code);
      [unfold nap; simpl; rewrite sum_app; simpl; lia|].
    destruct (400 <=? code)%Z;
      [unfold nap; simpl; rewrite sum_app; simpl; lia|].
    destruct json as [data|e];
      [|unfold nap; simpl; rewrite sum_app; simpl; lia].
    destruct (chat_content data); unfold nap; simpl; rewrite ?sum_app; simpl; lia.
  - unfold nap; simpl; rewrite sum_app; simpl; lia.
Qed.

Lemma costs_chat_loop W system user attempts last_err :
  costs (List.length attempts) (fold_right N.add 0%N (map backoff attempts))
    (chat_loop W system user attempts last_err).
Proof.
  revert last_err. induction attempts as [|a rest IH]; intros last_err.
  - apply costs_raise.
  - cbn [chat_loop List.length map fold_right].
    change (S (List.length rest)) with (1 + List.length rest).
    apply costs_bind; [apply costs_chat_attempt|].
    intros [c|e]; [|apply IH].
    eapply costs_weaken; [| |apply costs_ret]; lia.
Qed.

Lemma costs_groq_chat W system user : costs 3 4200 (_groq_chat W system user).
Proof.
  unfold _groq_chat. destruct (is_empty (GROQ_API_KEY W)).
  - eapply costs_weaken; [| |apply costs_raise]; lia.
  - apply (costs_chat_loop W system user (seq 0 3) None).
Qed.

Lemma costs_parse_attempt W check text : costs 0 0 (parse_attempt W check text).
Proof.
  assert (H : costs 0 0 (_ <- lift (_safe_snippet text 400) ;; ret (@None value))%step).
  { apply (costs_bind 0 0 0 0); [apply costs_lift | intros; apply costs_ret]. }
  unfold parse_attempt. destruct (extract_json W text) as [[]|]; auto.
  destruct (check _); auto. apply costs_ret.
Qed.

Lemma costs_llm_json W system user : costs 9 12600 (llm_json W system user).
Proof.
  unfold llm_json.
  destruct (String.eqb _ "mock"); [eapply costs_weaken; [| |apply costs_ret]; lia|].
  destruct (negb _); [eapply costs_weaken; [| |apply costs_raise]; lia|].
  apply (costs_bind 3 4200 6 8400); [apply costs_groq_chat|]. intros text.
  apply (costs_bind 0 0 6 8400); [apply costs_parse_attempt|]. intros [parsed|].
  { eapply costs_weaken; [| |apply costs_ret]; lia. }
  apply (costs_bind 3 4200 3 4200); [apply costs_groq_chat|]. intros text2.
  apply (costs_bind 0 0 3 4200); [apply costs_parse_attempt|]. intros [parsed2|].
  { eapply costs_weaken; [| |apply costs_ret]; lia. }
  apply (costs_bind 3 4200 0 0); [apply costs_groq_chat|]. intros text3.
  apply (costs_bind 0 0 0 0); [apply costs_parse_attempt|]. intros [parsed3|]; apply costs_ret.
Qed.

Lemma costs_llm_json_mock W system user :
  strip (lower (LLM_PROVIDER W)) = "mock" -> costs 0 0 (llm_json W system user).
Proof. intros H. unfold llm_json. rewrite H. apply costs_ret. Qed.

(** The step, for any bound on what one [llm_json] call costs. *)
Section StepCost.

Variable W : world.
Variables (n : nat) (ms : N).
Hypothesis L : forall system user, costs n ms (llm_json W system user).

Lemma costs_heal step_title p clean_args e : costs n ms (heal W step_title p clean_args e).
Proof.
  unfold heal, self_heal.
  apply (costs_weaken (n + 0) (ms + 0)); [lia | lia |].
  apply costs_try_catch; [|intros; apply costs_ret].
  apply (costs_weaken (n + 0) (ms + 0)); [lia | lia |].
  apply costs_bind; [apply L|]. intros fix_.
  apply (costs_bind 0 0 0 0); [apply costs_lift | intros; apply costs_ret].
Qed.

Lemma costs_attempt_body step_title p decision attempt clean_args output :
  costs (if (attempt =? 0)%nat then n else 0) (if (attempt =? 0)%nat then ms else 0%N)
    (attempt_body W step_title p decision attempt clean_args output).
Proof.
  unfold attempt_body.
  match goal with |- costs ?a ?b _ => apply (costs_weaken (0 + a) (0 + b)); [lia | lia |] end.
  apply costs_try_catch.
  - apply (costs_bind 0 0 0 0); [apply costs_call|]. intros out.
    apply (costs_bind 0 0 0 0); [apply costs_lift | intros; apply costs_ret].
  - intros e.
    match goal with |- costs ?a ?b _ => apply (costs_weaken (a + 0) (b + 0)); [lia | lia |] end.
    apply costs_bind; [|intros; apply costs_ret].
    destruct (attempt =? 0)%nat; [apply costs_heal | apply costs_ret].
Qed.

Lemma costs_attempt_loop step_title p decision clean_args output :
  costs n ms (attempt_loop W step_title p decision (seq 0 2) clean_args output).
Proof.
  simpl seq. cbn [attempt_loop].
  apply (costs_weaken (n + 0) (ms + 0)); [lia | lia |].
  apply costs_bind; [apply (costs_attempt_body step_title p decision 0)|].
  intros [o f | args o]; [apply costs_ret|].
  apply (costs_bind 0 0 0 0); [apply (costs_attempt_body step_title p decision 1)|].
  intros [o' f | args' o']; apply costs_ret.
Qed.

Lemma costs_decide task_id step_id step_title memory :
  costs n ms (decide W task_id step_id step_title memory).
Proof.
  unfold decide.
  apply (costs_weaken (n + 0) (ms + 0)); [lia | lia |].
  apply costs_bind; [apply L|]. intros decision.
  repeat first
    [ apply costs_ret
    | apply costs_trace
    | apply costs_lift
    | apply (costs_bind 0 0 0 0)
    | intro ].
Qed.

Lemma costs_conclude task_id step_id step_title output final_decision :
  costs n ms (conclude W task_id step_id step_title output final_decision).
Proof.
  unfold conclude.
  apply (costs_weaken (0 + n) (0 + ms)); [lia | lia |].
  apply costs_bind; [apply costs_trace|]. intros _.
  apply (costs_weaken (n + 0) (ms + 0)); [lia | lia |].
  apply costs_bind; [|intros; apply costs_ret].
  apply (costs_weaken (n + 0) (ms + 0)); [lia | lia |].
  apply costs_try_catch; [|intros; apply costs_ret].
  apply (costs_weaken (n + 0) (ms + 0)); [lia | lia |].
  apply costs_bind; [apply L | intros; apply costs_trace].
Qed.

Lemma costs_run_step task_id step_id step_title memory :
  costs (3 * n) (3 * ms) (run_step W task_id step_id step_title memory).
Proof.
  unfold run_step.
  apply (costs_weaken (n + (n + n)) (ms + (ms + ms))); [lia | lia |].
  apply costs_bind; [apply costs_decide|]. intros [decision p].
  apply costs_bind; [apply costs_attempt_loop|]. intros r.
  apply costs_conclude.
Qed.

End StepCost.

(** X7.  One [llm_json] call posts at most nine requests and spends at most
    12.6 s in backoff: three round trips of at most three requests and
    0.6 + 1.2 + 2.4 s each. *)
Theorem llm_json_budget W system user st :
  let st' := snd (llm_json W system user st) in
  (requests st <= requests st' <= requests st + 9)%nat
  /\ (nap st <= nap st' <= nap st + 12600)%N.
Proof. apply costs_llm_json. Qed.

(** X8.  A step posts at most 27 requests and spends at most 37.8 s in
    backoff, whatever the endpoint and the tools do: the decision, the arg
    fixer and the reflection are one [llm_json] call each. *)
Theorem run_step_budget W task_id step_id step_title memory st :
  let st' := snd (run_step W task_id step_id step_title memory st) in
  (requests st <= requests st' <= requests st + 27)%nat
  /\ (nap st <= nap st' <= nap st + 37800)%N.
Proof.
  apply (costs_run_step W 9 12600 (costs_llm_json W)).
Qed.

(** X9.  With the mock provider a step is offline: it posts no request and
    never sleeps. *)
Theorem mock_step_is_offline W task_id step_id step_title memory st :
  strip (lower (LLM_PROVIDER W)) = "mock" ->
  let st' := snd (run_step W task_id step_id step_title memory st) in
  requests st' = requests st /\ nap st' = nap st.
Proof.
  intros H.
  pose proof (costs_run_step W 0 0 (fun s u => costs_llm_json_mock W s u H)
                task_id step_id step_title memory st) as C.
  cbv zeta. simpl in C. lia.
Qed.

Lemma mock_step_is_offline_example :
  strip (lower (LLM_PROVIDER offline)) = "mock"
  /\ requests (snd (run_step offline "task" "step" "Write the PRD" [] initial)) = 0
  /\ nap (snd (run_step offline "task" "step" "Write the PRD" [] initial)) = 0%N.
Proof.
  split; [reflexivity|].
  apply (mock_step_is_offline offline "task" "step" "Write the PRD" [] initial).
  reflexivity.
Defined.

End Budget.

Section Recovery.

Lemma chat_attempt_no_answer W system user attempt st :
  answer (endpoint W (requests st) system user) = None ->
  exists e, chat_attempt W system user attempt st = (Ok (Next e), after_failure attempt st).
Proof.
  unfold answer, chat_attempt, try_catch, bind, post, sleep, lift, ret, raise, after_failure.
  destruct (endpoint W (requests st) system user) as [code text json|e]; [|eauto].
  destruct json as [data|e].
  - destruct (transient code); [eauto|]. destruct (400 <=? code)%Z; [eauto|]. simpl.
    intros ->. eauto.
  - intros _. destruct (transient code); [eauto|]. destruct (400 <=? code)%Z; eauto.
Qed.

Lemma chat_attempt_answer W system user attempt st content :
  answer (endpoint W (requests st) system user) = Some content ->
  chat_attempt W system user attempt st =
    (Ok (Returned content),
     mk_state (S (requests st)) (slept st) (trace_log st) (tool_log st)).
Proof.
  unfold answer, chat_attempt, try_catch, bind, post, sleep, lift, ret, raise.
  destruct (endpoint W (requests st) system user) as [code text json|e]; [|discriminate].
  destruct json as [data|e]; [|discriminate].
  destruct (transient code); [discriminate|]. destruct (400 <=? code)%Z; [discriminate|].
  simpl. now intros ->.
Qed.

Lemma chat_loop_first_answer W system user k : forall a len last_err st content,
  k < len ->
  (forall i, i < k -> answer (endpoint W (requests st + i) system user) = None) ->
  answer (endpoint W (requests st + k) system user) = Some content ->
  chat_loop W system user (seq a len) last_err st =
    (Ok content,
     mk_state (requests st + k + 1) (slept st ++ map backoff (seq a k))%list
       (trace_log st) (tool_log st)).
Proof.
  induction k as [|k IH]; intros a len last_err st content Hk Hf Hs.
  - destruct len as [|len]; [lia|]. cbn [seq chat_loop].
    rewrite Nat.add_0_r in Hs.
    rewrite (bind_ok _ _ _ _ _ (chat_attempt_answer W system user a st content Hs)).
    unfold ret. simpl. rewrite app_nil_r. do 2 f_equal. lia.
  - destruct len as [|len]; [lia|]. cbn [seq chat_loop].
    destruct (chat_attempt_no_answer W system user a st) as [e He].
    { rewrite <- (Nat.add_0_r (requests st)). apply Hf. lia. }
    rewrite (bind_ok _ _ _ _ _ He). cbv iota.
    rewrite (IH (S a) len (Some e) (after_failure a st) content).
    + unfold after_failure. simpl. rewrite <- app_assoc. simpl.
      do 2 f_equal. lia.
    + lia.
    + intros i Hi. unfold after_failure. simpl.
      replace (S (requests st + i)) with (requests st + S i) by lia. apply Hf. lia.
    + unfold after_failure. simpl.
      replace (S (requests st + k)) with (requests st + S k) by lia. exact Hs.
Qed.

(** X10.  The round trip returns the content of the first well-formed answer
    among its three requests: after [k] requests without one, it has slept
    the first [k] backoffs (0.6 s, 1.2 s) and posted [k + 1] times. *)
Theorem groq_chat_first_answer W system user st k content :
  GROQ_API_KEY W <> "" ->
  k < 3 ->
  (forall i, i < k -> answer (endpoint W (requests st + i) system user) = None) ->
  answer (endpoint W (requests st + k) system user) = Some content ->
  _groq_chat W system user st =
    (Ok content,
     mk_state (requests st + k + 1) (slept st ++ map backoff (seq 0 k))%list
       (trace_log st) (tool_log st)).
Proof.
  intros Hkey Hk Hf Hs. unfold _groq_chat.
  apply is_empty_false in Hkey. rewrite Hkey.
  now apply chat_loop_first_answer.
Qed.

(** Busy once, then answered: two requests and one backoff of 0.6 s. *)
Lemma groq_chat_first_answer_example :
  _groq_chat (flaky 1 (VStr "{}")) "system" "user" initial
  = (Ok (VStr "{}"), mk_state 2 [600%N] [] []).
Proof.
  apply (groq_chat_first_answer (flaky 1 (VStr "{}")) "system" "user" initial 1 (VStr "{}")).
  - discriminate.
  - lia.
  - intros i Hi. destruct i; [reflexivity | lia].
  - reflexivity.
Defined.

End Recovery.

(** ** Locating the JSON text *)

Section Locate.

Lemma lstrip_blank_or s :
  lstrip s = "" \/ exists c r, lstrip s = String c r /\ is_space c = false.
Proof. apply lstrip_cases. Qed.

Lemma lstrip_app_blank a b : lstrip a = "" -> lstrip (a ++ b) = lstrip b.
Proof.
  induction a as [|x r IH]; [reflexivity|]. simpl.
  destruct (is_space x); [exact IH | discriminate].
Qed.

Lemma lstrip_app_visible a b : lstrip a <> "" -> lstrip (a ++ b) = lstrip a ++ b.
Proof.
  induction a as [|x r IH]; [simpl; congruence|]. simpl.
  destruct (is_space x); [exact IH | reflexivity].
Qed.

Lemma from_first_open_app a b :
  has_char "{" a = false -> has_char "[" a = false ->
  from_first_open (a ++ b) = from_first_open b.
Proof.
  induction a as [|x r IH]; [reflexivity|]. simpl. intros H1 H2.
  apply orb_false_iff in H1, H2. destruct H1 as [-> H1], H2 as [-> H2]. simpl. auto.
Qed.

Lemma from_first_open_head c r :
  opener c = true -> from_first_open (String c r) = Some (String c r).
Proof. unfold opener. simpl. now intros ->. Qed.

Lemma from_first_open_none s :
  from_first_open s = None <-> has_char "{" s = false /\ has_char "[" s = false.
Proof.
  induction s as [|x r IH]; simpl; [tauto|].
  destruct (Ascii.eqb x "{"); simpl; [split; [discriminate | intros [? ?]; discriminate]|].
  destruct (Ascii.eqb x "["); simpl; [split; [discriminate | intros [? ?]; discriminate]|].
  exact IH.
Qed.

Lemma opener_visible c : opener c = true -> is_space c = false.
Proof.
  unfold opener. intros H. apply orb_true_iff in H.
  destruct H as [H | H]; apply Ascii.eqb_eq in H; subst; reflexivity.
Qed.

Lemma starts_with_char x c r : startswith (String x "") (String c r) = Ascii.eqb c x.
Proof.
  unfold startswith. simpl.
  destruct (ascii_dec x c) as [<- | N].
  - rewrite Ascii.eqb_refl. destruct r; reflexivity.
  - symmetry. apply Ascii.eqb_neq. congruence.
Qed.

Lemma starts_open c r :
  (startswith "{" (String c r) || startswith "[" (String c r)) = opener c.
Proof. now rewrite !starts_with_char. Qed.

(** X11.  Prose before the JSON text is skipped: when the text before the
    first brace or bracket holds neither, [extract_json] reads the text
    from that opener on exactly as it reads it alone. *)
Theorem extract_json_skips_prose W prose doc :
  has_char "{" prose = false -> has_char "[" prose = false ->
  (startswith "{" doc || startswith "[" doc) = true ->
  extract_json W (VStr (prose ++ doc)) = extract_json W (VStr doc).
Proof.
  intros H1 H2 Hd.
  destruct doc as [|c r]; [discriminate|].
  rewrite starts_open in Hd. pose proof (opener_visible c Hd) as V.
  assert (Sd : strip (String c r) = rstrip (String c r)).
  { unfold strip. now rewrite lstrip_head. }
  assert (Nd : rstrip (String c r) <> "") by now apply rstrip_head.
  assert (Rd : exists r', rstrip (String c r) = String c r').
  { simpl. destruct (rstrip r); [rewrite V|]; eauto. }
  destruct Rd as [r' Rd].
  unfold extract_json.
  replace (truthy (VStr (prose ++ String c r))) with true by (destruct prose; reflexivity).
  change (truthy (VStr (String c r))) with true. cbv iota.
  rewrite Sd, Rd, starts_open, Hd.
  destruct (lstrip_blank_or prose) as [B | (x & p & B & Vx)].
  - unfold strip. rewrite (lstrip_app_blank _ _ B), (lstrip_head _ _ V), Rd.
    rewrite starts_open, Hd. reflexivity.
  - assert (Hx1 : has_char "{" (String x p) = false).
    { rewrite <- B. now rewrite has_char_lstrip. }
    assert (Hx2 : has_char "[" (String x p) = false).
    { rewrite <- B. now rewrite has_char_lstrip. }
    unfold strip. rewrite lstrip_app_visible by (rewrite B; discriminate).
    rewrite B, rstrip_app by exact Nd. rewrite Rd.
    change (String x p ++ String c r') with (String x (p ++ String c r')).
    rewrite starts_open.
    assert (Ox : opener x = false).
    { simpl in Hx1, Hx2. apply orb_false_iff in Hx1, Hx2. unfold opener.
      destruct Hx1 as [-> _], Hx2 as [-> _]. reflexivity. }
    rewrite Ox.
    change (String x (p ++ String c r')) with (String x p ++ String c r').
    rewrite (from_first_open_app _ _ Hx1 Hx2), (from_first_open_head _ _ Hd).
    replace (rstrip (lstrip (String c r'))) with (String c r').
    2:{ rewrite (lstrip_head _ _ V), <- Rd. now rewrite rstrip_idem. }
    reflexivity.
Qed.

Lemma extract_json_skips_prose_example :
  has_char "{" "Here is the plan: " = false /\ has_char "[" "Here is the plan: " = false
  /\ (startswith "{" "{}" || startswith "[" "{}") = true
  /\ extract_json (always_says "groq" "" [("{}", VDict [])] (returning VNone))
       (VStr ("Here is the plan: " ++ "{}"))
     = extract_json (always_says "groq" "" [("{}", VDict [])] (returning VNone)) (VStr "{}").
Proof.
  split; [reflexivity|]. split; [reflexivity|]. split; [reflexivity|].
  apply (extract_json_skips_prose _ "Here is the plan: " "{}"); reflexivity.
Defined.

(** X12.  [extract_json] raises its own [ValueError] exactly on a text that
    holds no brace and no bracket; on any other text the outcome is the
    parser's. *)
Theorem extract_json_value_error_iff W t :
  extract_json W (VStr t) = Raise (mk_exn ValueError "No JSON object/array found in text")
  <-> has_char "{" t = false /\ has_char "[" t = false.
Proof.
  assert (C : from_first_open (strip t) = None
              <-> has_char "{" t = false /\ has_char "[" t = false).
  { rewrite from_first_open_none. now rewrite !has_char_strip. }
  unfold extract_json.
  assert (T : (if truthy (VStr t) then VStr t else VStr "") = VStr t).
  { destruct t; reflexivity. }
  rewrite T.
  destruct (strip t) as [|c r] eqn:S.
  - simpl. split; [intros _; now apply C | reflexivity].
  - rewrite starts_open. destruct (opener c) eqn:O.
    + split.
      * destruct (json_loads W _); [discriminate|].
        destruct (to_last_close _); [|discriminate].
        destruct (json_loads W _); discriminate.
      * intros H. apply C in H. rewrite (from_first_open_head _ _ O) in H. discriminate.
    + destruct (from_first_open (String c r)) eqn:F.
      * split.
        -- destruct (json_loads W _); [discriminate|].
           destruct (to_last_close _); [|discriminate].
           destruct (json_loads W _); discriminate.
        -- intros H. apply C in H. discriminate.
      * split; [intros _; now apply C | reflexivity].
Qed.

End Locate.

(** ** Code fences *)

Section Fenced.

Lemma lstrip_blank_rstrip r : lstrip r = "" -> rstrip r = "".
Proof.
  induction r as [|c r IH]; [reflexivity|]. simpl.
  destruct (is_space c) eqn:E; [|discriminate].
  intros H. now rewrite (IH H).
Qed.

Lemma visible_is_no_fence d u :
  String.eqb (String d (u ++ fence)) fence = false
  /\ String.eqb (String d (u ++ fence)) (fence ++ nl) = false.
Proof.
  split; apply String.eqb_neq; intros E.
  - apply (f_equal String.length) in E. simpl in E. rewrite length_sapp in E. simpl in E. lia.
  - injection E as _ E.
    assert (L : String.length u = 0).
    { apply (f_equal String.length) in E. rewrite length_sapp in E. simpl in E. lia. }
    destruct u; [discriminate | discriminate].
Qed.

Lemma sub_fence_close_spec y w :
  lstrip w = "" -> sub_fence_close (y ++ w ++ fence) = rstrip y.
Proof.
  intros Hw. induction y as [|c r IH].
  - simpl "++". destruct (w ++ fence) eqn:E.
    + destruct w; discriminate.
    + rewrite <- E. unfold sub_fence_close.
      destruct (w ++ fence) eqn:E'; [congruence|]. rewrite <- E'.
      rewrite (lstrip_app_blank _ _ Hw). reflexivity.
  - change (String c r ++ w ++ fence) with (String c (r ++ w ++ fence)).
    cbn [sub_fence_close]. rewrite IH.
    destruct (is_space c) eqn:Sc.
    + cbn [lstrip]. rewrite Sc.
      destruct (lstrip_blank_or r) as [B | (d & r2 & B & Vd)].
      * rewrite (lstrip_app_blank _ _ B), (lstrip_app_blank _ _ Hw).
        change (String.eqb (lstrip fence) fence) with true. cbv iota.
        simpl. rewrite (lstrip_blank_rstrip _ B), Sc. reflexivity.
      * rewrite lstrip_app_visible by (rewrite B; discriminate).
        rewrite B. change (String d r2 ++ w ++ fence) with (String d (r2 ++ w ++ fence)).
        rewrite <- sapp_assoc.
        destruct (visible_is_no_fence d (r2 ++ w)) as [-> ->].
        simpl. destruct (rstrip r) eqn:R; [|reflexivity].
        exfalso. destruct r as [|x r']; [discriminate|].
        assert (Q : lstrip (rstrip (String x r')) = "") by now rewrite R.
        rewrite lstrip_rstrip_comm, B in Q.
        now apply (rstrip_head d r2 Vd).
    + rewrite (lstrip_head _ _ Sc). rewrite <- sapp_assoc.
      destruct (visible_is_no_fence c (r ++ w)) as [-> ->].
      simpl. destruct (rstrip r); [now rewrite Sc | reflexivity].
Qed.

Lemma drop_while_alnum lang rest :
  all_chars is_alnum lang = true -> drop_while is_alnum (lang ++ nl ++ rest) = nl ++ rest.
Proof.
  induction lang as [|c r IH]; [reflexivity|]. simpl.
  intros H. apply andb_true_iff in H. destruct H as [-> H]. auto.
Qed.

(** X13.  A fenced block gives its body: for a language tag of letters and
    digits (or none), the text made of an opening fence with the tag, a
    line break, any body, a line break and a closing fence is reduced to
    the body without the blanks around it. *)
Theorem strip_code_fences_fenced lang body :
  all_chars is_alnum lang = true ->
  _strip_code_fences (fence ++ lang ++ nl ++ body ++ nl ++ fence) = strip body.
Proof.
  intros Hl. unfold _strip_code_fences.
  assert (S0 : strip (fence ++ lang ++ nl ++ body ++ nl ++ fence)
               = fence ++ lang ++ nl ++ body ++ nl ++ fence).
  { unfold strip. replace (lstrip (fence ++ lang ++ nl ++ body ++ nl ++ fence))
      with (fence ++ lang ++ nl ++ body ++ nl ++ fence) by reflexivity.
    replace (fence ++ lang ++ nl ++ body ++ nl ++ fence)
      with ((fence ++ lang ++ nl ++ body ++ nl) ++ fence) at 1
      by (now rewrite !sapp_assoc).
    rewrite rstrip_app by discriminate.
    change (rstrip fence) with fence. now rewrite !sapp_assoc. }
  rewrite S0. unfold startswith. rewrite prefix_app.
  unfold sub_fence_open, startswith. rewrite prefix_app.
  change (drop 3 (fence ++ lang ++ nl ++ body ++ nl ++ fence))
    with (lang ++ nl ++ body ++ nl ++ fence).
  rewrite (drop_while_alnum _ _ Hl).
  change (lstrip (nl ++ body ++ nl ++ fence)) with (lstrip (body ++ nl ++ fence)).
  destruct (lstrip_blank_or body) as [B | (d & r & B & Vd)].
  - rewrite (lstrip_app_blank _ _ B).
    change (lstrip (nl ++ fence)) with ("" ++ "" ++ fence).
    rewrite sub_fence_close_spec by reflexivity.
    unfold strip at 2. rewrite B. reflexivity.
  - rewrite lstrip_app_visible by (rewrite B; discriminate).
    rewrite sub_fence_close_spec by reflexivity.
    change (rstrip (lstrip body)) with (strip body). apply strip_idem.
Qed.

Lemma strip_code_fences_fenced_example :
  all_chars is_alnum "json" = true
  /\ _strip_code_fences (fence ++ "json" ++ nl ++ " {} " ++ nl ++ fence) = strip " {} ".
Proof.
  split; [reflexivity|]. now apply (strip_code_fences_fenced "json" " {} ").
Defined.

End Fenced.

(** ** The document tool *)

Section Documents.

Lemma prefix_cons a p s :
  prefix (String a p) s = true -> exists r, s = String a r /\ prefix p r = true.
Proof.
  destruct s as [|b r]; simpl; [discriminate|].
  destruct (ascii_dec a b) as [<- | ?]; [eauto | discriminate].
Qed.

Lemma prefix_sec s : prefix section_mark s = true -> exists t, s = section_mark ++ t.
Proof.
  unfold section_mark. intros H.
  apply prefix_cons in H. destruct H as (s1 & -> & H).
  apply prefix_cons in H. destruct H as (s2 & -> & H).
  apply prefix_cons in H. destruct H as (s3 & -> & H).
  apply prefix_cons in H. destruct H as (s4 & -> & H).
  now exists s4.
Qed.

Lemma count_occurrence_at n : forall a b,
  String.length a <= n -> 1 + count section_mark b <= count section_mark (a ++ section_mark ++ b).
Proof.
  induction n as [n IH] using lt_wf_ind. intros a b Hn.
  destruct a as [|c a'].
  - unfold count. change ("" ++ section_mark ++ b) with (String "010" ("## " ++ b)).
    cbn [count_from].
    change (prefix section_mark (String "010" ("## " ++ b))) with (prefix section_mark (section_mark ++ b)).
    rewrite prefix_app. change (String.length section_mark - 1) with 3.
    change ("## " ++ b) with (String "#" (String "#" (String " " b))).
    cbn [count_from]. lia.
  - unfold count. change (String c a' ++ section_mark ++ b) with (String c (a' ++ section_mark ++ b)).
    cbn [count_from].
    destruct (prefix section_mark (String c (a' ++ section_mark ++ b))) eqn:P.
    + apply prefix_sec in P. destruct P as [t P].
      change (section_mark ++ t) with (String "010" (String "#" (String "#" (String " " t)))) in P.
      injection P as Hc P.
      destruct a' as [|x1 [|x2 [|x3 a'']]].
      * discriminate P.
      * discriminate P.
      * discriminate P.
      * change (String.length section_mark - 1) with 3.
        change (String x1 (String x2 (String x3 a'')) ++ section_mark ++ b)
          with (String x1 (String x2 (String x3 (a'' ++ section_mark ++ b)))).
        cbn [count_from].
        assert (L : String.length a'' <= n - 1) by (simpl in Hn; lia).
        pose proof (IH (n - 1) ltac:(simpl in Hn; lia) a'' b L) as Q.
        unfold count in Q. lia.
    + simpl in Hn.
      pose proof (IH (n - 1) ltac:(lia) a' b ltac:(lia)) as Q.
      unfold count in Q. lia.
Qed.

Lemma count_occurrence a b : 1 + count section_mark b <= count section_mark (a ++ section_mark ++ b).
Proof. now apply (count_occurrence_at (String.length a)). Qed.

(** A text made of a heading line and two sections looks like a full
    document. *)
Lemma looks_full_shape A B1 c B2 :
  is_space c = false ->
  DocWriter._looks_like_full_doc ("#" ++ A ++ section_mark ++ B1 ++ section_mark ++ String c B2) = true.
Proof.
  intros V. unfold DocWriter._looks_like_full_doc.
  change (is_empty ("#" ++ A ++ section_mark ++ B1 ++ section_mark ++ String c B2)) with false. cbv iota.
  assert (S : strip ("#" ++ A ++ section_mark ++ B1 ++ section_mark ++ String c B2)
              = "#" ++ A ++ section_mark ++ B1 ++ section_mark ++ rstrip (String c B2)).
  { unfold strip. change (lstrip ("#" ++ A ++ section_mark ++ B1 ++ section_mark ++ String c B2))
      with ("#" ++ A ++ section_mark ++ B1 ++ section_mark ++ String c B2).
    replace ("#" ++ A ++ section_mark ++ B1 ++ section_mark ++ String c B2)
      with (("#" ++ A ++ section_mark ++ B1 ++ section_mark) ++ String c B2)
      by (now rewrite !sapp_assoc).
    rewrite rstrip_app by now apply rstrip_head.
    now rewrite !sapp_assoc. }
  rewrite S.
  change ("#" ++ A ++ section_mark ++ B1 ++ section_mark ++ rstrip (String c B2))
    with (String "#" (A ++ section_mark ++ B1 ++ section_mark ++ rstrip (String c B2))) at 1.
  rewrite starts_with_char. change (Ascii.eqb "#" "#") with true. cbn [negb]. cbv iota.
  change (String "#" (A ++ section_mark ++ B1 ++ section_mark ++ rstrip (String c B2)))
    with ("#" ++ A ++ section_mark ++ B1 ++ section_mark ++ rstrip (String c B2)).
  pose proof (count_occurrence ("#" ++ A) (B1 ++ section_mark ++ rstrip (String c B2))) as C1.
  pose proof (count_occurrence B1 (rstrip (String c B2))) as C2.
  rewrite sapp_assoc in C1. fold section_mark.
  apply orb_true_iff. left. apply Nat.leb_le. lia.
Qed.


(** Every template opens with a heading line and at least two sections. *)
Ltac template_shape title meta c :=
  match goal with |- DocWriter._looks_like_full_doc ?T = true =>
    let E := fresh "E" in
    eassert (E : T = "#" ++ (" " ++ title ++ nl) ++ section_mark
                     ++ ("Context" ++ nl ++ meta ++ nl) ++ section_mark ++ String c _);
    [ unfold section_mark; cbn; rewrite ?sapp_assoc; cbn; reflexivity
    | rewrite E; apply looks_full_shape; reflexivity ]
  end.

Lemma template_prd_full title meta body :
  DocWriter._looks_like_full_doc (DocWriter.template_prd title meta body) = true.
Proof. template_shape title meta "P"%char. Qed.

Lemma template_gtm_full title meta body :
  DocWriter._looks_like_full_doc (DocWriter.template_gtm title meta body) = true.
Proof. template_shape title meta "I"%char. Qed.

Lemma template_integration_plan_full title meta body :
  DocWriter._looks_like_full_doc (DocWriter.template_integration_plan title meta body) = true.
Proof. template_shape title meta "S"%char. Qed.

Lemma template_test_plan_full title meta body :
  DocWriter._looks_like_full_doc (DocWriter.template_test_plan title meta body) = true.
Proof. template_shape title meta "T"%char. Qed.

Lemma template_checklist_full title meta body :
  DocWriter._looks_like_full_doc (DocWriter.template_checklist title meta body) = true.
Proof. template_shape title meta "C"%char. Qed.

Lemma template_generic_full title meta objective body :
  DocWriter._looks_like_full_doc (DocWriter.template_generic title meta objective body) = true.
Proof. template_shape title meta "O"%char. Qed.

(** The document a template renders looks like a full document. *)
Lemma rendered_full doc_type title meta objective body :
  DocWriter._looks_like_full_doc
    (if DocWriter.is_type doc_type "prd" then DocWriter.template_prd title meta body
     else if DocWriter.is_type doc_type "gtm" then DocWriter.template_gtm title meta body
     else if DocWriter.is_type doc_type "integration_plan"
          then DocWriter.template_integration_plan title meta body
     else if DocWriter.is_type doc_type "test_plan"
          then DocWriter.template_test_plan title meta body
     else if DocWriter.is_type doc_type "checklist"
          then DocWriter.template_checklist title meta body
     else DocWriter.template_generic title meta objective body) = true.
Proof.
  repeat match goal with
  | |- context [if DocWriter.is_type ?d ?n then _ else _] =>
      destruct (DocWriter.is_type d n)
  end;
    auto using template_prd_full, template_gtm_full, template_integration_plan_full,
      template_test_plan_full, template_checklist_full, template_generic_full.
Qed.

(** X14.  Every document the tool returns looks like a full document: the text
    it was given, when that already did, and otherwise one of the six
    templates, each of which opens with a heading and at least two
    sections.  So a document that goes through the tool again is not
    wrapped a second time. *)
Theorem doc_write_returns_full_document W title content doc_type context v :
  DocWriter.doc_write W title content doc_type context = Ok v ->
  exists s, v = VStr s /\ DocWriter._looks_like_full_doc s = true.
Proof.
  unfold DocWriter.doc_write.
  destruct (py_or title (VStr "")); try discriminate.
  destruct (py_or context (VDict [])); try discriminate.
  destruct (DocWriter._looks_like_full_doc _) eqn:F.
  - intros H. inversion H. eauto.
  - intros H. inversion H. eexists. split; [reflexivity|]. apply rendered_full.
Qed.

Lemma doc_write_returns_full_document_example :
  exists v,
    DocWriter.doc_write unreachable (VStr "Pricing") (VStr "Tiers and limits") (VStr "prd")
      (VDict [("task_goal", VStr "mobile fitness app")]) = Ok v
    /\ exists s, v = VStr s /\ DocWriter._looks_like_full_doc s = true.
Proof.
  eexists. split; [vm_compute; reflexivity|].
  apply (doc_write_returns_full_document unreachable (VStr "Pricing")
           (VStr "Tiers and limits") (VStr "prd")
           (VDict [("task_goal", VStr "mobile fitness app")])).
  vm_compute. reflexivity.
Defined.

(** The tool returns a text whenever its title is a text or a false value
    and its context a mapping or a false value. *)
Lemma doc_write_returns W title content doc_type context :
  is_str (py_or title (VStr "")) = true ->
  is_dict (py_or context (VDict [])) = true ->
  exists s, DocWriter.doc_write W title content doc_type context = Ok (VStr s).
Proof.
  unfold DocWriter.doc_write.
  destruct (py_or title (VStr "")); try discriminate.
  destruct (py_or context (VDict [])); try discriminate.
  intros _ _. destruct (DocWriter._looks_like_full_doc _); eauto.
Qed.

Lemma contains_app_r t a b : contains t b = true -> contains t (a ++ b) = true.
Proof.
  intros H. induction a as [|x r IH]; [exact H|].
  simpl. rewrite IH. apply orb_true_r.
Qed.

Lemma prefix_app_l t a b : prefix t a = true -> prefix t (a ++ b) = true.
Proof.
  revert a. induction t as [|x t IH]; intros a; [destruct (a ++ b); reflexivity|].
  destruct a as [|y a]; simpl; [discriminate|].
  destruct (ascii_dec x y); [apply IH | discriminate].
Qed.

Lemma contains_app_l t a b : contains t a = true -> contains t (a ++ b) = true.
Proof.
  induction a as [|x r IH]; intros H.
  - destruct t; [destruct b; reflexivity | discriminate].
  - change (contains t (String x r)) with (prefix t (String x r) || contains t r) in H.
    change (contains t (String x r ++ b))
      with (prefix t (String x r ++ b) || contains t (r ++ b)).
    apply orb_true_iff in H. destruct H as [H | H].
    + now rewrite (prefix_app_l _ _ _ H).
    + rewrite (IH H). apply orb_true_r.
Qed.

Lemma lstrip_suffix s : exists w, s = w ++ lstrip s.
Proof.
  induction s as [|c r [w IH]]; [now exists ""|]. simpl.
  destruct (is_space c); [|now exists ""].
  exists (String c w). simpl. now rewrite <- IH.
Qed.

Lemma rstrip_prefix s : exists w, s = rstrip s ++ w.
Proof.
  induction s as [|c r [w IH]]; [now exists ""|]. simpl.
  destruct (rstrip r) eqn:R.
  - destruct (is_space c).
    + exists (String c r). reflexivity.
    + exists w. simpl in *. congruence.
  - exists w. simpl in *. congruence.
Qed.

Lemma contains_strip t s : contains t (strip s) = true -> contains t s = true.
Proof.
  intros H. destruct (lstrip_suffix s) as [w1 E1].
  destruct (rstrip_prefix (lstrip s)) as [w2 E2].
  rewrite E1. apply contains_app_r. rewrite E2. now apply contains_app_l.
Qed.

Lemma no_placeholder_clean s :
  existsb (fun token => contains token (lower s)) DocWriter.banned_tokens = false ->
  DocWriter._no_placeholder (strip s) = strip s.
Proof.
  intros H. unfold DocWriter._no_placeholder.
  destruct (is_empty (strip s)) eqn:E; [apply is_empty_true in E; now rewrite E|].
  assert (N : existsb (fun token => contains token (lower (strip s)))
                DocWriter.banned_tokens = false).
  { apply not_true_is_false. intros Q. apply existsb_exists in Q.
    destruct Q as (t & Ht & Q). rewrite <- lower_strip in Q. apply contains_strip in Q.
    assert (X : existsb (fun token => contains token (lower s)) DocWriter.banned_tokens = true).
    { apply existsb_exists. eauto. }
    congruence. }
  rewrite N. apply strip_idem.
Qed.

Lemma looks_full_strip s :
  DocWriter._looks_like_full_doc s = true -> DocWriter._looks_like_full_doc (strip s) = true.
Proof.
  unfold DocWriter._looks_like_full_doc.
  destruct (is_empty s); [discriminate|]. rewrite strip_idem.
  destruct (strip s) eqn:E; [|auto].
  simpl. discriminate.
Qed.

(** X15.  The tool applied to a document it returned, with the same other
    arguments, returns that document again, without the blanks around it:
    nothing is wrapped twice.  The document is taken free of the banned
    tokens, which a second pass would cut out of it. *)
Theorem doc_write_again W title content doc_type context s :
  DocWriter.doc_write W title content doc_type context = Ok (VStr s) ->
  existsb (fun token => contains token (lower s)) DocWriter.banned_tokens = false ->
  DocWriter.doc_write W title (VStr s) doc_type context = Ok (VStr (strip s)).
Proof.
  intros H Hc.
  assert (F : DocWriter._looks_like_full_doc s = true).
  { revert H. unfold DocWriter.doc_write.
    destruct (py_or title (VStr "")); try discriminate.
    destruct (py_or context (VDict [])); try discriminate.
    destruct (DocWriter._looks_like_full_doc _) eqn:B; intros H; inversion H.
    - now subst s.
    - apply rendered_full. }
  revert H. unfold DocWriter.doc_write.
  destruct (py_or title (VStr "")); try discriminate.
  destruct (py_or context (VDict [])); try discriminate.
  intros _. cbn [DocWriter._to_md].
  rewrite (no_placeholder_clean _ Hc), (looks_full_strip _ F). reflexivity.
Qed.

Lemma doc_write_again_example :
  exists s,
    DocWriter.doc_write unreachable (VStr "Pricing") (VStr "Tiers and limits") (VStr "gtm")
      (VDict []) = Ok (VStr s)
    /\ DocWriter.doc_write unreachable (VStr "Pricing") (VStr s) (VStr "gtm") (VDict [])
       = Ok (VStr (strip s)).
Proof.
  eexists. split; [vm_compute; reflexivity|].
  apply (doc_write_again unreachable (VStr "Pricing") (VStr "Tiers and limits") (VStr "gtm")
           (VDict [])); vm_compute; reflexivity.
Defined.

(** The items of a compacted list are visible texts without blanks around
    them. *)
Lemma compact_list_clean l :
  Forall (fun s => s <> "" /\ strip s = s) (DocWriter._compact_list (VList l)).
Proof.
  unfold DocWriter._compact_list.
  destruct (negb (truthy (VList l))); [constructor|].
  apply Forall_forall. intros s H.
  apply in_map_iff in H. destruct H as (v & <- & H).
  apply filter_In in H. destruct H as [_ H].
  apply negb_true_iff, is_empty_false in H. split; [exact H | apply strip_idem].
Qed.

End Documents.

(** ** The registered tools behind the step *)

Section Registered.

Lemma registered_four W title content doc_type ctx :
  exists s,
    registered W doc_write
      [("title", VStr title); ("content", VStr content); ("doc_type", VStr doc_type);
       ("context", VDict ctx)]
    = Ok (VStr s).
Proof.
  unfold registered.
  change (bind_doc_write _) with (Ok (VStr title, VStr content, VStr doc_type, VDict ctx)).
  cbv iota beta. apply doc_write_returns.
  - unfold py_or. destruct (truthy (VStr title)); reflexivity.
  - unfold py_or. destruct (truthy (VDict ctx)); reflexivity.
Qed.

(** Whatever the preparation hands to the loop, the registered tool
    returns on it. *)
Lemma registered_prepared W step_title memory tool_name raw_args p :
  In tool_name ALLOWED_TOOLS ->
  prepare step_title memory tool_name raw_args = Ok p ->
  exists v, registered W (p_tool p) (p_clean_args p) = Ok v.
Proof.
  intros [<- | [<- | []]] H.
  - rewrite prepare_doc_write in H. cbv zeta in H. inversion H; subst p. clear H.
    destruct (is_empty _); cbn [p_tool p_clean_args];
      edestruct (registered_four W) as [s Hs]; eexists; exact Hs.
  - destruct (prepare_metrics step_title memory raw_args) as (p' & Hp & Hc).
    rewrite Hp in H. inversion H; subst p'. clear H.
    destruct Hc as [[_ Ht] | ->].
    + rewrite Ht. unfold registered. eauto.
    + cbn [p_tool p_clean_args].
      edestruct (registered_four W) as [s Hs]; eexists; exact Hs.
Qed.

(** X16.  With the registered tools behind it, the tool call of a step never
    raises: once the lines before the loop have returned, the step makes
    one tool call, returns its checked output, and posts at most 18
    requests (the decision and the reflection), none for the arg fixer. *)
Theorem registered_tools_single_call W task_id step_id step_title memory st decision p st0 :
  (forall t n kwargs, tool_body W t n kwargs = registered W t kwargs) ->
  decide W task_id step_id step_title memory st = (Ok (decision, p), st0) ->
  exists v r st',
    registered W (p_tool p) (p_clean_args p) = Ok v
    /\ checked step_title p decision v = Ok r
    /\ run_step W task_id step_id step_title memory st = (Ok r, st')
    /\ tool_log st' = (tool_log st ++ [(p_tool p, p_clean_args p)])%list
    /\ requests st' <= requests st + 18.
Proof.
  intros HW Hd.
  destruct (decide_prepared _ _ _ _ _ _ _ _ _ Hd) as (Hp & Ht & d & st1 & -> & Hl & Hprep).
  destruct (registered_prepared W _ _ _ _ _ (normalize_tool_name_allowed _) Hprep) as [v Hv].
  assert (Hc : exists r, checked step_title p (VDict d) v = Ok r).
  { destruct Hp as [[x Hx] | Hm].
    - rewrite (checked_doc _ _ _ _ _ Hx). eauto.
    - rewrite (checked_metrics _ _ _ _ Hm). eauto. }
  destruct Hc as [r Hr].
  exists v, r.
  assert (H1 : tool_body W (p_tool p) (List.length (tool_log st0)) (p_clean_args p) = Ok v).
  { now rewrite HW. }
  unfold run_step. rewrite (bind_ok _ _ _ _ _ Hd). cbv iota beta.
  rewrite (bind_ok _ _ _ _ _ (loop_first_success _ _ _ _ _ _ _ _ H1 Hr)).
  destruct (conclude_returns W task_id step_id step_title (fst r) (snd r)
              (after_call (p_tool p) (p_clean_args p) st0)) as (st' & Hs & Hlog).
  exists st'. split; [exact Hv|]. split; [exact Hr|].
  split; [rewrite Hs; destruct r; reflexivity|].
  split; [rewrite Hlog; simpl; now rewrite Ht|].
  pose proof (costs_decide W 9 12600 (costs_llm_json W) task_id step_id step_title memory st)
    as [C1 _].
  pose proof (costs_conclude W 9 12600 (costs_llm_json W) task_id step_id step_title
                (fst r) (snd r) (after_call (p_tool p) (p_clean_args p) st0)) as [C2 _].
  rewrite Hd in C1. rewrite Hs in C2. simpl in C1, C2. lia.
Qed.

Lemma registered_tools_single_call_example :
  exists decision p st0,
    decide studio "task" "step" "Write pricing" [] initial = (Ok (decision, p), st0)
    /\ exists v r st',
         registered studio (p_tool p) (p_clean_args p) = Ok v
         /\ checked "Write pricing" p decision v = Ok r
         /\ run_step studio "task" "step" "Write pricing" [] initial = (Ok r, st')
         /\ tool_log st' = (tool_log initial ++ [(p_tool p, p_clean_args p)])%list
         /\ requests st' <= requests initial + 18.
Proof.
  do 3 eexists. split; [vm_compute; reflexivity|].
  eapply (registered_tools_single_call studio "task" "step" "Write pricing" [] initial).
  - intros t n kwargs. reflexivity.
  - vm_compute. reflexivity.
Defined.

End Registered.

(** ** The metrics tool *)

Section MetricsTool.

(** X17.  What the metrics tool returns: without a visible goal, the record
    that asks for one; with one, a record that carries the stripped goal,
    whose north-star metric is one of the metrics it defines, and that
    lists the keyword arguments it was given. *)
Theorem metrics_generate_shape kwargs :
  let goal := strip (py_str (py_or (dict_get "task_goal" VNone kwargs) (VStr ""))) in
  exists d,
    Metrics.metrics_generate kwargs = VDict d
    /\ if is_empty goal
       then dict_find "error" d = Some (VStr "missing_task_goal")
       else dict_find "error" d = None
            /\ dict_find "task_goal" d = Some (VStr goal)
            /\ dict_find "inputs_seen" d = Some (VList (map VStr (map fst kwargs)))
            /\ exists name metrics definition,
                 dict_find "north_star_metric" d = Some (VStr name)
                 /\ dict_find "metrics" d = Some (VDict metrics)
                 /\ dict_find name metrics = Some definition.
Proof.
  cbv zeta. unfold Metrics.metrics_generate.
  destruct (is_empty _).
  - eexists. split; reflexivity.
  - destruct (existsb _ Metrics.fitness_words);
      (eexists; split; [reflexivity|]);
      (split; [reflexivity|]); (split; [reflexivity|]); (split; [reflexivity|]);
      do 3 eexists; (split; [reflexivity|]); split; reflexivity.
Qed.

Lemma dict_find_app k a b :
  dict_find k (a ++ b)%list = match dict_find k a with Some v => Some v | None => dict_find k b end.
Proof.
  induction a as [|[k' v] r IH]; [reflexivity|]. simpl.
  destruct (String.eqb k' k); auto.
Qed.

Lemma find_setdefault_new k v d :
  dict_find k d = None -> dict_find k (dict_setdefault k v d) = Some v.
Proof.
  intros H. unfold dict_setdefault. rewrite H, dict_find_app, H. simpl.
  now rewrite String.eqb_refl.
Qed.

Lemma find_setdefault_other k k' v d :
  k' <> k -> dict_find k (dict_setdefault k' v d) = dict_find k d.
Proof.
  intros N. unfold dict_setdefault. destruct (dict_find k' d); [reflexivity|].
  rewrite dict_find_app. destruct (dict_find k d); [reflexivity|]. simpl.
  apply String.eqb_neq in N. now rewrite N.
Qed.

Lemma find_cleaned_metrics k raw_args :
  k <> "kwargs" -> k <> "title" -> k <> "content" ->
  dict_find k (_clean_args_for_tool metrics_generate raw_args) = None.
Proof.
  intros N1 N2 N3.
  assert (E1 : String.eqb "kwargs" k = false) by (apply String.eqb_neq; congruence).
  assert (E2 : String.eqb "title" k = false) by (apply String.eqb_neq; congruence).
  assert (E3 : String.eqb "content" k = false) by (apply String.eqb_neq; congruence).
  unfold _clean_args_for_tool.
  destruct raw_args as [| | | | | |d|]; try (cbn [dict_find]; rewrite E2, E3; reflexivity).
  cbn [parameters]. induction d as [|[k' v] r IH]; [reflexivity|].
  cbn [filter fst mem existsb]. rewrite orb_false_r.
  destruct (String.eqb_spec k' "kwargs") as [-> | Q]; [|exact IH].
  cbn [dict_find]. now rewrite E1.
Qed.

(** X18.  The goal and the stage the metrics tool works with are not the
    model's: when a step calls the metrics tool, the goal the tool reports
    is the [task_goal] entry of the memory, stripped, and the stage is
    [growth], whatever arguments the decision proposed. *)
Theorem metrics_call_ignores_model_arguments step_title memory raw_args p :
  prepare step_title memory "metrics_generate" raw_args = Ok p ->
  p_tool p = metrics_generate ->
  exists d,
    Metrics.metrics_generate (p_clean_args p) = VDict d
    /\ dict_find "task_goal" d
       = Some (VStr (strip (py_str (dict_get "task_goal" (VStr "") memory))))
    /\ dict_find "stage" d = Some (VStr "growth")
    /\ dict_find "error" d = None.
Proof.
  unfold prepare.
  change (get_tool "metrics_generate") with (Ok metrics_generate). cbv iota beta.
  change (String.eqb "metrics_generate" "doc_write") with false. cbv iota.
  change (String.eqb "metrics_generate" "metrics_generate") with true. cbv iota.
  set (g := strip (py_str (dict_get "task_goal" (VStr "") memory))).
  set (clean := _clean_args_for_tool metrics_generate raw_args).
  assert (F1 : dict_find "task_goal"
                 (dict_setdefault "step_title" (VStr step_title)
                    (dict_setdefault "task_goal" (VStr g) clean)) = Some (VStr g)).
  { rewrite find_setdefault_other by discriminate.
    apply find_setdefault_new. apply find_cleaned_metrics; discriminate. }
  assert (F2 : dict_find "stage"
                 (dict_setdefault "step_title" (VStr step_title)
                    (dict_setdefault "task_goal" (VStr g) clean)) = None).
  { rewrite !find_setdefault_other by discriminate.
    apply find_cleaned_metrics; discriminate. }
  unfold dict_get at 1. rewrite F1.
  destruct (negb (truthy (VStr g))) eqn:T.
  - change (get_tool "doc_write") with (Ok doc_write). cbv iota.
    intros H. inversion H; subst p. discriminate.
  - intros H _. inversion H; subst p. clear H. cbn [p_clean_args].
    apply negb_false_iff in T. simpl in T. apply negb_true_iff, is_empty_false in T.
    unfold Metrics.metrics_generate. unfold dict_get. rewrite F1, F2.
    rewrite (py_or_text _ _ T). cbn [py_str].
    assert (S : strip g = g) by apply strip_idem.
    rewrite S. apply is_empty_false in T. rewrite T.
    destruct (existsb _ Metrics.fitness_words); eexists; repeat split; reflexivity.
Qed.

Lemma metrics_call_ignores_model_arguments_example :
  exists p,
    prepare "Define KPIs" budget_memory "metrics_generate" proposed_metrics_args = Ok p
    /\ p_tool p = metrics_generate
    /\ exists d,
         Metrics.metrics_generate (p_clean_args p) = VDict d
         /\ dict_find "task_goal" d = Some (VStr "budgeting app")
         /\ dict_find "stage" d = Some (VStr "growth")
         /\ dict_find "error" d = None.
Proof.
  eexists. split; [vm_compute; reflexivity|]. split; [reflexivity|].
  apply (metrics_call_ignores_model_arguments "Define KPIs" budget_memory
           proposed_metrics_args _ eq_refl eq_refl).
Defined.

End MetricsTool.

(** ** The memory table and its snapshot *)

Section MemoryFacts.

Lemma dict_find_set_same k v d : dict_find k (dict_set k v d) = Some v.
Proof.
  induction d as [|[k' v'] r IH]; simpl.
  - now rewrite String.eqb_refl.
  - destruct (String.eqb k' k) eqn:E; simpl; [now rewrite String.eqb_refl|].
    now rewrite E.
Qed.

Lemma dict_find_set_other k k' v d : k' <> k -> dict_find k (dict_set k' v d) = dict_find k d.
Proof.
  intros N. apply String.eqb_neq in N.
  induction d as [|[k2 v2] r IH]; simpl.
  - now rewrite N.
  - destruct (String.eqb k2 k') eqn:E; simpl.
    + apply String.eqb_eq in E. subst k2. now rewrite N.
    + destruct (String.eqb k2 k); auto.
Qed.

Lemma snapshot_of_app a b init :
  fold_left (fun d m => dict_set (snapshot_key m) (VStr (m_value m)) d) (a ++ b)%list init
  = fold_left (fun d m => dict_set (snapshot_key m) (VStr (m_value m)) d) b
      (fold_left (fun d m => dict_set (snapshot_key m) (VStr (m_value m)) d) a init).
Proof. apply fold_left_app. Qed.

Lemma snapshot_key_has_colon m : has_char ":" (snapshot_key m) = true.
Proof.
  unfold snapshot_key. rewrite has_char_app. simpl. apply orb_true_r.
Qed.

Lemma snapshot_find_colon k items : forall init,
  has_char ":" k = false ->
  dict_find k (fold_left (fun d m => dict_set (snapshot_key m) (VStr (m_value m)) d) items init)
  = dict_find k init.
Proof.
  induction items as [|m r IH]; intros init H; [reflexivity|].
  simpl. rewrite IH by exact H. apply dict_find_set_other.
  intros E. pose proof (snapshot_key_has_colon m) as C. rewrite E in C. congruence.
Qed.

(** A snapshot has no entry under a key without a colon; in particular it
    has no [task_goal]. *)
Lemma snapshot_no_plain_key db user_id k :
  has_char ":" k = false -> dict_find k (snapshot db user_id) = None.
Proof. intros H. unfold snapshot, snapshot_of. now rewrite snapshot_find_colon. Qed.

Lemma prepare_without_goal step_title memory tool_name raw_args p :
  dict_find "task_goal" memory = None ->
  In tool_name ALLOWED_TOOLS ->
  prepare step_title memory tool_name raw_args = Ok p ->
  p_tool p = doc_write.
Proof.
  intros Hm [<- | [<- | []]] H.
  - rewrite prepare_doc_write in H. cbv zeta in H. inversion H.
    destruct (is_empty _); reflexivity.
  - revert H. unfold prepare.
    change (get_tool "metrics_generate") with (Ok metrics_generate). cbv iota beta.
    change (String.eqb "metrics_generate" "doc_write") with false. cbv iota.
    change (String.eqb "metrics_generate" "metrics_generate") with true. cbv iota.
    unfold dict_get at 2. rewrite Hm. cbn [py_str]. change (strip "") with "".
    unfold dict_get at 1.
    rewrite find_setdefault_other by discriminate.
    rewrite find_setdefault_new by (apply find_cleaned_metrics; discriminate).
    cbn [truthy is_empty negb].
    change (get_tool "doc_write") with (Ok doc_write). cbv iota.
    intros H. inversion H. reflexivity.
Qed.

(** X19.  With the memory a snapshot gives, a step never calls the metrics
    tool: the snapshot has no [task_goal], so a decision for the metrics
    tool is redirected to the clarify document, and every tool call of the
    step is a call of the document tool. *)
Theorem snapshot_step_calls_document_tool W db user_id task_id step_id step_title st :
  exists calls,
    tool_log (snd (run_step W task_id step_id step_title (snapshot db user_id) st))
    = (tool_log st ++ calls)%list
    /\ Forall (fun c => fst c = doc_write) calls.
Proof.
  set (memory := snapshot db user_id).
  pose proof (decide_cases W task_id step_id step_title memory st) as C.
  destruct (llm_json W EXECUTOR_SYSTEM (user_prompt W step_title memory) st)
    as [[decision|e] st1] eqn:L.
  - destruct C as (d & p & st0 & -> & Hp & Hw & Hd & Ht & _).
    assert (T : p_tool p = doc_write).
    { apply (prepare_without_goal _ _ _ _ _
               (snapshot_no_plain_key db user_id "task_goal" eq_refl)
               (normalize_tool_name_allowed _) Hp). }
    destruct (run_step_summary _ _ _ _ _ _ _ _ _ Hd Hw) as (st' & Hr & Hl).
    rewrite Hr. cbn [snd]. rewrite Hl, Ht, T.
    eexists. split; [reflexivity|].
    apply Forall_forall. intros c Hc. apply in_map_iff in Hc.
    destruct Hc as (a & <- & _). reflexivity.
  - exists []. split; [|constructor].
    unfold run_step. rewrite (bind_raise _ _ _ _ _ C). cbn [snd].
    rewrite app_nil_r. apply (preserves_llm_json_tools _ _ _ _ _ _ L).
Qed.

Lemma filter_filter_neg {A} (f : A -> bool) l : filter f (filter (fun x => negb (f x)) l) = [].
Proof.
  induction l as [|x r IH]; [reflexivity|]. simpl.
  destruct (f x) eqn:E; simpl; [exact IH|]. now rewrite E.
Qed.

(** X20.  After an upsert the table holds exactly one row for the user and the
    key of the new row, and it is the new row: a row with the same key is
    replaced whatever its kind. *)
Theorem upsert_memory_unique db mem db' :
  upsert_memory db mem = Some db' ->
  filter (fun m => owned_by (m_user_id mem) m && String.eqb (m_key m) (m_key mem)) db' = [mem].
Proof.
  unfold upsert_memory. destruct (existsb _ _); [discriminate|].
  intros H. inversion H. rewrite filter_app, filter_filter_neg. simpl.
  unfold owned_by. now rewrite !String.eqb_refl.
Qed.

Lemma upsert_memory_unique_example :
  exists db',
    upsert_memory shelf (mk_memory "mem_4" "ann" "tone" "warm" "semantic") = Some db'
    /\ filter (fun m => owned_by "ann" m && String.eqb (m_key m) "tone") db'
       = [mk_memory "mem_4" "ann" "tone" "warm" "semantic"].
Proof.
  eexists. split; [reflexivity|].
  apply (upsert_memory_unique shelf (mk_memory "mem_4" "ann" "tone" "warm" "semantic")).
  reflexivity.
Defined.

Lemma filter_comm {A} (f g : A -> bool) l : filter f (filter g l) = filter g (filter f l).
Proof.
  induction l as [|x r IH]; [reflexivity|]. simpl.
  destruct (f x) eqn:F, (g x) eqn:G; simpl; rewrite ?F, ?G, IH; reflexivity.
Qed.

Lemma filter_implied {A} (f g : A -> bool) l :
  (forall x, f x = true -> g x = true) -> filter f (filter g l) = filter f l.
Proof.
  intros H. induction l as [|x r IH]; [reflexivity|]. simpl.
  destruct (g x) eqn:G; simpl.
  - now rewrite IH.
  - destruct (f x) eqn:F; [|exact IH]. rewrite (H x F) in G. discriminate.
Qed.

(** X21.  An upsert for one user leaves what every other user has in memory as
    it was. *)
Theorem upsert_memory_keeps_other_users db mem db' user_id :
  upsert_memory db mem = Some db' ->
  user_id <> m_user_id mem ->
  get_memory db' user_id = get_memory db user_id.
Proof.
  unfold upsert_memory. destruct (existsb _ _); [discriminate|].
  intros H N. inversion H. unfold get_memory.
  rewrite filter_app. simpl.
  assert (O : owned_by user_id mem = false).
  { unfold owned_by. apply String.eqb_neq. congruence. }
  rewrite O, app_nil_r. apply filter_implied.
  intros m Hm. unfold owned_by in *. apply String.eqb_eq in Hm.
  apply negb_true_iff, andb_false_iff. left. apply String.eqb_neq. congruence.
Qed.

Lemma upsert_memory_keeps_other_users_example :
  exists db',
    upsert_memory shelf (mk_memory "mem_4" "ann" "tone" "warm" "semantic") = Some db'
    /\ get_memory db' "bob" = get_memory shelf "bob".
Proof.
  eexists. split; [reflexivity|].
  apply (upsert_memory_keeps_other_users shelf
           (mk_memory "mem_4" "ann" "tone" "warm" "semantic")).
  - reflexivity.
  - discriminate.
Defined.

(** X22.  A reset empties the memory of the user and of no one else. *)
Theorem reset_memory_spec db user_id :
  get_memory (reset_memory db user_id) user_id = []
  /\ snapshot (reset_memory db user_id) user_id = []
  /\ forall other, other <> user_id ->
       get_memory (reset_memory db user_id) other = get_memory db other.
Proof.
  assert (E : get_memory (reset_memory db user_id) user_id = []).
  { unfold get_memory, reset_memory. apply filter_filter_neg. }
  split; [exact E|]. split; [unfold snapshot; now rewrite E|].
  intros other N. unfold get_memory, reset_memory. apply filter_implied.
  intros m Hm. unfold owned_by in *. apply String.eqb_eq in Hm.
  apply negb_true_iff, String.eqb_neq. congruence.
Qed.

(** X23.  What is remembered is in the next snapshot, under the kind and the
    key joined by a colon. *)
Theorem remember_fact_snapshot db user_id hex key value kind db' :
  remember_fact db user_id hex key value kind = Some db' ->
  dict_find (kind ++ ":" ++ key) (snapshot db' user_id) = Some (VStr value).
Proof.
  unfold remember_fact, upsert_memory. destruct (existsb _ _); [discriminate|].
  intros H. inversion H. unfold snapshot, snapshot_of, get_memory.
  rewrite filter_app, snapshot_of_app. simpl. unfold owned_by. simpl.
  rewrite String.eqb_refl. simpl. apply dict_find_set_same.
Qed.

Lemma remember_fact_snapshot_example :
  exists db',
    remember_fact shelf "ann" "00000000000000a4" "task_goal" "mobile fitness app" "semantic"
    = Some db'
    /\ dict_find ("semantic" ++ ":" ++ "task_goal") (snapshot db' "ann")
       = Some (VStr "mobile fitness app").
Proof.
  eexists. split; [reflexivity|].
  apply (remember_fact_snapshot shelf "ann" "00000000000000a4" "task_goal"
           "mobile fitness app" "semantic").
  reflexivity.
Defined.

End MemoryFacts.

(** ** Planning *)

Section Plans.

Lemma all_valid_map {A} (f : value -> option A) (g : A -> value) l :
  (forall a, f (g a) = Some a) -> all_valid f (map g l) = Some l.
Proof.
  intros H. induction l as [|a r IH]; [reflexivity|]. simpl. now rewrite H, IH.
Qed.

Lemma valid_step_dump s : valid_step (dump_step s) = Some s.
Proof. destruct s as [title [tool|]]; reflexivity. Qed.

(** X24.  A validated plan survives the round trip: what [model_dump] writes,
    [model_validate] reads back as the same plan. *)
Theorem model_validate_dump plan : model_validate (model_dump plan) = Ok plan.
Proof.
  destruct plan as [goal assumptions constraints steps].
  unfold model_validate, model_dump. cbn [plan_goal plan_assumptions plan_constraints plan_steps].
  change (dict_find "goal" _) with (Some (VStr goal)).
  change (dict_find "steps" _) with (Some (VList (map dump_step steps))).
  change (dict_find "assumptions" _) with (Some (VList (map VStr assumptions))).
  change (dict_find "constraints" _) with (Some (VList (map VStr constraints))).
  cbn [valid_str valid_strings valid_list].
  rewrite !(all_valid_map valid_str VStr) by reflexivity.
  rewrite (all_valid_map valid_step dump_step) by apply valid_step_dump.
  reflexivity.
Qed.

(** X25.  The planner cannot use the decisions [llm_json] makes up: when the
    cascade answers the planning request with the mock decision or with
    its fallback decision, neither of which has a [goal] or [steps],
    validation rejects it and [make_plan] raises, in the state the request
    left, with no plan traced. *)
Theorem make_plan_rejects_made_up_decisions W task_id step_id goal st raw st1 :
  llm_json W PLANNER_SYSTEM goal st = (Ok raw, st1) ->
  raw = mock_decision goal \/ raw = fallback_decision ->
  exists e,
    make_plan W task_id step_id goal st = (Raise e, st1)
    /\ exn_cls e = ValueError.
Proof.
  intros H Hr. unfold make_plan. rewrite (bind_ok _ _ _ _ _ H).
  destruct Hr as [-> | ->]; eexists; (split; [reflexivity|]); reflexivity.
Qed.

Lemma make_plan_rejects_made_up_decisions_example :
  llm_json offline PLANNER_SYSTEM "Launch a mobile fitness app" initial
  = (Ok (mock_decision "Launch a mobile fitness app"), initial)
  /\ exists e,
       make_plan offline "task" "step" "Launch a mobile fitness app" initial
       = (Raise e, initial)
       /\ exn_cls e = ValueError.
Proof.
  split; [reflexivity|].
  apply (make_plan_rejects_made_up_decisions offline "task" "step"
           "Launch a mobile fitness app" initial
           (mock_decision "Launch a mobile fitness app") initial).
  - reflexivity.
  - now left.
Defined.

End Plans.

(** ** What a step leaves in the trace *)

Section Traces.

Lemma preserves_sleep_trace ms : preserves trace_log (sleep ms).
Proof. intros st r st' H. unfold sleep in H. inversion H. reflexivity. Qed.

Lemma preserves_post_trace W s u : preserves trace_log (post W s u).
Proof.
  intros st r st' H. unfold post in H.
  destruct (endpoint W (requests st) s u); inversion H; reflexivity.
Qed.

Lemma preserves_call_trace W t kwargs : preserves trace_log (call W t kwargs).
Proof. intros st r st' H. unfold call in H. inversion H. reflexivity. Qed.

Lemma preserves_chat_attempt_trace W system user attempt :
  preserves trace_log (chat_attempt W system user attempt).
Proof.
  apply preserves_try_catch.
  - apply preserves_bind; [apply preserves_post_trace|].
    intros [[code text] json].
    destruct (transient code).
    + apply preserves_bind; [apply preserves_sleep_trace | intros; apply preserves_ret].
    + destruct (400 <=? code)%Z; [apply preserves_raise|].
      apply preserves_bind; [apply preserves_lift|]. intros data.
      destruct (chat_content data); [apply preserves_ret | apply preserves_raise].
  - intros e. apply preserves_bind; [apply preserves_sleep_trace | intros; apply preserves_ret].
Qed.

Lemma preserves_groq_chat_trace W system user : preserves trace_log (_groq_chat W system user).
Proof.
  unfold _groq_chat. destruct (is_empty (GROQ_API_KEY W)); [apply preserves_raise|].
  generalize (@None exn). generalize (seq 0 3). intros attempts.
  induction attempts as [|a rest IH]; intros last_err; simpl.
  - apply preserves_raise.
  - apply preserves_bind; [apply preserves_chat_attempt_trace|].
    intros [c|e]; [apply preserves_ret | apply IH].
Qed.

Lemma preserves_llm_json_trace W system user : preserves trace_log (llm_json W system user).
Proof.
  unfold llm_json.
  destruct (String.eqb _ "mock"); [apply preserves_ret|].
  destruct (negb _); [apply preserves_raise|].
  repeat first
    [ solve [auto using preserves_groq_chat_trace, preserves_parse_attempt,
               preserves_ret, preserves_raise]
    | apply preserves_bind
    | intros [?|]
    | intro ].
Qed.

Lemma preserves_attempt_loop_trace W step_title p decision clean_args output :
  preserves trace_log (attempt_loop W step_title p decision (seq 0 2) clean_args output).
Proof.
  assert (H : forall c e, preserves trace_log (heal W step_title p c e)).
  { intros c e. unfold heal, self_heal.
    apply preserves_try_catch; [|intros; apply preserves_ret].
    apply preserves_bind; [apply preserves_llm_json_trace|]. intros.
    apply preserves_bind; [apply preserves_lift | intros; apply preserves_ret]. }
  assert (B : forall attempt c o,
             preserves trace_log (attempt_body W step_title p decision attempt c o)).
  { intros attempt c o. unfold attempt_body. apply preserves_try_catch.
    - apply preserves_bind; [apply preserves_call_trace|]. intros.
      apply preserves_bind; [apply preserves_lift | intros; apply preserves_ret].
    - intros e. apply preserves_bind; [|intros; apply preserves_ret].
      destruct (attempt =? 0)%nat; [apply H | apply preserves_ret]. }
  simpl seq. cbn [attempt_loop].
  apply preserves_bind; [apply B|]. intros [o f | c o]; [apply preserves_ret|].
  apply preserves_bind; [apply B|]. intros [o' f | c' o']; apply preserves_ret.
Qed.

Lemma trace_inv t s ev p st r st' :
  jsonable p = true -> trace t s ev p st = (r, st') ->
  r = Ok tt /\ trace_log st' = (trace_log st ++ [(ev, p)])%list.
Proof.
  intros J H. rewrite (trace_ok _ _ _ _ _ J) in H. inversion H. auto.
Qed.

(** X26.  A step that returns has traced, in this order: the decision, the
    tool choice (the raw name, the normalized name and the raw arguments),
    the output under [llm], and then the reflection when the reflection
    request returned one.  The arg fixer leaves no event. *)
Theorem run_step_traces W task_id step_id step_title memory st output final_decision st' :
  run_step W task_id step_id step_title memory st = (Ok (output, final_decision), st') ->
  exists decision raw_tool_name raw_args reflections,
    trace_log st' =
      (trace_log st
       ++ [("decision", _safe_jsonable decision);
           ("tool", _safe_jsonable
                      (VDict [("tool_raw", raw_tool_name);
                              ("tool", VStr (_normalize_tool_name raw_tool_name));
                              ("args", raw_args)]));
           ("llm", VDict [("tool_output", _safe_jsonable output)])]
       ++ reflections)%list
    /\ (reflections = []
        \/ exists reflection, reflections = [("reflection", _safe_jsonable reflection)]).
Proof.
  intros H. unfold run_step in H.
  apply bind_inv in H. destruct H as [([decision p] & st0 & Hd & H) | (e & _ & E)];
    [|discriminate].
  apply bind_inv in H. destruct H as [(r & st2 & Hl & H) | (e & _ & E)]; [|discriminate].
  (* the lines before the loop *)
  unfold decide in Hd.
  apply bind_inv in Hd. destruct Hd as [(dec & s1 & H1 & Hd) | (e & _ & E)]; [|discriminate].
  apply bind_inv in Hd. destruct Hd as [([] & s2 & H2 & Hd) | (e & _ & E)]; [|discriminate].
  apply bind_inv in Hd. destruct Hd as [(raw_tool & s3 & H3 & Hd) | (e & _ & E)];
    [|discriminate].
  apply bind_inv in Hd. destruct Hd as [(raw_args & s4 & H4 & Hd) | (e & _ & E)];
    [|discriminate].
  apply bind_inv in Hd. destruct Hd as [([] & s5 & H5 & Hd) | (e & _ & E)]; [|discriminate].
  apply bind_inv in Hd. destruct Hd as [(p' & s6 & H6 & Hd) | (e & _ & E)]; [|discriminate].
  unfold ret in Hd. inversion Hd; subst dec p' s6. clear Hd.
  apply (preserves_llm_json_trace _ _ _ _ _ _) in H1.
  apply trace_inv in H2; [|apply jsonable_safe]. destruct H2 as [_ H2].
  unfold lift in H3, H4, H6. inversion H3; subst s3. inversion H4; subst s4.
  inversion H6; subst s5.
  apply trace_inv in H5; [|apply jsonable_safe]. destruct H5 as [_ H5].
  (* the loop *)
  apply (preserves_attempt_loop_trace _ _ _ _ _ _) in Hl.
  (* the lines after the loop *)
  unfold conclude in H.
  apply bind_inv in H. destruct H as [([] & s7 & Q7 & H) | (e & _ & E)]; [|discriminate].
  apply bind_inv in H. destruct H as [([] & s8 & Q8 & H) | (e & _ & E)]; [|discriminate].
  unfold ret in H. injection H as Ho Hf Hs. subst s8.
  assert (J : jsonable (VDict [("tool_output", _safe_jsonable (fst r))]) = true).
  { simpl. now rewrite jsonable_safe. }
  apply trace_inv in Q7; [|exact J]. destruct Q7 as [_ Q7].
  assert (R : trace_log st' = trace_log s7
              \/ exists reflection,
                   trace_log st' = (trace_log s7 ++ [("reflection", _safe_jsonable reflection)])%list).
  { apply try_catch_inv in Q8.
    destruct Q8 as [(a & Q8 & _) | (e & s9 & Q8 & Q9)].
    - apply bind_inv in Q8.
      destruct Q8 as [(reflection & s9 & Hr & Q8) | (e & _ & E)]; [|discriminate].
      apply (preserves_llm_json_trace _ _ _ _ _ _) in Hr.
      apply trace_inv in Q8; [|apply jsonable_safe]. destruct Q8 as [_ Q8].
      right. exists reflection. now rewrite Q8, Hr.
    - unfold ret in Q9. inversion Q9; subst s9.
      apply bind_inv in Q8.
      destruct Q8 as [(reflection & s9 & Hr & Q8) | (e' & Q8 & _)].
      + apply (preserves_llm_json_trace _ _ _ _ _ _) in Hr.
        unfold trace in Q8. rewrite jsonable_safe in Q8. inversion Q8.
      + left. apply (preserves_llm_json_trace _ _ _ _ _ _ Q8). }
  exists decision, raw_tool, raw_args.
  assert (T : trace_log s7 =
              (trace_log st
               ++ [("decision", _safe_jsonable decision);
                   ("tool", _safe_jsonable
                              (VDict [("tool_raw", raw_tool);
                                      ("tool", VStr (_normalize_tool_name raw_tool));
                                      ("args", raw_args)]));
                   ("llm", VDict [("tool_output", _safe_jsonable output)])])%list).
  { rewrite Q7, Ho, Hl, H5, H2, H1. rewrite <- !app_assoc. reflexivity. }
  destruct R as [R | [reflection R]].
  - exists []. split; [|now left]. rewrite R, T. simpl. reflexivity.
  - exists [("reflection", _safe_jsonable reflection)]. split; [|eauto].
    rewrite R, T, <- app_assoc. reflexivity.
Qed.

Lemma run_step_traces_example :
  exists output final_decision st',
    run_step (fitness_world (returning (VStr "# Pricing for the mobile fitness app")))
      "task" "step" "Write pricing" [] initial = (Ok (output, final_decision), st')
    /\ exists decision raw_tool_name raw_args reflections,
         trace_log st' =
           (trace_log initial
            ++ [("decision", _safe_jsonable decision);
                ("tool", _safe_jsonable
                           (VDict [("tool_raw", raw_tool_name);
                                   ("tool", VStr (_normalize_tool_name raw_tool_name));
                                   ("args", raw_args)]));
                ("llm", VDict [("tool_output", _safe_jsonable output)])]
            ++ reflections)%list
         /\ (reflections = []
             \/ exists reflection,
                  reflections = [("reflection", _safe_jsonable reflection)]).
Proof.
  do 3 eexists. split; [vm_compute; reflexivity|].
  eapply (run_step_traces (fitness_world (returning (VStr "# Pricing for the mobile fitness app")))
            "task" "step" "Write pricing" [] initial).
  vm_compute. reflexivity.
Defined.

(** X27.  The cascade keeps the promise of its docstring: it raises no parse
    exception, neither [ValueError] nor [JSONDecodeError], whatever the
    endpoint sends. *)
Theorem llm_json_raises_no_parse_error W system user st e st' :
  llm_json W system user st = (Raise e, st') ->
  exn_cls e <> ValueError /\ exn_cls e <> JSONDecodeError.
Proof.
  intros H. apply llm_json_result in H.
  destruct H as [-> | [-> | ->]]; split; discriminate.
Qed.

Lemma llm_json_raises_no_parse_error_example :
  exists e st',
    llm_json unreachable "system" "user" initial = (Raise e, st')
    /\ exn_cls e <> ValueError /\ exn_cls e <> JSONDecodeError.
Proof.
  do 2 eexists. split; [vm_compute; reflexivity|].
  eapply (llm_json_raises_no_parse_error unreachable "system" "user" initial).
  vm_compute. reflexivity.
Defined.

End Traces.

(** ** The clarify document through the document tool *)

Section ClarifyThroughTool.

Lemma clarify_doc_full step_title task_goal assumptions constraints :
  DocWriter._looks_like_full_doc
    (_make_clarify_doc step_title task_goal assumptions constraints) = true.
Proof.
  unfold _make_clarify_doc. cbv zeta.
  match goal with |- DocWriter._looks_like_full_doc ?T = true =>
    eassert (E : T = "#" ++ (" " ++ _clarify_title step_title ++ nl) ++ section_mark
                     ++ ("Context" ++ nl
                         ++ "- **task_goal:** "
                         ++ (if is_empty (strip task_goal) then "(missing)"
                             else strip task_goal) ++ nl
                         ++ "- **assumptions:**" ++ nl ++ bullets (firstn 6 assumptions) ++ nl
                         ++ "- **constraints:**" ++ nl ++ bullets (firstn 6 constraints) ++ nl)
                     ++ section_mark ++ String "W" _)
  end.
  { unfold section_mark, lines. cbn [String.concat]. cbn.
    repeat (rewrite !sapp_assoc; cbn). reflexivity. }
  rewrite E. apply looks_full_shape. reflexivity.
Qed.

(** A full document free of the banned tokens passes through the tool. *)
Lemma doc_write_passes_full W title body doc_type ctx :
  existsb (fun token => contains token (lower body)) DocWriter.banned_tokens = false ->
  DocWriter._looks_like_full_doc body = true ->
  DocWriter.doc_write W (VStr title) (VStr body) doc_type (VDict ctx) = Ok (VStr (strip body)).
Proof.
  intros Hc F. unfold DocWriter.doc_write.
  assert (T : exists t, py_or (VStr title) (VStr "") = VStr t).
  { unfold py_or. destruct (truthy (VStr title)); eauto. }
  destruct T as [t ->].
  assert (C : exists c, py_or (VDict ctx) (VDict []) = VDict c).
  { unfold py_or. destruct (truthy (VDict ctx)); eauto. }
  destruct C as [c ->].
  cbn [DocWriter._to_md].
  rewrite (no_placeholder_clean _ Hc), (looks_full_strip _ F). reflexivity.
Qed.

(** X28.  The document tool returns a clarify document as it is, without the
    blanks around it and with no template around it: a clarify document
    has a heading and three sections.  The document is taken free of the
    banned tokens, which the tool would cut out. *)
Theorem clarify_document_is_not_wrapped W step_title task_goal assumptions constraints
  title doc_type ctx :
  let doc := _make_clarify_doc step_title task_goal assumptions constraints in
  existsb (fun token => contains token (lower doc)) DocWriter.banned_tokens = false ->
  DocWriter.doc_write W (VStr title) (VStr doc) doc_type (VDict ctx) = Ok (VStr (strip doc)).
Proof.
  cbv zeta. intros Hc.
  pose proof (clarify_doc_full step_title task_goal assumptions constraints) as F.
  now apply doc_write_passes_full.
Qed.

Lemma clarify_document_is_not_wrapped_example :
  existsb (fun token => contains token
                          (lower (_make_clarify_doc "Write pricing" "" [] [])))
    DocWriter.banned_tokens = false
  /\ DocWriter.doc_write unreachable (VStr "Clarify: Write pricing")
       (VStr (_make_clarify_doc "Write pricing" "" [] [])) (VStr "generic") (VDict [])
     = Ok (VStr (strip (_make_clarify_doc "Write pricing" "" [] []))).
Proof.
  split; [vm_compute; reflexivity|].
  apply (clarify_document_is_not_wrapped unreachable "Write pricing" "" [] []
           "Clarify: Write pricing" (VStr "generic") []).
  vm_compute. reflexivity.
Defined.

(** X29.  In mock mode, with the registered tools behind it, a step returns the
    clarify document of its title for a missing goal, whatever the memory
    holds: the mock decision carries no goal.  The step title is such that
    the document holds none of the banned tokens. *)
Theorem mock_step_returns_clarify W task_id step_id step_title memory st :
  strip (lower (LLM_PROVIDER W)) = "mock" ->
  (forall t n kwargs, tool_body W t n kwargs = registered W t kwargs) ->
  existsb (fun token => contains token (lower (_make_clarify_doc step_title "" [] [])))
    DocWriter.banned_tokens = false ->
  exists output final_decision st',
    run_step W task_id step_id step_title memory st
    = (Ok (VStr output, final_decision), st')
    /\ strip output = strip (_make_clarify_doc step_title "" [] []).
Proof.
  intros Hm HW Hc.
  set (user := user_prompt W step_title memory).
  assert (L : llm_json W EXECUTOR_SYSTEM user st = (Ok (mock_decision user), st)).
  { unfold llm_json. rewrite Hm. reflexivity. }
  pose proof (decide_cases W task_id step_id step_title memory st) as C.
  fold user in C. rewrite L in C.
  destruct C as (d & p & st0 & Ed & Hp & _ & Hd & _ & _).
  unfold mock_decision in Ed. inversion Ed; subst d. clear Ed.
  change (Spec.tool_of _) with "doc_write" in Hp.
  change (dict_get "args" (VDict []) _)
    with (VDict [("title", VStr "Mock Output"); ("content", VStr user)]) in Hp.
  rewrite prepare_doc_write in Hp. cbv zeta in Hp.
  change (is_empty (enforced_goal _)) with true in Hp. cbv iota in Hp.
  inversion Hp; subst p. clear Hp.
  set (d0 := [("title", VStr "Mock Output"); ("content", VStr user)]) in *.
  set (p := mk_prepared "doc_write" doc_write (VDict (Spec.clarified step_title d0))
              (Spec.clarified step_title d0)) in *.
  assert (Hx : Spec.doc_prepared p d0).
  { split; [reflexivity|]. split; [reflexivity|]. eexists. split; reflexivity. }
  destruct (run_step_summary _ _ _ _ _ _ _ _ _ Hd (or_introl (ex_intro _ d0 Hx)))
    as (st' & Hr & _).
  assert (V : last_attempt W step_title p st0
              = Ok (VStr (strip (_make_clarify_doc step_title "" [] [])))).
  { unfold last_attempt. cbv zeta. rewrite HW.
    change (registered W (p_tool p) (p_clean_args p))
      with (DocWriter.doc_write W (VStr (_clarify_title step_title))
              (VStr (_make_clarify_doc step_title "" [] [])) (VStr "generic")
              (VDict (enforced_context d0))).
    now rewrite (doc_write_passes_full _ _ _ _ _ Hc (clarify_doc_full _ _ _ _)). }
  rewrite V, (checked_doc _ _ _ _ _ Hx) in Hr. cbv zeta in Hr.
  change (_make_clarify_doc step_title (enforced_goal d0) (enforced_assumptions d0)
            (enforced_constraints d0))
    with (_make_clarify_doc step_title "" [] []) in Hr.
  destruct (Spec.fires _ _ _); eexists; eexists; exists st'; (split; [exact Hr|]).
  - reflexivity.
  - cbn [py_str]. apply strip_idem.
Qed.

Lemma mock_step_returns_clarify_example :
  exists output final_decision st',
    run_step (with_registered offline) "task" "step" "Write pricing" [] initial
    = (Ok (VStr output, final_decision), st')
    /\ strip output = strip (_make_clarify_doc "Write pricing" "" [] []).
Proof.
  apply (mock_step_returns_clarify (with_registered offline) "task" "step" "Write pricing"
           [] initial).
  - reflexivity.
  - intros t n kwargs. reflexivity.
  - vm_compute. reflexivity.
Defined.

End ClarifyThroughTool.

(** ** The drift check on a templated document *)

Section QuotedGoal.

Lemma runs_from_app p cur a c b :
  p c = false ->
  runs_from p cur (a ++ String c b) = (runs_from p cur a ++ runs_from p "" b)%list.
Proof.
  intros Hc. revert cur. induction a as [|x r IH]; intros cur.
  - simpl. rewrite Hc. destruct (is_empty cur); reflexivity.
  - simpl. destruct (p x); [apply IH|].
    destruct (is_empty cur); rewrite IH; reflexivity.
Qed.

Lemma findall_quoted pre g post :
  findall_lower_alnum (pre ++ " " ++ g ++ nl ++ post)
  = (findall_lower_alnum pre ++ findall_lower_alnum g ++ findall_lower_alnum post)%list.
Proof.
  unfold findall_lower_alnum.
  change (pre ++ " " ++ g ++ nl ++ post) with (pre ++ String " " (g ++ String "010" post)).
  rewrite runs_from_app by reflexivity. now rewrite runs_from_app by reflexivity.
Qed.

Lemma filter_all {A} (f : A -> bool) l : (forall x, In x l -> f x = true) -> filter f l = l.
Proof.
  induction l as [|x r IH]; intros H; [reflexivity|]. simpl.
  rewrite (H x) by (simpl; auto). rewrite IH; [reflexivity|].
  intros y Hy. apply H. simpl. auto.
Qed.

(** On a text that quotes the goal between a blank and a line break, the
    word-overlap test of the drift check cannot fire for a goal of two
    long words or more: what is left is the keyword test. *)
Lemma quoted_goal_drift task_goal step_title pre post :
  2 <= List.length (long_words (lower task_goal)) ->
  _likely_domain_drift task_goal step_title (pre ++ " " ++ task_goal ++ nl ++ post)
  = token_drift task_goal (pre ++ " " ++ task_goal ++ nl ++ post).
Proof.
  intros Hw. set (out := pre ++ " " ++ task_goal ++ nl ++ post).
  unfold _likely_domain_drift, token_drift.
  assert (E : is_empty (strip (lower task_goal)) = false).
  { apply is_empty_false. intros Q.
    assert (Z : lower task_goal = "" \/ exists c r, lower task_goal = String c r) by
      (destruct (lower task_goal); eauto).
    destruct (long_words (lower task_goal)) eqn:L; [simpl in Hw; lia|].
    assert (I : In s (long_words (lower task_goal))) by (rewrite L; simpl; auto).
    apply In_long_words in I. destruct I as [I _].
    (* a blank text has no word *)
    assert (B : forall t cur, strip t = "" -> runs_from is_lower_alnum cur t
                                              = if is_empty cur then [] else [cur]).
    { clear. intros t. unfold strip. induction t as [|c r IH]; intros cur H; [reflexivity|].
      simpl in H. destruct (is_space c) eqn:Sc.
      - simpl. replace (is_lower_alnum c) with false.
        + rewrite IH by exact H. destruct (is_empty cur); reflexivity.
        + destruct c as [[] [] [] [] [] [] [] []]; try discriminate; reflexivity.
      - exfalso. simpl in H. destruct (rstrip r); [rewrite Sc in H|]; discriminate. }
    unfold findall_lower_alnum in I. rewrite (B _ _ Q) in I. destruct I. }
  rewrite E.
  destruct (existsb _ _DRIFT_TOKENS); [reflexivity|].
  assert (A : forall x, In x (long_words (lower task_goal)) ->
                        mem x (long_words (lower out)) = true).
  { intros x Hx. apply mem_In. apply In_long_words. apply In_long_words in Hx.
    destruct Hx as [Hx Hl]. split; [|exact Hl].
    unfold out. rewrite !lower_app.
    change (lower " ") with " ". change (lower nl) with nl.
    rewrite findall_quoted. apply in_or_app. right. apply in_or_app. now left. }
  destruct (long_words (lower task_goal)) as [|w ws] eqn:L; [simpl in Hw; lia|].
  cbv zeta. unfold overlap_count. rewrite (filter_all _ _ A).
  apply Nat.ltb_ge in Hw. now rewrite Hw.
Qed.

Lemma meta_block_quotes task_goal assumptions constraints memory :
  task_goal <> "" ->
  exists tail,
    DocWriter.meta_block (DocWriter.meta_lines task_goal assumptions constraints memory)
    = "- **Task goal:**" ++ " " ++ task_goal ++ tail
    /\ (tail = "" \/ exists t, tail = nl ++ t).
Proof.
  intros H. apply is_empty_false in H. unfold DocWriter.meta_lines. rewrite H. cbv zeta.
  match goal with |- context [([?x] ++ ?rest)%list] => generalize rest end.
  intros rest. destruct rest as [|y rest].
  - exists "". split; [|now left]. cbn. now rewrite sapp_nil_r.
  - eexists. split; [|right; eexists; reflexivity].
    unfold DocWriter.meta_block. cbn [app map String.concat].
    cbn. rewrite ?sapp_assoc. reflexivity.
Qed.

Ltac template_context :=
  eexists; unfold lines; cbn [String.concat]; cbn;
  repeat (rewrite !sapp_assoc; cbn); reflexivity.

Lemma rendered_context doc_type title meta objective body :
  exists tail,
    (if DocWriter.is_type doc_type "prd" then DocWriter.template_prd title meta body
     else if DocWriter.is_type doc_type "gtm" then DocWriter.template_gtm title meta body
     else if DocWriter.is_type doc_type "integration_plan"
          then DocWriter.template_integration_plan title meta body
     else if DocWriter.is_type doc_type "test_plan"
          then DocWriter.template_test_plan title meta body
     else if DocWriter.is_type doc_type "checklist"
          then DocWriter.template_checklist title meta body
     else DocWriter.template_generic title meta objective body)
    = ("# " ++ title ++ nl ++ nl ++ "## Context" ++ nl) ++ meta ++ nl ++ tail.
Proof.
  repeat match goal with
  | |- context [if DocWriter.is_type ?d ?n then _ else _] =>
      destruct (DocWriter.is_type d n)
  end.
  - unfold DocWriter.template_prd. template_context.
  - unfold DocWriter.template_gtm. template_context.
  - unfold DocWriter.template_integration_plan. template_context.
  - unfold DocWriter.template_test_plan. template_context.
  - unfold DocWriter.template_checklist. template_context.
  - unfold DocWriter.template_generic. template_context.
Qed.

(** X30.  On a document the tool wraps in a template, the word-overlap test of
    the drift check cannot fire when the goal has two long words or more:
    the context block of every template quotes the goal.  The drift check
    is then the keyword test alone: a drift keyword that occurs in the
    document and not in the goal. *)
Theorem templated_document_drifts_by_keyword_only W title content doc_type ctx step_title s :
  let task_goal := strip (py_str (dict_get "task_goal" (VStr "") ctx)) in
  DocWriter.doc_write W (VStr title) content doc_type (VDict ctx) = Ok (VStr s) ->
  DocWriter._looks_like_full_doc (DocWriter._no_placeholder (DocWriter._to_md W content))
  = false ->
  2 <= List.length (long_words (lower task_goal)) ->
  _likely_domain_drift task_goal step_title s = token_drift task_goal s.
Proof.
  cbv zeta. intros H F Hw.
  set (task_goal := strip (py_str (dict_get "task_goal" (VStr "") ctx))) in *.
  assert (G : task_goal <> "").
  { intros Q. rewrite Q in Hw. simpl in Hw. lia. }
  revert H. unfold DocWriter.doc_write.
  assert (T : exists t, py_or (VStr title) (VStr "") = VStr t).
  { unfold py_or. destruct (truthy (VStr title)); eauto. }
  destruct T as [t ->].
  assert (C : py_or (VDict ctx) (VDict []) = VDict ctx).
  { unfold py_or. destruct ctx; reflexivity. }
  rewrite C, F. fold task_goal. intros H. injection H as <-.
  destruct (meta_block_quotes task_goal
              (DocWriter._compact_list (dict_get "assumptions" VNone ctx))
              (DocWriter._compact_list (dict_get "constraints" VNone ctx))
              (py_or (dict_get "memory" VNone ctx) (VDict [])) G) as (tail & -> & Ht).
  match goal with |- context [if DocWriter.is_type _ "prd" then ?a else _] =>
    match a with DocWriter.template_prd ?ti ?me ?bo =>
      destruct (rendered_context doc_type ti me
                  (or_default task_goal "Define the objective for this document.") bo)
        as [rest ->]
    end
  end.
  destruct Ht as [-> | [t' ->]].
  - rewrite sapp_nil_r.
    replace (("# " ++ or_default (strip t) "Document" ++ nl ++ nl ++ "## Context" ++ nl)
             ++ ("- **Task goal:**" ++ " " ++ task_goal) ++ nl ++ rest)
      with (("# " ++ or_default (strip t) "Document" ++ nl ++ nl ++ "## Context" ++ nl
             ++ "- **Task goal:**") ++ " " ++ task_goal ++ nl ++ rest)
      by (repeat (rewrite !sapp_assoc; cbn); reflexivity).
    now apply quoted_goal_drift.
  - replace (("# " ++ or_default (strip t) "Document" ++ nl ++ nl ++ "## Context" ++ nl)
             ++ ("- **Task goal:**" ++ " " ++ task_goal ++ nl ++ t') ++ nl ++ rest)
      with (("# " ++ or_default (strip t) "Document" ++ nl ++ nl ++ "## Context" ++ nl
             ++ "- **Task goal:**") ++ " " ++ task_goal ++ nl ++ (t' ++ nl ++ rest))
      by (repeat (rewrite !sapp_assoc; cbn); reflexivity).
    now apply quoted_goal_drift.
Qed.

Lemma templated_document_drifts_by_keyword_only_example :
  exists s,
    DocWriter.doc_write unreachable (VStr "Pricing") (VStr "Tiers, limits and billing")
      (VStr "prd") (VDict [("task_goal", VStr "mobile fitness app")]) = Ok (VStr s)
    /\ _likely_domain_drift "mobile fitness app" "Write pricing" s
       = token_drift "mobile fitness app" s.
Proof.
  eexists. split; [vm_compute; reflexivity|].
  apply (templated_document_drifts_by_keyword_only unreachable "Pricing"
           (VStr "Tiers, limits and billing") (VStr "prd")
           [("task_goal", VStr "mobile fitness app")] "Write pricing").
  - vm_compute. reflexivity.
  - vm_compute. reflexivity.
  - vm_compute. lia.
Defined.

End QuotedGoal.
